(** * Signing-authorization core of the Tezos Ledger application

    A shallow embedding of [src/baking_auth.c], [src/apdu_sign.c] and
    [src/main.c], and the properties of the anti-double-signing guard, the
    packet framer and the incremental hasher that hold (or fail) on it.

    Conventions of the embedding:
    - a [uintN_t] is a [Z] in [0, 2^N); a buffer of bytes is a [list byte];
    - a C array together with the variable that tracks how much of it is in
      use is kept as the whole array plus that length, as the code has it;
    - global variables live in a world record threaded through a state and
      exception monad; [THROW] is [throw], and the state at a [THROW] is the
      state the program had reached;
    - pointers passed to the functions are valid, so [check_null] is
      silent; the one pointer the code compares with NULL is an [option];
    - functions and constants whose definition is outside the three files
      (hash primitive, signature primitive, structured parser, wire readers)
      are section variables or the fields of a [Platform] class. *)

From Stdlib Require Import ZArith Lia List Bool String.
From stdpp Require Import base decidable numbers list.
Import ListNotations.

#[local] Open Scope Z_scope.

(** ** Machine data *)

Definition byte := Z.
Definition level_t := Z.

(** [READ_UNALIGNED_BIG_ENDIAN(uint32_t, p)] on the four bytes at [p]. *)
Definition read_unaligned_big_endian32 (bs : list byte) : Z :=
  match bs with
  | b0 :: b1 :: b2 :: b3 :: _ =>
      Z.lor (Z.shiftl b0 24) (Z.lor (Z.shiftl b1 16) (Z.lor (Z.shiftl b2 8) b3))
  | _ => 0
  end.

(** [memcpy(dst, src, n * sizeof( *src))] on arrays of words: the first [n]
    cells of [dst] are replaced, the others keep what they held. *)
Definition memcpy_words (dst src : list Z) (n : Z) : list Z :=
  take (Z.to_nat n) src ++ drop (Z.to_nat n) dst.

(** [memmove(dst + off, src, length src)] on byte arrays. *)
Definition memmove_at (dst : list byte) (off : Z) (src : list byte) : list byte :=
  take (Z.to_nat off) dst ++ src ++ drop (Z.to_nat off + length src) dst.

(** [memcmp(a, b, n * sizeof( *a)) == 0]. *)
Definition memcmp_words_eq (a b : list Z) (n : Z) : bool :=
  bool_decide (take (Z.to_nat n) a = take (Z.to_nat n) b).

Inductive cx_curve_t : Type :=
| CX_CURVE_NONE
| CX_CURVE_SECP256K1
| CX_CURVE_SECP256R1
| CX_CURVE_Ed25519.

#[global] Instance cx_curve_t_eq_dec : EqDecision cx_curve_t.
Proof. solve_decision. Defined.

(** Status words raised with [THROW].  The named ones come from the headers;
    [EXC_raw] carries a literal status word such as [THROW(0x6B00)];
    [ASYNC_EXCEPTION] is how a prompt hands control back to the event loop. *)
Inductive exception : Type :=
| EXC_WRONG_PARAM
| EXC_WRONG_LENGTH_FOR_INS
| EXC_PARSE_ERROR
| EXC_SECURITY
| EXC_MEMORY_ERROR
| EXC_WRONG_VALUES
| ASYNC_EXCEPTION
| EXC_raw (sw : Z).

#[global] Instance exception_eq_dec : EqDecision exception.
Proof. solve_decision. Defined.

(** ** State and exception monad *)

Inductive result (A : Type) : Type :=
| Ret (a : A)
| Throw (e : exception).
Arguments Ret {A} a.
Arguments Throw {A} e.

Definition M (W A : Type) : Type := W -> result A * W.

Definition ret {W A} (a : A) : M W A := fun w => (Ret a, w).
Definition throw {W A} (e : exception) : M W A := fun w => (Throw e, w).
Definition bind {W A B} (m : M W A) (k : A -> M W B) : M W B :=
  fun w => match m w with
           | (Ret a, w') => k a w'
           | (Throw e, w') => (Throw e, w')
           end.
Definition gets {W A} (f : W -> A) : M W A := fun w => (Ret (f w), w).
Definition modify {W} (f : W -> W) : M W unit := fun w => (Ret tt, f w).
Definition when {W} (b : bool) (m : M W unit) : M W unit :=
  if b then m else ret tt.

(** Run a computation on a component of the world. *)
Definition zoom {W V A} (get : W -> V) (set : V -> W -> W) (m : M V A) : M W A :=
  fun w => let (r, v) := m (get w) in (r, set v w).

Declare Scope monad_scope.
Delimit Scope monad_scope with monad.
Notation "x <- m ;; k" := (bind m (fun x => k))
  (at level 20, m at level 99, k at level 200, only parsing) : monad_scope.
Notation "m ;; k" := (bind m (fun _ => k))
  (at level 100, k at level 200, right associativity, only parsing) : monad_scope.
#[local] Open Scope monad_scope.

Definition is_ret {A} (r : result A) : bool :=
  match r with Ret _ => true | Throw _ => false end.

(** [m] keeps the property [I] of the world, however it ends. *)
Definition preserves {W A} (I : W -> Prop) (m : M W A) : Prop :=
  forall w, I w -> I (snd (m w)).

(** ** [src/baking_auth.c] *)

Module BakingAuth.

(** The record kept in non-volatile memory ([N_data]). *)
Record nvram_data : Type := {
  curve : cx_curve_t;
  path_length : Z;
  bip32_path : list Z;
  highest_level : level_t;
  had_endorsement : bool;
}.

#[global] Instance nvram_data_eq_dec : EqDecision nvram_data.
Proof. solve_decision. Defined.

Record parsed_baking_data : Type := {
  is_endorsement : bool;
  level : level_t;
}.

#[global] Instance parsed_baking_data_eq_dec : EqDecision parsed_baking_data.
Proof. solve_decision. Defined.

(** What leaves the application: a whole-record write to non-volatile
    memory, a refresh of the idle screen, a signature. *)
Inductive event : Type :=
| EvNvmWrite (rec : nvram_data)
| EvIdleDisplay (lvl : level_t)
| EvSign (c : cx_curve_t) (path : list Z) (msg : list byte).

#[global] Instance event_eq_dec : EqDecision event.
Proof. solve_decision. Defined.

Record nvram_world : Type := {
  N_data : nvram_data;
  trace : list event;
}.

Definition emit (e : event) : M nvram_world unit :=
  modify (fun w => {| N_data := N_data w; trace := trace w ++ [e] |}).

(** [nvm_write((void* )&N_data, &src, sizeof(N_data))]. *)
Definition nvm_write (src : nvram_data) : M nvram_world unit :=
  modify (fun w => {| N_data := src; trace := trace w |}) ;;
  emit (EvNvmWrite src).

Definition change_idle_display (lvl : level_t) : M nvram_world unit :=
  emit (EvIdleDisplay lvl).

Inductive magic_byte_t : Type :=
| MAGIC_BYTE_INVALID
| MAGIC_BYTE_BLOCK
| MAGIC_BYTE_BAKING_OP
| MAGIC_BYTE_UNSAFE_OP
| MAGIC_BYTE_UNSAFE_OP2
| MAGIC_BYTE_UNSAFE_OP3
| MAGIC_BYTE_other (b : byte).

#[global] Instance magic_byte_t_eq_dec : EqDecision magic_byte_t.
Proof. solve_decision. Defined.

(** [sizeof(struct block)] and [sizeof(struct endorsement)], both packed, and
    the offsets of their [level] fields. *)
Definition sizeof_block : Z := 1 + 4 + 4 + 1.
Definition sizeof_endorsement : Z := 1 + 4 + 32 + 1 + 4.
Definition offsetof_block_level : nat := 5.
Definition offsetof_endorsement_level : nat := 38.

Section baking_auth.

(** Declared in [protocol.h] and [paths.h], which are not part of the three
    files. *)
Variable get_magic_byte : list byte -> magic_byte_t.
Variable MAX_BIP32_PATH : Z.

Definition is_valid_level (lvl : level_t) : bool :=
  Z.land lvl 0xC0000000 =? 0.

Definition write_highest_level (lvl : level_t) (is_endorsement : bool)
  : M nvram_world unit :=
  if negb (is_valid_level lvl) then ret tt
  else
    new_data <- gets N_data ;;
    let new_data :=
      {| curve := curve new_data;
         path_length := path_length new_data;
         bip32_path := bip32_path new_data;
         highest_level := lvl;
         had_endorsement := is_endorsement |} in
    nvm_write new_data ;;
    lvl' <- gets (fun w => highest_level (N_data w)) ;;
    change_idle_display lvl'.

(** [new_baking_details] is an automatic variable that the function never
    initialises as a whole: [uninit] is what its storage holds on entry.
    [bip32_path = None] is the NULL pointer. *)
Definition authorize_baking (uninit : nvram_data)
    (curve : cx_curve_t) (bip32_path : option (list Z)) (path_length : Z)
  : M nvram_world unit :=
  match bip32_path with
  | None => ret tt
  | Some path =>
      if (path_length >? MAX_BIP32_PATH) || (path_length =? 0) then ret tt
      else
        lvl <- gets (fun w => highest_level (N_data w)) ;;
        let new_baking_details :=
          {| curve := curve;
             path_length := path_length;
             bip32_path :=
               memcpy_words (BakingAuth.bip32_path uninit) path path_length;
             highest_level := lvl;
             had_endorsement := had_endorsement uninit |} in
        nvm_write new_baking_details ;;
        lvl' <- gets (fun w => highest_level (N_data w)) ;;
        change_idle_display lvl'
  end.

Definition is_level_authorized (nv : nvram_data) (level : level_t)
    (is_endorsement : bool) : bool :=
  if negb (is_valid_level level) then false
  else if level >? highest_level nv then true
  else is_endorsement && negb (had_endorsement nv).

Definition is_path_authorized (nv : nvram_data) (curve : cx_curve_t)
    (bip32_path : option (list Z)) (path_length : Z) : bool :=
  match bip32_path with
  | None => false
  | Some path =>
      negb (path_length =? 0)
      && (path_length =? BakingAuth.path_length nv)
      && bool_decide (curve = BakingAuth.curve nv)
      && memcmp_words_eq path (BakingAuth.bip32_path nv) path_length
  end.

(** Returns [None] for [false]; [Some out] for [true] with [*out] filled.
    [MAGIC_BYTE_other] is a leading byte that is none of the named ones. *)
Definition parse_baking_data (data : list byte) : option parsed_baking_data :=
  let length := Z.of_nat (length data) in
  match get_magic_byte data with
  | MAGIC_BYTE_BAKING_OP =>
      if negb (length =? sizeof_endorsement) then None
      else Some {| is_endorsement := true;
                   level := read_unaligned_big_endian32
                              (drop offsetof_endorsement_level data) |}
  | MAGIC_BYTE_BLOCK =>
      if length <? sizeof_block then None
      else Some {| is_endorsement := false;
                   level := read_unaligned_big_endian32
                              (drop offsetof_block_level data) |}
  | _ => None
  end.

Definition guard_baking_authorized (curve : cx_curve_t) (data : list byte)
    (bip32_path : option (list Z)) (path_length : Z) : M nvram_world unit :=
  nv <- gets N_data ;;
  if negb (is_path_authorized nv curve bip32_path path_length)
  then throw EXC_SECURITY
  else
    match parse_baking_data data with
    | None => throw EXC_SECURITY
    | Some baking_info =>
        if negb (is_level_authorized nv (level baking_info)
                   (is_endorsement baking_info))
        then throw EXC_SECURITY
        else ret tt
    end.

Definition update_high_water_mark (data : list byte) : M nvram_world unit :=
  match parse_baking_data data with
  | None => ret tt
  | Some baking_info =>
      write_highest_level (level baking_info) (is_endorsement baking_info)
  end.

End baking_auth.

End BakingAuth.

(** ** [src/apdu_sign.c] *)

Module ApduSign.

Import BakingAuth.

(** *** Types of the headers

    The enumerations and structures below are declared in headers outside
    the three files; they have the constants and the fields that
    [apdu_sign.c] names.  [OPERATION_TAG_other] stands for a tag value that
    is none of the named constants. *)

Inductive operation_tag : Type :=
| OPERATION_TAG_NONE
| OPERATION_TAG_PROPOSAL
| OPERATION_TAG_BALLOT
| OPERATION_TAG_ATHENS_REVEAL
| OPERATION_TAG_ATHENS_TRANSACTION
| OPERATION_TAG_ATHENS_ORIGINATION
| OPERATION_TAG_ATHENS_DELEGATION
| OPERATION_TAG_BABYLON_REVEAL
| OPERATION_TAG_BABYLON_TRANSACTION
| OPERATION_TAG_BABYLON_ORIGINATION
| OPERATION_TAG_BABYLON_DELEGATION
| OPERATION_TAG_other (raw : Z).

#[global] Instance operation_tag_eq_dec : EqDecision operation_tag.
Proof. solve_decision. Defined.

Inductive signature_type_t : Type :=
| SIGNATURE_TYPE_UNSET
| SIGNATURE_TYPE_SECP256K1
| SIGNATURE_TYPE_SECP256R1
| SIGNATURE_TYPE_ED25519.

#[global] Instance signature_type_t_eq_dec : EqDecision signature_type_t.
Proof. solve_decision. Defined.

Inductive ballot_vote_t : Type :=
| BALLOT_VOTE_YEA
| BALLOT_VOTE_NAY
| BALLOT_VOTE_PASS.

#[global] Instance ballot_vote_t_eq_dec : EqDecision ballot_vote_t.
Proof. solve_decision. Defined.

Record parsed_contract : Type := {
  originated : Z;
  signature_type : signature_type_t;
  hash : list byte;
}.

#[global] Instance parsed_contract_eq_dec : EqDecision parsed_contract.
Proof. solve_decision. Defined.

Record parsed_operation : Type := {
  tag : operation_tag;
  source : parsed_contract;
  destination : parsed_contract;
  delegate : parsed_contract;
  amount : Z;
  flags : Z;
  is_manager_tz_operation : bool;
  ballot_vote : ballot_vote_t;
}.

Record parsed_operation_group : Type := {
  operation : parsed_operation;
  signing : parsed_contract;
  total_fee : Z;
  total_storage_limit : Z;
}.

(** [bip32_path_t]; the field [length] of the C structure is [path_len]
    here. *)
Record bip32_path_t : Type := {
  path_len : Z;
  components : list Z;
}.

Record bip32_path_with_curve_t : Type := {
  bip32_path : bip32_path_t;
  derivation_type : cx_curve_t;
}.

(** The instruction byte; [handle_apdu] only tells [INS_SIGN_UNSAFE] and
    [INS_SIGN_WITH_HASH] from the rest. *)
Inductive instruction_t : Type :=
| INS_SIGN
| INS_SIGN_UNSAFE
| INS_SIGN_WITH_HASH.

#[global] Instance instruction_t_eq_dec : EqDecision instruction_t.
Proof. solve_decision. Defined.

(** [COMPARE(a, b) == 0]: the two structures hold the same bytes. *)
Definition COMPARE_eq (a b : parsed_contract) : bool := bool_decide (a = b).

(** What [apdu_sign.c] uses and does not define: constants of the headers
    ([sizeof_message_data] is [sizeof(G.message_data)]), the hash primitive
    with its state ([b2b_zero] is the state of all-zero bytes, [b2b_final]
    gives the digest written to [out] and the state left), the readers of
    the wire format and the structured parser, which return [Throw] where
    the C functions [THROW], and the signature primitive. *)
Class Platform : Type := {
  (* constants *)
  MAX_BIP32_PATH : Z;
  MAX_APDU_SIZE : Z;
  MAX_SIGNATURE_SIZE : Z;
  SIGN_HASH_SIZE : Z;
  sizeof_message_data : Z;
  ORIGINATION_FLAG_SPENDABLE : Z;
  ORIGINATION_FLAG_DELEGATABLE : Z;
  (* blake2.h *)
  b2b_state : Type;
  b2b_zero : b2b_state;
  b2b_init : Z -> b2b_state;
  b2b_update : b2b_state -> list byte -> b2b_state;
  b2b_final : b2b_state -> Z -> list byte * b2b_state;
  (* protocol.h *)
  get_magic_byte : list byte -> magic_byte_t;
  parse_operations :
    list byte -> cx_curve_t -> bip32_path_t -> (operation_tag -> bool) ->
    bool * parsed_operation_group;
  (* keys.h, apdu.h *)
  read_bip32_path : list byte -> result bip32_path_t;
  parse_derivation_type : Z -> result cx_curve_t;
  sign : Z -> cx_curve_t -> bip32_path_t -> list byte -> result (list byte);
}.

Definition B2B_BLOCKBYTES : Z := 128.

Definition P1_FIRST : Z := 0x00.
Definition P1_NEXT : Z := 0x01.
Definition P1_HASH_ONLY_NEXT : Z := 0x03.
Definition P1_LAST_MARKER : Z := 0x80.

(** Offsets into [G_io_apdu_buffer]; [OFFSET_CURVE] is the P2 byte. *)
Definition OFFSET_P1 : nat := 2.
Definition OFFSET_CURVE : nat := 3.
Definition OFFSET_LC : nat := 4.
Definition OFFSET_CDATA : nat := 5.

(** [READ_UNALIGNED_BIG_ENDIAN(uint8_t, &buf[off])]. *)
Definition load8 (buf : list byte) (off : nat) : Z :=
  default 0 (buf !! off) mod 256.

Section apdu_sign.

Context `{P : Platform}.

(** [#ifdef BAKING_APP]. *)
Variable BAKING_APP : bool.

(** *** Session state *)

Record blake2b_hash_state_t : Type := {
  initialized : bool;
  state : b2b_state;
}.

Record maybe_ops_t : Type := {
  is_valid : bool;
  v : parsed_operation_group;
}.

Inductive buffer_ref : Type :=
| buffer_null
| buffer_message_data
| buffer_final_hash.

Record buffer_t : Type := {
  bytes : buffer_ref;
  size : Z;
  length_ : Z;
}.

(** The structure [global.apdu.u.sign]. *)
Record sign_globals : Type := {
  key : bip32_path_with_curve_t;
  packet_index : Z;
  message_data : list byte;
  message_data_length : Z;
  message_data_as_buffer : buffer_t;
  hash_state : blake2b_hash_state_t;
  final_hash : list byte;
  magic_byte : magic_byte_t;
  maybe_ops : maybe_ops_t;
  parsed_baking_data : BakingAuth.parsed_baking_data;
  hash_only : bool;
}.

Inductive ui_callback_t : Type :=
| sign_without_hash_ok
| sign_with_hash_ok
| sign_reject
| sign_unsafe_ok.

Inductive ui_value : Type :=
| ui_static (text : string)
| ui_callback (formatter : string).

(** The pending confirmation: the labels given to [ui_prompt], the values
    registered for them, and the two continuations. *)
Record prompt : Type := {
  prompts : list string;
  values : list (Z * ui_value);
  ok_cb : ui_callback_t;
  cxl_cb : ui_callback_t;
}.

Record world : Type := {
  nvram : nvram_world;
  G : sign_globals;
  G_io_apdu_buffer : list byte;
  ui_values : list (Z * ui_value);
  ui : option prompt;
  sent : list (list byte);
}.


Definition with_key (x : bip32_path_with_curve_t) (g : sign_globals) :=
  Build_sign_globals x (packet_index g) (message_data g) (message_data_length g)
    (message_data_as_buffer g) (hash_state g) (final_hash g) (magic_byte g)
    (maybe_ops g) (parsed_baking_data g) (hash_only g).
Definition with_packet_index (x : Z) (g : sign_globals) :=
  Build_sign_globals (key g) x (message_data g) (message_data_length g)
    (message_data_as_buffer g) (hash_state g) (final_hash g) (magic_byte g)
    (maybe_ops g) (parsed_baking_data g) (hash_only g).
Definition with_message_data (x : list byte) (g : sign_globals) :=
  Build_sign_globals (key g) (packet_index g) x (message_data_length g)
    (message_data_as_buffer g) (hash_state g) (final_hash g) (magic_byte g)
    (maybe_ops g) (parsed_baking_data g) (hash_only g).
Definition with_message_data_length (x : Z) (g : sign_globals) :=
  Build_sign_globals (key g) (packet_index g) (message_data g) x
    (message_data_as_buffer g) (hash_state g) (final_hash g) (magic_byte g)
    (maybe_ops g) (parsed_baking_data g) (hash_only g).
Definition with_message_data_as_buffer (x : buffer_t) (g : sign_globals) :=
  Build_sign_globals (key g) (packet_index g) (message_data g)
    (message_data_length g) x (hash_state g) (final_hash g) (magic_byte g)
    (maybe_ops g) (parsed_baking_data g) (hash_only g).
Definition with_hash_state (x : blake2b_hash_state_t) (g : sign_globals) :=
  Build_sign_globals (key g) (packet_index g) (message_data g)
    (message_data_length g) (message_data_as_buffer g) x (final_hash g)
    (magic_byte g) (maybe_ops g) (parsed_baking_data g) (hash_only g).
Definition with_final_hash (x : list byte) (g : sign_globals) :=
  Build_sign_globals (key g) (packet_index g) (message_data g)
    (message_data_length g) (message_data_as_buffer g) (hash_state g) x
    (magic_byte g) (maybe_ops g) (parsed_baking_data g) (hash_only g).
Definition with_magic_byte (x : magic_byte_t) (g : sign_globals) :=
  Build_sign_globals (key g) (packet_index g) (message_data g)
    (message_data_length g) (message_data_as_buffer g) (hash_state g)
    (final_hash g) x (maybe_ops g) (parsed_baking_data g) (hash_only g).
Definition with_maybe_ops (x : maybe_ops_t) (g : sign_globals) :=
  Build_sign_globals (key g) (packet_index g) (message_data g)
    (message_data_length g) (message_data_as_buffer g) (hash_state g)
    (final_hash g) (magic_byte g) x (parsed_baking_data g) (hash_only g).
Definition with_parsed_baking_data (x : BakingAuth.parsed_baking_data)
    (g : sign_globals) :=
  Build_sign_globals (key g) (packet_index g) (message_data g)
    (message_data_length g) (message_data_as_buffer g) (hash_state g)
    (final_hash g) (magic_byte g) (maybe_ops g) x (hash_only g).
Definition with_hash_only (x : bool) (g : sign_globals) :=
  Build_sign_globals (key g) (packet_index g) (message_data g)
    (message_data_length g) (message_data_as_buffer g) (hash_state g)
    (final_hash g) (magic_byte g) (maybe_ops g) (parsed_baking_data g) x.

Definition with_nvram (x : nvram_world) (w : world) :=
  Build_world x (G w) (G_io_apdu_buffer w) (ui_values w) (ui w) (sent w).
Definition with_G (x : sign_globals) (w : world) :=
  Build_world (nvram w) x (G_io_apdu_buffer w) (ui_values w) (ui w) (sent w).
Definition with_G_io_apdu_buffer (x : list byte) (w : world) :=
  Build_world (nvram w) (G w) x (ui_values w) (ui w) (sent w).
Definition with_ui_values (x : list (Z * ui_value)) (w : world) :=
  Build_world (nvram w) (G w) (G_io_apdu_buffer w) x (ui w) (sent w).
Definition with_ui (x : option prompt) (w : world) :=
  Build_world (nvram w) (G w) (G_io_apdu_buffer w) (ui_values w) x (sent w).
Definition with_sent (x : list (list byte)) (w : world) :=
  Build_world (nvram w) (G w) (G_io_apdu_buffer w) (ui_values w) (ui w) x.

Definition on_G {A} (m : M sign_globals A) : M world A := zoom G with_G m.
Definition on_nvram {A} (m : M nvram_world A) : M world A :=
  zoom nvram with_nvram m.

Definition PARSE_ERROR {W A} : M W A := throw EXC_PARSE_ERROR.

(** The all-zero session that [memset(&G, 0, sizeof(G))] leaves.  The value
    zero of an enumeration is taken to be [MAGIC_BYTE_INVALID],
    [CX_CURVE_NONE], [SIGNATURE_TYPE_UNSET], [BALLOT_VOTE_YEA], and a tag
    that is none of the named ones. *)
Definition zero_contract : parsed_contract :=
  {| originated := 0; signature_type := SIGNATURE_TYPE_UNSET;
     hash := [] |}.

Definition zero_globals : sign_globals :=
  {| key := {| bip32_path :=
                 {| path_len := 0;
                    components := replicate (Z.to_nat MAX_BIP32_PATH) 0 |};
               derivation_type := CX_CURVE_NONE |};
     packet_index := 0;
     message_data := replicate (Z.to_nat sizeof_message_data) 0;
     message_data_length := 0;
     message_data_as_buffer :=
       {| bytes := buffer_null; size := 0; length_ := 0 |};
     hash_state := {| initialized := false; state := b2b_zero |};
     final_hash := replicate (Z.to_nat SIGN_HASH_SIZE) 0;
     magic_byte := MAGIC_BYTE_INVALID;
     maybe_ops :=
       {| is_valid := false;
          v := {| operation :=
                    {| tag := OPERATION_TAG_other 0;
                       source := zero_contract;
                       destination := zero_contract;
                       delegate := zero_contract;
                       amount := 0; flags := 0;
                       is_manager_tz_operation := false;
                       ballot_vote := BALLOT_VOTE_YEA |};
                  signing := zero_contract;
                  total_fee := 0; total_storage_limit := 0 |} |};
     parsed_baking_data := {| is_endorsement := false; level := 0 |};
     hash_only := false |}.

(** *** The incremental hasher *)

(** The three in/out arguments of the hasher: the buffer, the number of
    bytes of it still to hash, and the hash state. *)
Record hash_args : Type := {
  buff : list byte;
  buff_length : Z;
  st : blake2b_hash_state_t;
}.

Definition conditional_init_hash_state (s : blake2b_hash_state_t)
  : blake2b_hash_state_t :=
  if negb (initialized s)
  then {| initialized := true; state := b2b_init SIGN_HASH_SIZE |}
  else s.

(** The [while] loop of [blake2b_incremental_hash]; [current] is the offset
    [current - out].  Each turn takes [B2B_BLOCKBYTES] off the length, so
    [fuel] turns are enough as soon as [fuel] is at least the length. *)
Fixpoint incremental_hash_loop (fuel : nat) (out_size : Z) (current : Z)
  : M hash_args Z :=
  a <- gets id ;;
  if buff_length a >? B2B_BLOCKBYTES then
    match fuel with
    | O => ret current
    | S fuel' =>
        if current >? out_size then throw EXC_MEMORY_ERROR
        else
          let s := conditional_init_hash_state (st a) in
          let s :=
            {| initialized := initialized s;
               state :=
                 b2b_update (state s)
                   (take (Z.to_nat B2B_BLOCKBYTES)
                      (drop (Z.to_nat current) (buff a))) |} in
          modify (fun a =>
            {| buff := buff a;
               buff_length := buff_length a - B2B_BLOCKBYTES;
               st := s |}) ;;
          incremental_hash_loop fuel' out_size (current + B2B_BLOCKBYTES)
    end
  else ret current.

Definition blake2b_incremental_hash (out_size : Z) : M hash_args unit :=
  len <- gets buff_length ;;
  current <- incremental_hash_loop (Z.to_nat len) out_size 0 ;;
  modify (fun a =>
    {| buff :=
         memmove_at (buff a) 0
           (take (Z.to_nat (buff_length a))
              (drop (Z.to_nat current) (buff a)));
       buff_length := buff_length a;
       st := st a |}).

(** Returns the bytes written to [out]. *)
Definition blake2b_finish_hash (out_size : Z) (buff_size : Z)
  : M hash_args (list byte) :=
  modify (fun a =>
    {| buff := buff a; buff_length := buff_length a;
       st := conditional_init_hash_state (st a) |}) ;;
  blake2b_incremental_hash buff_size ;;
  a <- gets id ;;
  let s := b2b_update (state (st a)) (take (Z.to_nat (buff_length a)) (buff a)) in
  let (digest, s) := b2b_final s out_size in
  modify (fun a =>
    {| buff := buff a; buff_length := buff_length a;
       st := {| initialized := initialized (st a); state := s |} |}) ;;
  ret digest.

(** The hasher applied to [G.message_data], [G.message_data_length] and
    [G.hash_state]. *)
Definition on_message_data {A} (m : M hash_args A) : M world A :=
  on_G (zoom
    (fun g => {| buff := message_data g;
                 buff_length := message_data_length g;
                 st := hash_state g |})
    (fun a g =>
       with_message_data (buff a)
         (with_message_data_length (buff_length a)
            (with_hash_state (st a) g)))
    m).

Definition clear_data : M world unit :=
  modify (with_G zero_globals).


(** *** Responses and prompts *)

(** As [perform_signature] of [main.c] ends: the success status word goes
    after the [tx] bytes of the response. *)
Definition finalize_successful_send (tx : Z) : M world Z :=
  modify (fun w =>
    with_G_io_apdu_buffer (memmove_at (G_io_apdu_buffer w) tx [0x90; 0x00]) w) ;;
  ret (tx + 2).

Definition delayed_send (tx : Z) : M world unit :=
  modify (fun w => with_sent (sent w ++ [take (Z.to_nat tx) (G_io_apdu_buffer w)]) w).

(** As [delay_reject] of [main.c]. *)
Definition delay_reject : M world unit :=
  modify (fun w =>
    with_G_io_apdu_buffer (memmove_at (G_io_apdu_buffer w) 0 [0x69; 0x85]) w) ;;
  delayed_send 2.

Definition register_ui_callback (index : Z) (formatter : string)
  : M world unit :=
  modify (fun w => with_ui_values (ui_values w ++ [(index, ui_callback formatter)]) w).

Definition REGISTER_STATIC_UI_VALUE (index : Z) (text : string)
  : M world unit :=
  modify (fun w => with_ui_values (ui_values w ++ [(index, ui_static text)]) w).

(** Modelled from the spec: [ui_prompt] is not in the three files.  Section
    4.5: confirmation is the single suspension point, the controller returns
    control to the caller and is resumed later through exactly one of the
    two continuations.  The pending prompt is stored and control leaves the
    handler. *)
Definition ui_prompt {A} (labels : list string) (ok_c cxl_c : ui_callback_t)
  : M world A :=
  modify (fun w =>
    with_ui (Some {| prompts := labels; values := ui_values w;
                     ok_cb := ok_c; cxl_cb := cxl_c |}) w) ;;
  throw ASYNC_EXCEPTION.

(** *** Allowed operations *)

Definition is_operation_allowed (tag : operation_tag) : bool :=
  match tag with
  | OPERATION_TAG_ATHENS_DELEGATION => true
  | OPERATION_TAG_ATHENS_REVEAL => true
  | OPERATION_TAG_BABYLON_DELEGATION => true
  | OPERATION_TAG_BABYLON_REVEAL => true
  | OPERATION_TAG_PROPOSAL
  | OPERATION_TAG_BALLOT
  | OPERATION_TAG_ATHENS_ORIGINATION
  | OPERATION_TAG_ATHENS_TRANSACTION
  | OPERATION_TAG_BABYLON_ORIGINATION
  | OPERATION_TAG_BABYLON_TRANSACTION => negb BAKING_APP
  | _ => false
  end.

Definition parse_allowed_operations (inp : list byte)
    (key : bip32_path_with_curve_t) : bool * parsed_operation_group :=
  parse_operations inp (derivation_type key) (bip32_path key)
    is_operation_allowed.

(** *** Signature *)

(** Modelled from the spec: [write_high_water_mark] is not in the three
    files.  Section 4.4, [record_success(level, is_endorsement)]: persists
    the new high-water mark as a single atomic record replace; it is
    [write_highest_level] of [baking_auth.c] on the parsed level and kind. *)
Definition write_high_water_mark (d : BakingAuth.parsed_baking_data)
  : M world unit :=
  on_nvram (write_highest_level (level d) (is_endorsement d)).

(** [WITH_KEY_PAIR(G.key, key_pair, size_t, ({ sign(out, ...) }))]: the key
    pair of [G.key] is generated, the signature of at most
    [MAX_SIGNATURE_SIZE] bytes is written at [G_io_apdu_buffer + tx], and
    its length is returned; a failure of either step is a [THROW]. *)
Definition sign_with_key (tx : Z) (key : bip32_path_with_curve_t)
    (data : list byte) : M world Z :=
  match sign MAX_SIGNATURE_SIZE (derivation_type key) (bip32_path key) data with
  | Throw e => throw e
  | Ret sig =>
      on_nvram (emit (EvSign (derivation_type key)
                        (take (Z.to_nat (path_len (bip32_path key)))
                           (components (bip32_path key)))
                        data)) ;;
      modify (fun w =>
        with_G_io_apdu_buffer (memmove_at (G_io_apdu_buffer w) tx sig) w) ;;
      ret (Z.of_nat (length sig))
  end.

(** The part of [perform_signature] after the conditional compilation. *)
Definition sign_and_send (on_hash send_hash : bool) : M world Z :=
  g <- gets G ;;
  let tx := 0 in
  tx <- (if send_hash && on_hash then
           modify (fun w =>
             with_G_io_apdu_buffer
               (memmove_at (G_io_apdu_buffer w) tx (final_hash g)) w) ;;
           ret (tx + SIGN_HASH_SIZE)
         else ret tx) ;;
  let data :=
    if on_hash then final_hash g
    else take (Z.to_nat (message_data_length g)) (message_data g) in
  n <- sign_with_key tx (key g) data ;;
  let tx := tx + n in
  clear_data ;;
  finalize_successful_send tx.

Definition perform_signature (on_hash send_hash : bool) : M world Z :=
  g <- gets G ;;
  if BAKING_APP then
    write_high_water_mark (parsed_baking_data g) ;;
    sign_and_send on_hash send_hash
  else if on_hash && hash_only g then
    modify (fun w =>
      with_G_io_apdu_buffer
        (memmove_at (G_io_apdu_buffer w) 0 (final_hash g)) w) ;;
    clear_data ;;
    finalize_successful_send SIGN_HASH_SIZE
  else sign_and_send on_hash send_hash.

Definition sign_without_hash_ok_fn : M world bool :=
  tx <- perform_signature true false ;; delayed_send tx ;; ret true.

Definition sign_with_hash_ok_fn : M world bool :=
  tx <- perform_signature true true ;; delayed_send tx ;; ret true.

Definition sign_reject_fn : M world bool :=
  clear_data ;; delay_reject ;; ret true.

Definition sign_unsafe_ok_fn : M world bool :=
  tx <- perform_signature false false ;; delayed_send tx ;; ret true.

(** Calling through a [ui_callback_t] function pointer. *)
Definition call_ui_callback (cb : ui_callback_t) : M world bool :=
  match cb with
  | sign_without_hash_ok => sign_without_hash_ok_fn
  | sign_with_hash_ok => sign_with_hash_ok_fn
  | sign_reject => sign_reject_fn
  | sign_unsafe_ok => sign_unsafe_ok_fn
  end.


(** *** Baking application *)

Definition prompt_register_delegate {A} (ok_cb cxl_cb : ui_callback_t)
  : M world A :=
  g <- gets G ;;
  if negb (is_valid (maybe_ops g)) then throw EXC_MEMORY_ERROR
  else
    REGISTER_STATIC_UI_VALUE 0 "as delegate?" ;;
    register_ui_callback 1 "bip32_path_with_curve_to_pkh_string" ;;
    register_ui_callback 2 "microtez_to_string_indirect" ;;
    ui_prompt ["Register"; "Address"; "Fee"]%string ok_cb cxl_cb.

(** Modelled from the spec: this [guard_baking_authorized], on the parsed
    baking data and the session key, is not in the three files.  Section 4.4
    (a): a security error unless the session key is the authorized key and
    the level and kind satisfy the high-water-mark rule; the two tests are
    [is_path_authorized] and [is_level_authorized] of [baking_auth.c]. *)
Definition guard_baking_authorized (d : BakingAuth.parsed_baking_data)
    (key : bip32_path_with_curve_t) : M world unit :=
  nv <- gets (fun w => N_data (nvram w)) ;;
  if negb (is_path_authorized nv (derivation_type key)
             (Some (components (bip32_path key)))
             (path_len (bip32_path key)))
  then throw EXC_SECURITY
  else if negb (is_level_authorized nv (level d) (is_endorsement d))
  then throw EXC_SECURITY
  else ret tt.

(** Modelled from the spec: [bip32_path_with_curve_eq] and the field
    [N_data.baking_key] are not in the three files.  Section 3: signing for
    baking mode requires curve and path to match the authorized key
    exactly. *)
Definition N_data_baking_key (nv : nvram_data) : bip32_path_with_curve_t :=
  {| bip32_path := {| path_len := BakingAuth.path_length nv;
                      components := BakingAuth.bip32_path nv |};
     derivation_type := BakingAuth.curve nv |}.

Definition bip32_path_with_curve_eq (a b : bip32_path_with_curve_t) : bool :=
  (path_len (bip32_path a) =? path_len (bip32_path b))
  && memcmp_words_eq (components (bip32_path a)) (components (bip32_path b))
       (path_len (bip32_path a))
  && bool_decide (derivation_type a = derivation_type b).

Definition baking_sign_complete (send_hash : bool) : M world Z :=
  g <- gets G ;;
  match magic_byte g with
  | MAGIC_BYTE_BLOCK
  | MAGIC_BYTE_BAKING_OP =>
      guard_baking_authorized (parsed_baking_data g) (key g) ;;
      perform_signature true send_hash
  | MAGIC_BYTE_UNSAFE_OP =>
      if negb (is_valid (maybe_ops g)) then PARSE_ERROR
      else
        nv <- gets (fun w => N_data (nvram w)) ;;
        let ops := v (maybe_ops g) in
        if bip32_path_with_curve_eq (key g) (N_data_baking_key nv)
           && COMPARE_eq (source (operation ops)) (signing ops)
           && COMPARE_eq (destination (operation ops)) (signing ops)
        then
          let ok_c := if send_hash then sign_with_hash_ok
                      else sign_without_hash_ok in
          prompt_register_delegate ok_c sign_reject
        else throw EXC_SECURITY
  | _ => PARSE_ERROR
  end.

(** *** Wallet application *)

Definition prompt_transaction (ops : parsed_operation_group)
    (ok cxl : ui_callback_t) : M world bool :=
  let op := operation ops in
  match tag op with
  | OPERATION_TAG_PROPOSAL =>
      register_ui_callback 1 "parsed_contract_to_string" ;;
      register_ui_callback 2 "number_to_string_indirect32" ;;
      register_ui_callback 3 "protocol_hash_to_string" ;;
      REGISTER_STATIC_UI_VALUE 0 "Proposal" ;;
      ui_prompt ["Confirm"; "Source"; "Period"; "Protocol"]%string ok cxl
  | OPERATION_TAG_BALLOT =>
      register_ui_callback 1 "parsed_contract_to_string" ;;
      register_ui_callback 2 "protocol_hash_to_string" ;;
      register_ui_callback 3 "number_to_string_indirect32" ;;
      REGISTER_STATIC_UI_VALUE 0
        (match ballot_vote op with
         | BALLOT_VOTE_YEA => "Yea"
         | BALLOT_VOTE_NAY => "Nay"
         | BALLOT_VOTE_PASS => "Pass"
         end) ;;
      ui_prompt ["Confirm Vote"; "Source"; "Protocol"; "Period"]%string ok cxl
  | OPERATION_TAG_ATHENS_ORIGINATION
  | OPERATION_TAG_BABYLON_ORIGINATION =>
      register_ui_callback 3 "parsed_contract_to_string" ;;
      register_ui_callback 4 "parsed_contract_to_string" ;;
      register_ui_callback 2 "microtez_to_string_indirect" ;;
      register_ui_callback 6 "number_to_string_indirect64" ;;
      if Z.land (flags op) ORIGINATION_FLAG_SPENDABLE =? 0 then ret false
      else
        REGISTER_STATIC_UI_VALUE 0 "Origination" ;;
        register_ui_callback 1 "microtez_to_string_indirect" ;;
        let delegatable :=
          negb (Z.land (flags op) ORIGINATION_FLAG_DELEGATABLE =? 0) in
        let has_delegate :=
          negb (bool_decide
                  (signature_type (delegate op) = SIGNATURE_TYPE_UNSET)) in
        let fixed :=
          ["Confirm"; "Amount"; "Fee"; "Source"; "Manager"; "Fixed Delegate";
           "Storage Limit"]%string in
        let delegatable_prompts :=
          ["Confirm"; "Amount"; "Fee"; "Source"; "Manager"; "Delegate";
           "Storage Limit"]%string in
        let undelegatable :=
          ["Confirm"; "Amount"; "Fee"; "Source"; "Manager"; "Delegation";
           "Storage Limit"]%string in
        if delegatable && has_delegate then
          register_ui_callback 5 "parsed_contract_to_string" ;;
          ui_prompt delegatable_prompts ok cxl
        else if delegatable && negb has_delegate then
          REGISTER_STATIC_UI_VALUE 5 "Any" ;;
          ui_prompt delegatable_prompts ok cxl
        else if negb delegatable && has_delegate then
          register_ui_callback 5 "parsed_contract_to_string" ;;
          ui_prompt fixed ok cxl
        else
          REGISTER_STATIC_UI_VALUE 5 "Disabled" ;;
          ui_prompt undelegatable ok cxl
  | OPERATION_TAG_ATHENS_DELEGATION
  | OPERATION_TAG_BABYLON_DELEGATION =>
      register_ui_callback 2 "parsed_contract_to_string" ;;
      register_ui_callback 3 "parsed_contract_to_string" ;;
      register_ui_callback 1 "microtez_to_string_indirect" ;;
      register_ui_callback 4 "number_to_string_indirect64" ;;
      REGISTER_STATIC_UI_VALUE 0
        (if is_manager_tz_operation op then "Mgr.tz Delegation"
         else "Delegation") ;;
      let withdrawal :=
        (originated (destination op) =? 0)
        && bool_decide
             (signature_type (destination op) = SIGNATURE_TYPE_UNSET) in
      ui_prompt
        (if withdrawal
         then ["Withdraw"; "Fee"; "Source"; "Delegate"; "Storage Limit"]
         else ["Confirm"; "Fee"; "Source"; "Delegate"; "Storage Limit"])%string
        ok cxl
  | OPERATION_TAG_ATHENS_TRANSACTION
  | OPERATION_TAG_BABYLON_TRANSACTION =>
      register_ui_callback 3 "parsed_contract_to_string" ;;
      register_ui_callback 4 "parsed_contract_to_string" ;;
      register_ui_callback 2 "microtez_to_string_indirect" ;;
      register_ui_callback 5 "number_to_string_indirect64" ;;
      register_ui_callback 1 "microtez_to_string_indirect" ;;
      REGISTER_STATIC_UI_VALUE 0
        (if is_manager_tz_operation op then "Mgr.tz Transaction"
         else "Transaction") ;;
      ui_prompt
        ["Confirm"; "Amount"; "Fee"; "Source"; "Destination";
         "Storage Limit"]%string ok cxl
  | OPERATION_TAG_NONE =>
      register_ui_callback 1 "parsed_contract_to_string" ;;
      register_ui_callback 2 "microtez_to_string_indirect" ;;
      REGISTER_STATIC_UI_VALUE 0 "To Blockchain" ;;
      register_ui_callback 3 "number_to_string_indirect64" ;;
      register_ui_callback 1 "parsed_contract_to_string" ;;
      ui_prompt ["Reveal Key"; "Key"; "Fee"; "Storage Limit"]%string ok cxl
  | _ => PARSE_ERROR
  end.

Definition wallet_sign_complete (instruction : instruction_t) : M world Z :=
  REGISTER_STATIC_UI_VALUE 0 "Operation" ;;
  if bool_decide (instruction = INS_SIGN_UNSAFE) then
    modify (fun w =>
      with_G (with_message_data_as_buffer
                {| bytes := buffer_message_data;
                   size := sizeof_message_data;
                   length_ := message_data_length (G w) |} (G w)) w) ;;
    register_ui_callback 1 "buffer_to_base58" ;;
    ui_prompt ["Pre-hashed"; "Sign Hash"]%string sign_unsafe_ok sign_reject
  else
    let ok_c :=
      if bool_decide (instruction = INS_SIGN_WITH_HASH)
      then sign_with_hash_ok else sign_without_hash_ok in
    let unsafe : M world Z :=
      modify (fun w =>
        with_G (with_message_data_as_buffer
                  {| bytes := buffer_final_hash;
                     size := SIGN_HASH_SIZE;
                     length_ := SIGN_HASH_SIZE |} (G w)) w) ;;
      register_ui_callback 1 "buffer_to_base58" ;;
      ui_prompt ["Unrecognized"; "Sign Hash"]%string ok_c sign_reject in
    g <- gets G ;;
    match magic_byte g with
    | MAGIC_BYTE_UNSAFE_OP =>
        (if negb (is_valid (maybe_ops g)) then ret tt
         else _ <- prompt_transaction (v (maybe_ops g)) ok_c sign_reject ;;
              ret tt) ;;
        unsafe
    | MAGIC_BYTE_UNSAFE_OP2
    | MAGIC_BYTE_UNSAFE_OP3 => unsafe
    | _ => PARSE_ERROR
    end.

(** *** The packet handler *)

Definition get_magic_byte_or_throw (buff : list byte) : M world magic_byte_t :=
  let magic_byte := get_magic_byte buff in
  match magic_byte with
  | MAGIC_BYTE_BLOCK
  | MAGIC_BYTE_BAKING_OP =>
      if BAKING_APP then ret magic_byte else PARSE_ERROR
  | MAGIC_BYTE_UNSAFE_OP => ret magic_byte
  | _ => PARSE_ERROR
  end.

(** The statements of [handle_apdu] that parse the packet carrying the
    operation header ([if (enable_parsing) { ... }]). *)
Definition parse_packet (buff : list byte) : M world unit :=
  g <- gets G ;;
  if BAKING_APP then
    if negb (packet_index g =? 1) then PARSE_ERROR
    else
      magic <- get_magic_byte_or_throw buff ;;
      modify (fun w => with_G (with_magic_byte magic (G w)) w) ;;
      if bool_decide (magic = MAGIC_BYTE_UNSAFE_OP) then
        let (ok, ops) := parse_allowed_operations buff (key g) in
        modify (fun w =>
          with_G (with_maybe_ops {| is_valid := ok; v := ops |} (G w)) w)
      else
        match parse_baking_data get_magic_byte buff with
        | None => PARSE_ERROR
        | Some d =>
            modify (fun w => with_G (with_parsed_baking_data d (G w)) w)
        end
  else
    if packet_index g =? 1 then
      magic <- get_magic_byte_or_throw buff ;;
      modify (fun w => with_G (with_magic_byte magic (G w)) w) ;;
      let (ok, ops) := parse_allowed_operations buff (key g) in
      modify (fun w =>
        with_G (with_maybe_ops {| is_valid := ok; v := ops |} (G w)) w)
    else
      modify (fun w =>
        with_G (with_maybe_ops
                  {| is_valid := false; v := v (maybe_ops (G w)) |}
                  (G w)) w).

(** [blake2b_incremental_hash(G.message_data, sizeof(G.message_data),
    &G.message_data_length, &G.hash_state)]. *)
Definition hash_message_data : M world unit :=
  on_message_data (blake2b_incremental_hash sizeof_message_data).

(** The overflow guard of [handle_apdu] and the copy it protects. *)
Definition append_message_data (buff : list byte) (buff_size : Z)
  : M world unit :=
  g <- gets G ;;
  if message_data_length g + buff_size >? sizeof_message_data
  then PARSE_ERROR
  else
    modify (fun w =>
      with_G (with_message_data
                (memmove_at (message_data (G w))
                   (message_data_length (G w)) buff) (G w)) w) ;;
    modify (fun w =>
      with_G (with_message_data_length
                (message_data_length (G w) + buff_size) (G w)) w).

(** The hashing of the last packet: the incremental step and then
    [blake2b_finish_hash] into [G.final_hash]. *)
Definition finish_message_data : M world unit :=
  hash_message_data ;;
  digest <- on_message_data
              (blake2b_finish_hash SIGN_HASH_SIZE sizeof_message_data) ;;
  modify (fun w => with_G (with_final_hash digest (G w)) w).

(** What [handle_apdu] does with the bytes of one packet, from the hashing
    of the previous packets to the final hash. *)
Definition accumulate (enable_hashing : bool) (buff : list byte)
    (buff_size : Z) (last : bool) : M world unit :=
  when enable_hashing hash_message_data ;;
  append_message_data buff buff_size ;;
  when (last && enable_hashing) finish_message_data.

Definition handle_apdu (instruction : instruction_t) : M world Z :=
  let enable_hashing := negb (bool_decide (instruction = INS_SIGN_UNSAFE)) in
  let enable_parsing := enable_hashing in
  io <- gets G_io_apdu_buffer ;;
  let buff := drop OFFSET_CDATA io in
  let p1 := load8 io OFFSET_P1 in
  let buff_size := load8 io OFFSET_LC in
  let buff := take (Z.to_nat buff_size) buff in
  if buff_size >? MAX_APDU_SIZE then throw EXC_WRONG_LENGTH_FOR_INS
  else
    let last := negb (Z.land p1 P1_LAST_MARKER =? 0) in
    let kind := Z.land p1 (Z.lnot P1_LAST_MARKER) in
    if kind =? P1_FIRST then
      clear_data ;;
      match read_bip32_path buff with
      | Throw e => throw e
      | Ret path =>
          modify (fun w =>
            with_G (with_key {| bip32_path := path;
                                derivation_type := derivation_type (key (G w)) |}
                      (G w)) w) ;;
          match parse_derivation_type (load8 io OFFSET_CURVE) with
          | Throw e => throw e
          | Ret dt =>
              modify (fun w =>
                with_G (with_key {| bip32_path := bip32_path (key (G w));
                                    derivation_type := dt |} (G w)) w) ;;
              finalize_successful_send 0
          end
      end
    else if (negb BAKING_APP && (kind =? P1_HASH_ONLY_NEXT)) || (kind =? P1_NEXT)
    then
      when (negb BAKING_APP && (kind =? P1_HASH_ONLY_NEXT))
        (modify (fun w => with_G (with_hash_only true (G w)) w)) ;;
      g <- gets G ;;
      if path_len (bip32_path (key g)) =? 0 then throw EXC_WRONG_LENGTH_FOR_INS
      else if packet_index g >=? 0xFF then PARSE_ERROR
      else
        modify (fun w =>
          with_G (with_packet_index (packet_index (G w) + 1) (G w)) w) ;;
        when enable_parsing (parse_packet buff) ;;
        accumulate enable_hashing buff buff_size last ;;
        if last then
          if BAKING_APP
          then baking_sign_complete
                 (bool_decide (instruction = INS_SIGN_WITH_HASH))
          else wallet_sign_complete instruction
        else finalize_successful_send 0
    else throw EXC_WRONG_PARAM.

End apdu_sign.

End ApduSign.

(** ** [src/main.c] *)

Module Main.

Definition P1_FIRST : Z := 0x00.
Definition P1_NEXT : Z := 0x01.
Definition P1_LAST_MARKER : Z := 0x80.

Definition OFFSET_P1 : nat := 2.
Definition OFFSET_P2 : nat := 3.
Definition OFFSET_LC : nat := 4.
Definition OFFSET_CDATA : nat := 5.

Definition TEZOS_BUFSIZE : Z := 1024.
Definition HASH_SIZE : Z := 32.

Definition load8 (buf : list byte) (off : nat) : Z :=
  default 0 (buf !! off) mod 256.

(** The fields of [operationContext_t] that signing reads or writes. *)
Record operationContext_t : Type := {
  path_length : Z;
  bip32_path : list Z;
  curve : cx_curve_t;
  data : list byte;
  datalen : Z;
  hash : list byte;
}.

Inductive screen_t : Type :=
| ui_bake_screen
| ui_sign_screen.

Inductive callback_t : Type :=
| bake_ok
| sign_ok
| sign_cancel.

Record world : Type := {
  nvram : BakingAuth.nvram_world;
  operationContext : operationContext_t;
  G_io_apdu_buffer : list byte;
  keyPath : string;
  ui : option (screen_t * callback_t * callback_t);
}.

(** What [main.c] uses and does not define. *)
Class Platform : Type := {
  IO_ASYNCH_REPLY : Z;
  CX_ECCINFO_PARITY_ODD : Z;
  get_magic_byte : list byte -> BakingAuth.magic_byte_t;
  blake2b : Z -> list byte -> list byte;
  os_perso_derive_node_bip32 : cx_curve_t -> list Z -> Z -> list byte;
  cx_eddsa_sign : list byte -> list byte -> list byte;
  cx_ecdsa_sign : list byte -> list byte -> list byte * Z;
  read_bip32_path : list byte -> Z * list Z;
  path_to_string : Z -> list Z -> string;
  is_baking_authorized :
    BakingAuth.nvram_data -> list byte -> list Z -> Z -> bool;
}.

Section main.

Context `{P : Platform}.

Definition with_nvram (x : BakingAuth.nvram_world) (w : world) :=
  Build_world x (operationContext w) (G_io_apdu_buffer w) (keyPath w) (ui w).
Definition with_operationContext (x : operationContext_t) (w : world) :=
  Build_world (nvram w) x (G_io_apdu_buffer w) (keyPath w) (ui w).
Definition with_G_io_apdu_buffer (x : list byte) (w : world) :=
  Build_world (nvram w) (operationContext w) x (keyPath w) (ui w).
Definition with_keyPath (x : string) (w : world) :=
  Build_world (nvram w) (operationContext w) (G_io_apdu_buffer w) x (ui w).
Definition with_ui (x : option (screen_t * callback_t * callback_t))
    (w : world) :=
  Build_world (nvram w) (operationContext w) (G_io_apdu_buffer w) (keyPath w) x.

Definition with_hash (x : list byte) (c : operationContext_t) :=
  Build_operationContext_t (path_length c) (bip32_path c) (curve c) (data c)
    (datalen c) x.
Definition with_data (x : list byte) (c : operationContext_t) :=
  Build_operationContext_t (path_length c) (bip32_path c) (curve c) x
    (datalen c) (hash c).
Definition with_datalen (x : Z) (c : operationContext_t) :=
  Build_operationContext_t (path_length c) (bip32_path c) (curve c) (data c)
    x (hash c).
Definition with_path (n : Z) (x : list Z) (c : operationContext_t) :=
  Build_operationContext_t n x (curve c) (data c) (datalen c) (hash c).
Definition with_curve (x : cx_curve_t) (c : operationContext_t) :=
  Build_operationContext_t (path_length c) (bip32_path c) x (data c)
    (datalen c) (hash c).

Definition on_nvram {A} (m : M BakingAuth.nvram_world A) : M world A :=
  zoom nvram with_nvram m.

Definition store_apdu (off : Z) (bs : list byte) : M world unit :=
  modify (fun w =>
    with_G_io_apdu_buffer (memmove_at (G_io_apdu_buffer w) off bs) w).

Definition perform_signature (tx : Z) : M world Z :=
  c <- gets operationContext ;;
  on_nvram (BakingAuth.update_high_water_mark get_magic_byte
              (take (Z.to_nat (datalen c)) (data c))) ;;
  modify (fun w =>
    with_operationContext
      (with_hash (blake2b HASH_SIZE (take (Z.to_nat (datalen c)) (data c)))
         (operationContext w)) w) ;;
  c <- gets operationContext ;;
  let privateKeyData :=
    os_perso_derive_node_bip32 (curve c) (bip32_path c) (path_length c) in
  let signed :=
    BakingAuth.EvSign (curve c)
      (take (Z.to_nat (path_length c)) (bip32_path c)) (hash c) in
  tx <- match curve c with
        | CX_CURVE_Ed25519 =>
            let sig := cx_eddsa_sign privateKeyData (hash c) in
            on_nvram (BakingAuth.emit signed) ;;
            store_apdu tx sig ;;
            ret (tx + Z.of_nat (length sig))
        | CX_CURVE_SECP256K1 =>
            let prevtx := tx in
            let (sig, info) := cx_ecdsa_sign privateKeyData (hash c) in
            on_nvram (BakingAuth.emit signed) ;;
            store_apdu tx sig ;;
            let tx := tx + Z.of_nat (length sig) in
            when (negb (Z.land info CX_ECCINFO_PARITY_ODD =? 0))
              (io <- gets G_io_apdu_buffer ;;
               store_apdu prevtx
                 [Z.lor (load8 io (Z.to_nat prevtx)) 0x01]) ;;
            ret tx
        | _ => throw (EXC_raw 0x6B00)
        end ;;
  store_apdu tx [0x90; 0x00] ;;
  ret (tx + 2).

Definition return_ok {A} : M world A := throw (EXC_raw 0x9000).

Definition UI_PROMPT (screen : screen_t) (ok cancel : callback_t)
  : M world unit :=
  modify (with_ui (Some (screen, ok, cancel))).

(** The [INS_SIGN] case of [sample_main]; [tx] and [flags] are the locals of
    that name, returned as they stand at the [break]. *)
Definition ins_sign (tx flags : Z) : M world (Z * Z) :=
  io <- gets G_io_apdu_buffer ;;
  let p1 := load8 io OFFSET_P1 in
  let dataBuffer := drop OFFSET_CDATA io in
  let dataLength := load8 io OFFSET_LC in
  let last := negb (Z.land p1 P1_LAST_MARKER =? 0) in
  let p1 := Z.land p1 (Z.lnot P1_LAST_MARKER) in
  if p1 =? P1_FIRST then
    modify (fun w =>
      with_operationContext
        (with_datalen 0
           (with_data (replicate (Z.to_nat TEZOS_BUFSIZE) 0)
              (operationContext w))) w) ;;
    (let (n, path) := read_bip32_path dataBuffer in
     modify (fun w =>
       with_operationContext (with_path n path (operationContext w)) w)) ;;
    modify (fun w =>
      with_operationContext
        (match load8 io OFFSET_P2 with
         | 0 => with_curve CX_CURVE_Ed25519 (operationContext w)
         | 1 => with_curve CX_CURVE_SECP256K1 (operationContext w)
         | 2 => with_curve CX_CURVE_SECP256R1 (operationContext w)
         | _ => operationContext w
         end) w) ;;
    return_ok
  else if negb (p1 =? P1_NEXT) then throw (EXC_raw 0x6B00)
  else if load8 io OFFSET_P2 >? 2 then throw (EXC_raw 0x6B00)
  else
    c <- gets operationContext ;;
    if datalen c + dataLength >? TEZOS_BUFSIZE then throw (EXC_raw 0x6C00)
    else
      modify (fun w =>
        with_operationContext
          (with_data
             (memmove_at (data (operationContext w))
                (datalen (operationContext w))
                (take (Z.to_nat dataLength) dataBuffer))
             (operationContext w)) w) ;;
      modify (fun w =>
        with_operationContext
          (with_datalen (datalen (operationContext w) + dataLength)
             (operationContext w)) w) ;;
      if negb last then return_ok
      else
        c <- gets operationContext ;;
        modify (with_keyPath (path_to_string (path_length c) (bip32_path c))) ;;
        nv <- gets (fun w => BakingAuth.N_data (nvram w)) ;;
        let d := take (Z.to_nat (datalen c)) (data c) in
        match get_magic_byte d with
        | BakingAuth.MAGIC_BYTE_BLOCK
        | BakingAuth.MAGIC_BYTE_BAKING_OP =>
            if is_baking_authorized nv d (bip32_path c) (path_length c) then
              tx <- perform_signature tx ;;
              ret (tx, flags)
            else
              UI_PROMPT ui_bake_screen bake_ok sign_cancel ;;
              ret (tx, Z.lor flags IO_ASYNCH_REPLY)
        | BakingAuth.MAGIC_BYTE_UNSAFE_OP
        | BakingAuth.MAGIC_BYTE_UNSAFE_OP2
        | BakingAuth.MAGIC_BYTE_UNSAFE_OP3 =>
            UI_PROMPT ui_sign_screen sign_ok sign_cancel ;;
            ret (tx, Z.lor flags IO_ASYNCH_REPLY)
        | _ => throw (EXC_raw 0x6C00)
        end.

End main.

End Main.

(** ** A sample platform

    Concrete values for what the headers leave open, used to run the model
    on explicit inputs.  The leading bytes 1, 2, 3, 4, 5 stand for a block,
    an endorsement and the three unsafe operation formats. *)

Module Sample.

Definition get_magic_byte (data : list byte) : BakingAuth.magic_byte_t :=
  match data with
  | [] => BakingAuth.MAGIC_BYTE_INVALID
  | b :: _ =>
      if b =? 0 then BakingAuth.MAGIC_BYTE_INVALID
      else if b =? 1 then BakingAuth.MAGIC_BYTE_BLOCK
      else if b =? 2 then BakingAuth.MAGIC_BYTE_BAKING_OP
      else if b =? 3 then BakingAuth.MAGIC_BYTE_UNSAFE_OP
      else if b =? 4 then BakingAuth.MAGIC_BYTE_UNSAFE_OP2
      else if b =? 5 then BakingAuth.MAGIC_BYTE_UNSAFE_OP3
      else BakingAuth.MAGIC_BYTE_other b
  end.

Definition MAX_BIP32_PATH : Z := 10.

(** The path 44'/1729' and an authorization record for it at level 100. *)
Definition path : list Z := [0x8000002C; 0x800006C1].

Definition padded_path : list Z := path ++ replicate 8 0.

Definition nv100 (endorsed : bool) : BakingAuth.nvram_data :=
  {| BakingAuth.curve := CX_CURVE_Ed25519;
     BakingAuth.path_length := 2;
     BakingAuth.bip32_path := padded_path;
     BakingAuth.highest_level := 100;
     BakingAuth.had_endorsement := endorsed |}.

(** An all-zero stack slot. *)
Definition zero_nvram_data : BakingAuth.nvram_data :=
  {| BakingAuth.curve := CX_CURVE_NONE;
     BakingAuth.path_length := 0;
     BakingAuth.bip32_path := replicate 10 0;
     BakingAuth.highest_level := 0;
     BakingAuth.had_endorsement := false |}.

Definition nvw (nv : BakingAuth.nvram_data) : BakingAuth.nvram_world :=
  {| BakingAuth.N_data := nv; BakingAuth.trace := [] |}.

(** A block header of ten bytes at level [lvl] (below 256). *)
Definition block_at (lvl : Z) : list byte :=
  [1; 0; 0; 0; 0; 0; 0; 0; lvl; 0].

(** Wire format of a path: a count, then so many big-endian words. *)
Fixpoint read_words (n : nat) (bs : list byte) : list Z :=
  match n with
  | O => []
  | S n' => read_unaligned_big_endian32 bs :: read_words n' (drop 4 bs)
  end.

Definition read_bip32_path (inp : list byte) : result ApduSign.bip32_path_t :=
  match inp with
  | [] => Throw EXC_WRONG_LENGTH_FOR_INS
  | n :: rest =>
      if Z.of_nat (length rest) <? 4 * n then Throw EXC_WRONG_LENGTH_FOR_INS
      else if (n =? 0) || (n >? MAX_BIP32_PATH) then Throw EXC_WRONG_VALUES
      else Ret {| ApduSign.path_len := n;
                  ApduSign.components :=
                    read_words (Z.to_nat n) rest
                    ++ replicate (Z.to_nat (MAX_BIP32_PATH - n)) 0 |}
  end.

Definition parse_derivation_type (b : Z) : result cx_curve_t :=
  if b =? 0 then Ret CX_CURVE_Ed25519
  else if b =? 1 then Ret CX_CURVE_SECP256K1
  else if b =? 2 then Ret CX_CURVE_SECP256R1
  else Throw EXC_WRONG_PARAM.

Definition zero_contract : ApduSign.parsed_contract :=
  {| ApduSign.originated := 0;
     ApduSign.signature_type := ApduSign.SIGNATURE_TYPE_UNSET;
     ApduSign.hash := [] |}.

(** A contract standing for the identity of the key at [path]. *)
Definition baker : ApduSign.parsed_contract :=
  {| ApduSign.originated := 0;
     ApduSign.signature_type := ApduSign.SIGNATURE_TYPE_ED25519;
     ApduSign.hash := replicate 20 7 |}.

Definition someone_else : ApduSign.parsed_contract :=
  {| ApduSign.originated := 0;
     ApduSign.signature_type := ApduSign.SIGNATURE_TYPE_ED25519;
     ApduSign.hash := replicate 20 9 |}.

Definition delegation (src dst : ApduSign.parsed_contract)
  : ApduSign.parsed_operation_group :=
  {| ApduSign.operation :=
       {| ApduSign.tag := ApduSign.OPERATION_TAG_BABYLON_DELEGATION;
          ApduSign.source := src;
          ApduSign.destination := dst;
          ApduSign.delegate := zero_contract;
          ApduSign.amount := 0;
          ApduSign.flags := 0;
          ApduSign.is_manager_tz_operation := false;
          ApduSign.ballot_vote := ApduSign.BALLOT_VOTE_YEA |};
     ApduSign.signing := baker;
     ApduSign.total_fee := 1000;
     ApduSign.total_storage_limit := 0 |}.

(** A parser that recognises nothing: every operation is left to the raw
    hash confirmation. *)
Definition parse_operations (inp : list byte) (c : cx_curve_t)
    (p : ApduSign.bip32_path_t) (allowed : ApduSign.operation_tag -> bool)
  : bool * ApduSign.parsed_operation_group :=
  (false, delegation zero_contract zero_contract).

(** A stand-in for the hash that tells apart different ways of feeding
    the same bytes: the state is the list of the updates made, the digest
    the lengths of the updates, zero padded. *)
Definition b2b_final (st : list (list byte)) (n : Z)
  : list byte * list (list byte) :=
  (take (Z.to_nat n)
     (map (fun c => Z.of_nat (length c)) st ++ replicate (Z.to_nat n) 0),
   st).

Definition sign (max : Z) (c : cx_curve_t) (p : ApduSign.bip32_path_t)
    (msg : list byte) : result (list byte) :=
  match c with
  | CX_CURVE_NONE => Throw EXC_WRONG_PARAM
  | _ => Ret (take 64 (msg ++ replicate 64 0))
  end.

#[local] Instance platform : ApduSign.Platform :=
  {| ApduSign.MAX_BIP32_PATH := MAX_BIP32_PATH;
     ApduSign.MAX_APDU_SIZE := 230;
     ApduSign.MAX_SIGNATURE_SIZE := 100;
     ApduSign.SIGN_HASH_SIZE := 32;
     ApduSign.sizeof_message_data := 1024;
     ApduSign.ORIGINATION_FLAG_SPENDABLE := 1;
     ApduSign.ORIGINATION_FLAG_DELEGATABLE := 2;
     ApduSign.b2b_state := list (list byte);
     ApduSign.b2b_zero := [];
     ApduSign.b2b_init := fun _ => [];
     ApduSign.b2b_update := fun st bs => st ++ [bs];
     ApduSign.b2b_final := b2b_final;
     ApduSign.get_magic_byte := get_magic_byte;
     ApduSign.parse_operations := parse_operations;
     ApduSign.read_bip32_path := read_bip32_path;
     ApduSign.parse_derivation_type := parse_derivation_type;
     ApduSign.sign := sign |}.

(** The device after power-up: key [path] authorized at level 100, no
    session, nothing in the APDU buffer. *)
Definition world0 : ApduSign.world :=
  {| ApduSign.nvram := nvw (nv100 false);
     ApduSign.G := ApduSign.zero_globals;
     ApduSign.G_io_apdu_buffer := replicate 260 0;
     ApduSign.ui_values := [];
     ApduSign.ui := None;
     ApduSign.sent := [] |}.

(** An APDU [CLA INS P1 P2 LC data], padded to the size of the buffer. *)
Definition apdu (p1 p2 : Z) (payload : list byte) : list byte :=
  let bs := [0x80; 0x04; p1; p2; Z.of_nat (length payload)] ++ payload in
  bs ++ replicate (260 - length bs) 0.

Definition receive (a : list byte) (w : ApduSign.world) : ApduSign.world :=
  ApduSign.with_G_io_apdu_buffer a w.

(** The FIRST packet of a session for [path] on Ed25519. *)
Definition first_packet : list byte :=
  apdu 0x00 0 [2; 0x80; 0; 0; 0x2C; 0x80; 0; 0x06; 0xC1].

(** A stream of 300 bytes, 0, 1, 2, ... *)
Definition stream300 : list byte :=
  map (fun n => Z.of_nat n mod 256) (seq 0 300).

(** The session as it stands when an unsafe operation [ops] has been
    received whole in baking mode, for the key [path] on curve [c]. *)
Definition unsafe_op_session (c : cx_curve_t) (valid : bool)
    (ops : ApduSign.parsed_operation_group) : ApduSign.world :=
  ApduSign.with_G
    (ApduSign.with_maybe_ops
       {| ApduSign.is_valid := valid; ApduSign.v := ops |}
       (ApduSign.with_magic_byte BakingAuth.MAGIC_BYTE_UNSAFE_OP
          (ApduSign.with_key
             {| ApduSign.bip32_path :=
                  {| ApduSign.path_len := 2;
                     ApduSign.components := padded_path |};
                ApduSign.derivation_type := c |}
             ApduSign.zero_globals)))
    world0.

(** [main.c]: a stand-in hash and signatures, and the authorization test
    of [baking_auth.c] on the path alone. *)
#[local] Instance main_platform : Main.Platform :=
  {| Main.IO_ASYNCH_REPLY := 0x10;
     Main.CX_ECCINFO_PARITY_ODD := 1;
     Main.get_magic_byte := get_magic_byte;
     Main.blake2b := fun n d => take (Z.to_nat n) (d ++ replicate (Z.to_nat n) 0);
     Main.os_perso_derive_node_bip32 := fun _ _ _ => replicate 32 0;
     Main.cx_eddsa_sign := fun _ h => take 64 (h ++ replicate 64 0);
     Main.cx_ecdsa_sign := fun _ h => (take 70 (h ++ replicate 70 0), 1);
     Main.read_bip32_path := fun _ => (2, padded_path);
     Main.path_to_string := fun _ _ => EmptyString;
     Main.is_baking_authorized := fun nv d p n =>
       BakingAuth.is_path_authorized nv (BakingAuth.curve nv) (Some p) n |}.

(** [main.c] about to sign the block [d] with the key [path] on curve [c],
    level 100 being recorded. *)
Definition main_world (c : cx_curve_t) (d : list byte) : Main.world :=
  {| Main.nvram := nvw (nv100 false);
     Main.operationContext :=
       {| Main.path_length := 2;
          Main.bip32_path := padded_path;
          Main.curve := c;
          Main.data := d ++ replicate (1024 - length d) 0;
          Main.datalen := Z.of_nat (length d);
          Main.hash := replicate 32 0 |};
     Main.G_io_apdu_buffer := replicate 260 0;
     Main.keyPath := EmptyString;
     Main.ui := None |}.

End Sample.

(** ** Sessions

    The transport puts each command in [G_io_apdu_buffer] and calls the
    handler; a session is a sequence of such deliveries. *)

Module Session.

Section session.

Context `{P : ApduSign.Platform}.
Variable BAKING_APP : bool.
Variable instruction : ApduSign.instruction_t.

Definition deliver (a : list byte) : M ApduSign.world Z :=
  modify (ApduSign.with_G_io_apdu_buffer a) ;;
  ApduSign.handle_apdu BAKING_APP instruction.

(** The outcomes of the packets in turn, and the world after the last. *)
Fixpoint deliver_all (apdus : list (list byte)) (w : ApduSign.world)
  : list (result Z) * ApduSign.world :=
  match apdus with
  | [] => ([], w)
  | a :: rest =>
      let (r, w1) := deliver a w in
      let (rs, w2) := deliver_all rest w1 in
      (r :: rs, w2)
  end.

End session.

(** The kind of a packet and its LAST marker, as [handle_apdu] reads them
    from the P1 byte. *)
Definition kind (a : list byte) : Z :=
  Z.land (ApduSign.load8 a ApduSign.OFFSET_P1) (Z.lnot ApduSign.P1_LAST_MARKER).

Definition last (a : list byte) : bool :=
  negb (Z.land (ApduSign.load8 a ApduSign.OFFSET_P1) ApduSign.P1_LAST_MARKER =? 0).

Definition buff_size (a : list byte) : Z :=
  ApduSign.load8 a ApduSign.OFFSET_LC.

Definition buff (a : list byte) : list byte :=
  take (Z.to_nat (buff_size a)) (drop ApduSign.OFFSET_CDATA a).

(** The session belongs to key [k] and has counted [n] packets. *)
Definition counted `{P : ApduSign.Platform} (k : ApduSign.bip32_path_with_curve_t)
    (n : Z) (w : ApduSign.world) : Prop :=
  ApduSign.key (ApduSign.G w) = k /\ ApduSign.packet_index (ApduSign.G w) = n.

(** The message buffer is an array of [sizeof_message_data] bytes of which
    [message_data_length], at most all, are in use. *)
Definition buffer_ok `{P : ApduSign.Platform} (w : ApduSign.world) : Prop :=
  0 <= ApduSign.message_data_length (ApduSign.G w) <= ApduSign.sizeof_message_data /\
  Z.of_nat (length (ApduSign.message_data (ApduSign.G w))) = ApduSign.sizeof_message_data.

Definition hash_args_ok `{P : ApduSign.Platform} (a : ApduSign.hash_args) : Prop :=
  0 <= ApduSign.buff_length a <= ApduSign.sizeof_message_data /\
  Z.of_nat (length (ApduSign.buff a)) = ApduSign.sizeof_message_data.

(** *** The digest of a byte stream

    What the hasher is meant to compute, said without packets: the stream
    is given to the hash primitive in blocks of [B2B_BLOCKBYTES] bytes for
    as long as more than one block is left, then the remainder is given,
    and the digest is taken. *)

Section digest.

Context `{P : ApduSign.Platform}.

Fixpoint absorb_blocks (fuel : nat) (st : ApduSign.b2b_state)
    (s : list byte) : ApduSign.b2b_state * list byte :=
  match fuel with
  | O => (st, s)
  | S fuel' =>
      if Z.of_nat (length s) >? ApduSign.B2B_BLOCKBYTES then
        absorb_blocks fuel'
          (ApduSign.b2b_update st
             (take (Z.to_nat ApduSign.B2B_BLOCKBYTES) s))
          (drop (Z.to_nat ApduSign.B2B_BLOCKBYTES) s)
      else (st, s)
  end.

Definition absorb (st : ApduSign.b2b_state) (s : list byte)
  : ApduSign.b2b_state * list byte :=
  absorb_blocks (length s) st s.

Definition digest_of_stream (s : list byte) : list byte :=
  let (st, rest) := absorb (ApduSign.b2b_init ApduSign.SIGN_HASH_SIZE) s in
  fst (ApduSign.b2b_final (ApduSign.b2b_update st rest)
         ApduSign.SIGN_HASH_SIZE).

(** The packets of one message go through [accumulate] with hashing on,
    the last one marked last. *)
Fixpoint hash_packets (packets : list (list byte)) : M ApduSign.world unit :=
  match packets with
  | [] => ret tt
  | p :: rest =>
      match rest with
      | [] => ApduSign.accumulate true p (Z.of_nat (length p)) true
      | _ :: _ =>
          ApduSign.accumulate true p (Z.of_nat (length p)) false ;;
          hash_packets rest
      end
  end.

(** The hash state that the next update will act on: the state itself once
    initialised, a fresh one before. *)
Definition effective (hs : ApduSign.blake2b_hash_state_t)
  : ApduSign.b2b_state :=
  if ApduSign.initialized hs then ApduSign.state hs
  else ApduSign.b2b_init ApduSign.SIGN_HASH_SIZE.

(** The bytes of the buffer still to hash. *)
Definition pending (a : ApduSign.hash_args) : list byte :=
  take (Z.to_nat (ApduSign.buff_length a)) (ApduSign.buff a).

Definition args_of (g : ApduSign.sign_globals) : ApduSign.hash_args :=
  {| ApduSign.buff := ApduSign.message_data g;
     ApduSign.buff_length := ApduSign.message_data_length g;
     ApduSign.st := ApduSign.hash_state g |}.

(** The session has received the stream [s]: hashing what is pending from
    the current state is hashing [s] from the start. *)
Definition received (s : list byte) (w : ApduSign.world) : Prop :=
  buffer_ok w /\
  absorb (effective (ApduSign.hash_state (ApduSign.G w)))
    (pending (args_of (ApduSign.G w)))
  = absorb (ApduSign.b2b_init ApduSign.SIGN_HASH_SIZE) s.

(** The hasher's arguments written back to the session. *)
Definition put_args (a : ApduSign.hash_args) (w : ApduSign.world)
  : ApduSign.world :=
  ApduSign.with_G
    (ApduSign.with_message_data (ApduSign.buff a)
       (ApduSign.with_message_data_length (ApduSign.buff_length a)
          (ApduSign.with_hash_state (ApduSign.st a) (ApduSign.G w)))) w.

(** A session that has received no operation byte yet. *)
Definition fresh (w : ApduSign.world) : Prop :=
  buffer_ok w /\
  ApduSign.message_data_length (ApduSign.G w) = 0 /\
  ApduSign.initialized (ApduSign.hash_state (ApduSign.G w)) = false.

End digest.

(** The events a signing step adds to the trace: none when it fails, one
    signature when it returns. *)
Definition signed_or_failed {A} (r : result A) (s : list BakingAuth.event)
  : Prop :=
  (exists e, r = Throw e /\ s = []) \/
  (exists x c p m, r = Ret x /\ s = [BakingAuth.EvSign c p m]).


End Session.

(** ** Observations

    What the further properties are stated with: what a computation
    can return or throw, what a prompt shows, what a callback signs. *)

(** Every normal return of [m] satisfies [Q]. *)
Definition returns_only {W A} (Q : A -> Prop) (m : M W A) : Prop :=
  forall w a w', m w = (Ret a, w') -> Q a.

(** Every normal return of [m] satisfies [Q], with the world it leaves. *)
Definition returns_with {W A} (Q : A -> W -> Prop) (m : M W A) : Prop :=
  forall w a w', m w = (Ret a, w') -> Q a w'.

(** Every exception that [m] throws satisfies [Q]. *)
Definition throws_only {W A} (Q : exception -> Prop) (m : M W A) : Prop :=
  forall w e w', m w = (Throw e, w') -> Q e.

(** When [m] throws from a world with [I], it leaves a world with [I]. *)
Definition throws_in {W A} (I : W -> Prop) (m : M W A) : Prop :=
  forall w e w', I w -> m w = (Throw e, w') -> I w'.

(** The errors of the hasher and of the guarded copy. *)
Definition buffer_error (e : exception) : Prop :=
  e = EXC_PARSE_ERROR \/ e = EXC_MEMORY_ERROR.

(** The labels of the prompt that shows the hash of an operation that was
    not displayed. *)
Definition hash_labels : list string := ["Unrecognized"; "Sign Hash"]%string.

Section prompt_defs.
Context `{P : ApduSign.Platform}.

(** The computation has suspended on a prompt with these continuations,
    whose labels satisfy [L]. *)
Definition prompted {A} (ok cxl : ApduSign.ui_callback_t)
    (L : list string -> Prop) (r : result A * ApduSign.world) : Prop :=
  fst r = Throw ASYNC_EXCEPTION /\
  exists p, ApduSign.ui (snd r) = Some p /\
    ApduSign.ok_cb p = ok /\ ApduSign.cxl_cb p = cxl /\ L (ApduSign.prompts p).

(** The continuation that an accepted confirmation runs, by instruction. *)
Definition ok_callback (ins : ApduSign.instruction_t) : ApduSign.ui_callback_t :=
  match ins with
  | ApduSign.INS_SIGN_UNSAFE => ApduSign.sign_unsafe_ok
  | ApduSign.INS_SIGN_WITH_HASH => ApduSign.sign_with_hash_ok
  | ApduSign.INS_SIGN => ApduSign.sign_without_hash_ok
  end.

(** [m] suspends on such a prompt from every world. *)
Definition shows {A} ok cxl L (m : M ApduSign.world A) : Prop :=
  forall w, prompted ok cxl L (m w).

End prompt_defs.

Section response_defs.
Context `{P : ApduSign.Platform}.

(** The bytes that a confirmation callback signs: the final hash, or the
    message itself for [sign_unsafe_ok]. *)
Definition signed_data (on_hash : bool) (g : ApduSign.sign_globals)
  : list byte :=
  if on_hash then ApduSign.final_hash g
  else take (Z.to_nat (ApduSign.message_data_length g)) (ApduSign.message_data g).

(** The signature event of the session key on [data]. *)
Definition signature_event (g : ApduSign.sign_globals) (data : list byte)
  : BakingAuth.event :=
  BakingAuth.EvSign (ApduSign.derivation_type (ApduSign.key g))
    (take (Z.to_nat (ApduSign.path_len (ApduSign.bip32_path (ApduSign.key g))))
       (ApduSign.components (ApduSign.bip32_path (ApduSign.key g))))
    data.

(** The arguments [on_hash] and [send_hash] that the accepting callbacks
    give to [perform_signature]. *)
Definition callback_on_hash (cb : ApduSign.ui_callback_t) : bool :=
  match cb with ApduSign.sign_unsafe_ok => false | _ => true end.

Definition callback_send_hash (cb : ApduSign.ui_callback_t) : bool :=
  match cb with ApduSign.sign_with_hash_ok => true | _ => false end.

End response_defs.

(** The message buffer holds the bytes [s], unhashed. *)
Definition stored `{P : ApduSign.Platform} (s : list byte)
    (w : ApduSign.world) : Prop :=
  Session.buffer_ok w /\ signed_data false (ApduSign.G w) = s.

Section session_observations.

Context `{P : ApduSign.Platform}.

(** Neither the record nor the responses sent. *)
Definition untouched (nv : BakingAuth.nvram_world) (s : list (list byte))
    (w : ApduSign.world) : Prop :=
  ApduSign.nvram w = nv /\ ApduSign.sent w = s.

(** The rest of the handler keeps the message, the key and the record. *)
Definition message_kept (g : ApduSign.sign_globals)
    (nv : BakingAuth.nvram_world) (w : ApduSign.world) : Prop :=
  ApduSign.message_data (ApduSign.G w) = ApduSign.message_data g /\
  ApduSign.message_data_length (ApduSign.G w) = ApduSign.message_data_length g /\
  ApduSign.key (ApduSign.G w) = ApduSign.key g /\
  ApduSign.nvram w = nv.

(** What the hashing and the copy leave alone. *)
Definition parsed_kept (g : ApduSign.sign_globals)
    (nv : BakingAuth.nvram_world) (s : list (list byte))
    (w : ApduSign.world) : Prop :=
  ApduSign.key (ApduSign.G w) = ApduSign.key g /\
  ApduSign.magic_byte (ApduSign.G w) = ApduSign.magic_byte g /\
  ApduSign.parsed_baking_data (ApduSign.G w) = ApduSign.parsed_baking_data g /\
  ApduSign.maybe_ops (ApduSign.G w) = ApduSign.maybe_ops g /\
  ApduSign.nvram w = nv /\ ApduSign.sent w = s.

End session_observations.

(** ** [src/main.c]: the command loop and its callbacks

    The commands other than [INS_SIGN], the confirmation callbacks and one
    turn of the loop of [sample_main].  The globals that signing uses are
    the record [Main.world]; the loop adds the public key of
    [operationContext], the flag [address_enabled], the responses sent from
    the callbacks, and the locals [tx] and [flags] of [sample_main], which
    live across the turns of the loop.

    [UI_PROMPT] is one macro with one prompt pending.  [Main.UI_PROMPT]
    keeps the prompts of the signing screens in [Main.ui]; the prompts of
    the address and reset screens are kept in [ui], and raising one clears
    [Main.ui].  The prompt pending is [prompt]: the one in [Main.ui] when
    there is one, for it was raised last, and the one in [ui] otherwise. *)

Module MainLoop.

Definition CLA : Z := 0x80.

Definition INS_GET_PUBLIC_KEY : Z := 0x02.
Definition INS_SIGN : Z := 0x04.
Definition INS_RESET : Z := 0x06.

Definition OFFSET_CLA : nat := 0.
Definition OFFSET_INS : nat := 1.

(** [sizeof(int)] on the 32-bit target. *)
Definition sizeof_int : Z := 4.

(** The fields [W] and [W_len] of [cx_ecfp_public_key_t]. *)
Record cx_ecfp_public_key_t : Type := {
  W : list byte;
  W_len : Z;
}.

Inductive screen_t : Type :=
| ui_address_screen
| ui_bake_reset_screen.

Inductive callback_t : Type :=
| address_ok
| address_cancel
| reset_ok
| reset_cancel.

Record world : Type := {
  signing : Main.world;
  publicKey : cx_ecfp_public_key_t;
  address_enabled : bool;
  ui : option (screen_t * callback_t * callback_t);
  sent : list (list byte);
  tx : Z;
  flags : Z;
}.

(** A prompt of [UI_PROMPT]: the screen and the two callbacks. *)
Inductive prompt_t : Type :=
| signing_prompt
    (p : Main.screen_t * Main.callback_t * Main.callback_t)
| loop_prompt (p : screen_t * callback_t * callback_t).

(** How a turn of the loop ends: the loop goes on, or [os_sched_exit] has
    left the application. *)
Inductive outcome : Type :=
| Continue
| Exit.

(** What the rest of [main.c] uses and does not define.  [main.c] is
    written against a [baking_auth.h] whose [authorize_baking] takes the
    payload and the path and returns a flag, and whose
    [write_highest_level] takes the level alone.
    [cx_ecfp_generate_pair] stands for [cx_ecfp_init_private_key] followed
    by [cx_ecfp_generate_pair]; [cx_edward_compress_point] gives the new
    contents of the array it compresses in place; [exception_value] is the
    number of a named exception. *)
Class Device : Type := {
  authorize_baking :
    list byte -> list Z -> Z -> M BakingAuth.nvram_world bool;
  write_highest_level : Z -> M BakingAuth.nvram_world unit;
  read_unaligned_big_endian : list byte -> Z;
  cx_ecfp_generate_pair : cx_curve_t -> list byte -> cx_ecfp_public_key_t;
  cx_edward_compress_point : cx_curve_t -> list byte -> Z -> list byte;
  exception_value : exception -> Z;
}.

Section main_loop.

Context `{P : Main.Platform} `{D : Device}.

Definition with_signing (x : Main.world) (w : world) :=
  Build_world x (publicKey w) (address_enabled w) (ui w) (sent w) (tx w)
    (flags w).
Definition with_publicKey (x : cx_ecfp_public_key_t) (w : world) :=
  Build_world (signing w) x (address_enabled w) (ui w) (sent w) (tx w)
    (flags w).
Definition with_address_enabled (x : bool) (w : world) :=
  Build_world (signing w) (publicKey w) x (ui w) (sent w) (tx w) (flags w).
Definition with_ui (x : option (screen_t * callback_t * callback_t))
    (w : world) :=
  Build_world (signing w) (publicKey w) (address_enabled w) x (sent w) (tx w)
    (flags w).
Definition with_sent (x : list (list byte)) (w : world) :=
  Build_world (signing w) (publicKey w) (address_enabled w) (ui w) x (tx w)
    (flags w).
Definition with_tx (x : Z) (w : world) :=
  Build_world (signing w) (publicKey w) (address_enabled w) (ui w) (sent w) x
    (flags w).
Definition with_flags (x : Z) (w : world) :=
  Build_world (signing w) (publicKey w) (address_enabled w) (ui w) (sent w)
    (tx w) x.

Definition on_signing {A} (m : M Main.world A) : M world A :=
  zoom signing with_signing m.

Definition G_io_apdu_buffer (w : world) : list byte :=
  Main.G_io_apdu_buffer (signing w).

Definition operationContext (w : world) : Main.operationContext_t :=
  Main.operationContext (signing w).

Definition UI_PROMPT (screen : screen_t) (ok cancel : callback_t)
  : M world unit :=
  on_signing (modify (Main.with_ui None)) ;;
  modify (with_ui (Some (screen, ok, cancel))).

(** The prompt that is pending. *)
Definition prompt (w : world) : option prompt_t :=
  match Main.ui (signing w) with
  | Some p => Some (signing_prompt p)
  | None =>
      match ui w with
      | Some p => Some (loop_prompt p)
      | None => None
      end
  end.

(** [io_exchange(CHANNEL_APDU | IO_RETURN_AFTER_TX, tx)]: "send back the
    response, do not restart the event loop". *)
Definition io_exchange_return_after_tx (tx : Z) : M world unit :=
  modify (fun w =>
    with_sent (sent w ++ [take (Z.to_nat tx) (G_io_apdu_buffer w)]) w).

(** *** Callbacks *)

Definition delay_reject : M world unit :=
  on_signing (Main.store_apdu 0 [0x69; 0x85]) ;;
  io_exchange_return_after_tx 2.

Definition sign_ok_fn : M world unit :=
  tx <- on_signing (Main.perform_signature 0) ;;
  io_exchange_return_after_tx tx.

Definition bake_ok_fn : M world unit :=
  c <- gets operationContext ;;
  success <- on_signing (Main.on_nvram
               (authorize_baking
                  (take (Z.to_nat (Main.datalen c)) (Main.data c))
                  (Main.bip32_path c) (Main.path_length c))) ;;
  if negb success then delay_reject
  else
    tx <- on_signing (Main.perform_signature 0) ;;
    io_exchange_return_after_tx tx.

Definition reset_ok_fn : M world unit :=
  c <- gets operationContext ;;
  let level := read_unaligned_big_endian (Main.data c) in
  on_signing (Main.on_nvram (write_highest_level level)) ;;
  let tx := 0 in
  on_signing (Main.store_apdu tx [0x90; 0x00]) ;;
  let tx := tx + 2 in
  io_exchange_return_after_tx tx.

Definition reset_cancel_fn : M world unit := delay_reject.

Definition sign_cancel_fn : M world unit := delay_reject.

Definition provide_address (tx : Z) : M world Z :=
  c <- gets operationContext ;;
  tx <- match Main.curve c with
        | CX_CURVE_Ed25519 =>
            modify (fun w =>
              with_publicKey
                {| W := cx_edward_compress_point (Main.curve c)
                          (W (publicKey w)) (W_len (publicKey w));
                   W_len := W_len (publicKey w) |} w) ;;
            on_signing (Main.store_apdu tx [33]) ;;
            let tx := tx + 1 in
            pk <- gets publicKey ;;
            on_signing (Main.store_apdu tx (take 33 (W pk))) ;;
            ret (tx + 33)
        | _ =>
            pk <- gets publicKey ;;
            on_signing (Main.store_apdu tx [W_len pk mod 256]) ;;
            let tx := tx + 1 in
            on_signing (Main.store_apdu tx
                          (take (Z.to_nat (W_len pk)) (W pk))) ;;
            ret (tx + W_len pk)
        end ;;
  on_signing (Main.store_apdu tx [0x90; 0x00]) ;;
  ret (tx + 2).

Definition address_ok_fn : M world unit :=
  modify (with_address_enabled true) ;;
  tx <- provide_address 0 ;;
  io_exchange_return_after_tx tx.

Definition address_cancel_fn : M world unit := delay_reject.

(** Calling through the function pointers that [UI_PROMPT] was given. *)
Definition call_callback (cb : callback_t) : M world unit :=
  match cb with
  | address_ok => address_ok_fn
  | address_cancel => address_cancel_fn
  | reset_ok => reset_ok_fn
  | reset_cancel => reset_cancel_fn
  end.

Definition call_sign_callback (cb : Main.callback_t) : M world unit :=
  match cb with
  | Main.bake_ok => bake_ok_fn
  | Main.sign_ok => sign_ok_fn
  | Main.sign_cancel => sign_cancel_fn
  end.

(** *** The commands *)

(** The case [INS_GET_PUBLIC_KEY] of [sample_main]. *)
Definition ins_get_public_key : M world unit :=
  io <- gets G_io_apdu_buffer ;;
  let dataBuffer := drop Main.OFFSET_CDATA io in
  if negb (Main.load8 io Main.OFFSET_P1 =? 0) then throw (EXC_raw 0x6B00)
  else if Main.load8 io Main.OFFSET_P2 >? 2 then throw (EXC_raw 0x6B00)
  else
    on_signing (modify (fun w =>
      Main.with_operationContext
        (match Main.load8 io Main.OFFSET_P2 with
         | 0 => Main.with_curve CX_CURVE_Ed25519 (Main.operationContext w)
         | 1 => Main.with_curve CX_CURVE_SECP256K1 (Main.operationContext w)
         | 2 => Main.with_curve CX_CURVE_SECP256R1 (Main.operationContext w)
         | _ => Main.operationContext w
         end) w)) ;;
    on_signing
      (let (n, path) := Main.read_bip32_path dataBuffer in
       modify (fun w =>
         Main.with_operationContext
           (Main.with_path n path (Main.operationContext w)) w)) ;;
    c <- gets operationContext ;;
    let privateKeyData :=
      Main.os_perso_derive_node_bip32 (Main.curve c) (Main.bip32_path c)
        (Main.path_length c) in
    modify (with_publicKey (cx_ecfp_generate_pair (Main.curve c) privateKeyData)) ;;
    on_signing (modify (Main.with_keyPath
      (Main.path_to_string (Main.path_length c) (Main.bip32_path c)))) ;;
    enabled <- gets address_enabled ;;
    if enabled then
      tx0 <- gets tx ;;
      tx1 <- provide_address tx0 ;;
      modify (with_tx tx1)
    else
      UI_PROMPT ui_address_screen address_ok address_cancel ;;
      modify (fun w => with_flags (Z.lor (flags w) Main.IO_ASYNCH_REPLY) w).

(** The case [INS_RESET]. *)
Definition ins_reset : M world unit :=
  io <- gets G_io_apdu_buffer ;;
  let dataBuffer := drop Main.OFFSET_CDATA io in
  let dataLength := Main.load8 io Main.OFFSET_LC in
  if negb (dataLength =? sizeof_int) then throw (EXC_raw 0x6C00)
  else
    on_signing (modify (fun w =>
      Main.with_operationContext
        (Main.with_datalen sizeof_int (Main.operationContext w)) w)) ;;
    on_signing (modify (fun w =>
      Main.with_operationContext
        (Main.with_data
           (memmove_at (Main.data (Main.operationContext w)) 0
              (take (Z.to_nat sizeof_int) dataBuffer))
           (Main.operationContext w)) w)) ;;
    UI_PROMPT ui_bake_reset_screen reset_ok reset_cancel ;;
    modify (fun w => with_flags (Z.lor (flags w) Main.IO_ASYNCH_REPLY) w).

(** The case [INS_SIGN], on the locals [tx] and [flags] of the loop. *)
Definition ins_sign : M world unit :=
  tx0 <- gets tx ;;
  flags0 <- gets flags ;;
  r <- on_signing (Main.ins_sign tx0 flags0) ;;
  modify (with_tx (fst r)) ;;
  modify (with_flags (snd r)).

(** *** One turn of the loop *)

(** [rx = io_exchange(CHANNEL_APDU | flags, rx)], the first call of the
    [TRY] block, after [tx = 0] and before [flags = 0]: it transmits the
    reply of the turn before and waits for the next command.  [io] is what
    it leaves in [G_io_apdu_buffer], and [x] how it ends: with the number
    of bytes received, or with an exception.  [sent] keeps the responses of
    the callbacks only; the reply that this call transmits is the [tx]
    bytes that the turn before left in the buffer. *)
Definition io_exchange (io : list byte) (x : result Z) : M world Z :=
  on_signing (modify (Main.with_G_io_apdu_buffer io)) ;;
  match x with
  | Ret rx => ret rx
  | Throw e => throw e
  end.

(** The [TRY] block.  Its first statement, [rx = tx], only hands the
    length of the reply to [io_exchange]. *)
Definition try_block (io : list byte) (x : result Z) : M world outcome :=
  modify (with_tx 0) ;;
  rx <- io_exchange io x ;;
  modify (with_flags 0) ;;
  if rx =? 0 then throw (EXC_raw 0x6982)
  else if negb (Main.load8 io OFFSET_CLA =? CLA) then throw (EXC_raw 0x6E00)
  else
    let ins := Main.load8 io OFFSET_INS in
    if ins =? INS_GET_PUBLIC_KEY then ins_get_public_key ;; ret Continue
    else if ins =? INS_RESET then ins_reset ;; ret Continue
    else if ins =? INS_SIGN then ins_sign ;; ret Continue
    else if ins =? 0xFF then ret Exit
    else throw (EXC_raw 0x6D00).

(** The status word that [CATCH_OTHER] reports for the exception [e];
    [sw] is an [unsigned short]. *)
Definition status_word (e : Z) : Z :=
  let class := Z.land e 0xF000 in
  if (class =? 0x6000) || (class =? 0x9000) then e mod 2 ^ 16
  else Z.lor 0x6800 (Z.land e 0x7FF).

Definition exception_code (e : exception) : Z :=
  match e with
  | EXC_raw sw => sw
  | _ => exception_value e
  end.

Definition catch_other (e : Z) : M world unit :=
  let sw := status_word e in
  tx0 <- gets tx ;;
  on_signing (Main.store_apdu tx0 [Z.shiftr sw 8 mod 256; sw mod 256]) ;;
  modify (with_tx (tx0 + 2)).

(** One turn: the [TRY] block and, when it throws, the catch block. *)
Definition sample_main_iteration (io : list byte) (x : result Z) (w : world)
  : outcome * world :=
  match try_block io x w with
  | (Ret o, w') => (o, w')
  | (Throw e, w') => (Continue, snd (catch_other (exception_code e) w'))
  end.

End main_loop.

End MainLoop.

(** ** Observations of the command loop *)

(** [f] holds of the [n] integers from [start] on. *)
Fixpoint all_from (f : Z -> bool) (n : nat) (start : Z) : bool :=
  match n with
  | O => true
  | S n' => f start && all_from f n' (start + 1)
  end.

(** What is to hold of the status word reported for a 16-bit exception. *)
Definition status_word_ok (e : Z) : bool :=
  let sw := MainLoop.status_word e in
  let class := Z.land e 0xF000 in
  let kept := (class =? 0x6000) || (class =? 0x9000) in
  (((0x6000 <=? sw) && (sw <? 0x7000)) || ((0x9000 <=? sw) && (sw <? 0xA000)))
  && (if kept then sw =? e
      else (0x6800 <=? sw) && (Z.land sw 0x7FF =? Z.land e 0x7FF))
  && (Z.shiftr sw 8 mod 256 * 256 + sw mod 256 =? sw)
  && (if ((0x6000 <=? e) && (e <? 0x7000)) || ((0x9000 <=? e) && (e <? 0xA000))
      then sw =? e else true).

(** The locals of [sample_main] and the command, as the [TRY] block has
    them when it dispatches. *)
Definition dispatching (io : list byte) (w : MainLoop.world) : Prop :=
  MainLoop.tx w = 0 /\ MainLoop.flags w = 0 /\
  MainLoop.G_io_apdu_buffer w = io.

(** The world when [io_exchange] has thrown, leaving [io] in the buffer. *)
Definition exchange_failed (io : list byte)
    (w : MainLoop.world) : MainLoop.world :=
  MainLoop.with_signing
    (Main.with_G_io_apdu_buffer io (MainLoop.signing w))
    (MainLoop.with_tx 0 w).

(** The world when the [TRY] block dispatches on the command [io]. *)
Definition command_received (io : list byte)
    (w : MainLoop.world) : MainLoop.world :=
  MainLoop.with_flags 0
    (MainLoop.with_signing
       (Main.with_G_io_apdu_buffer io (MainLoop.signing w))
       (MainLoop.with_tx 0 w)).

(** The reply that [CATCH_OTHER] leaves for the status word [sw]. *)
Definition status_reply (sw : Z) (io : list byte)
    (w : MainLoop.world) : MainLoop.world :=
  MainLoop.with_tx 2
    (MainLoop.with_signing
       (Main.with_G_io_apdu_buffer
          ([Z.shiftr sw 8 mod 256; sw mod 256] ++ drop 2 io)
          (MainLoop.signing w)) w).

(** The length of the key that [provide_address] sends, and its bytes. *)
Definition key_length (c : cx_curve_t) (pk : MainLoop.cx_ecfp_public_key_t)
  : Z :=
  match c with
  | CX_CURVE_Ed25519 => 33
  | _ => MainLoop.W_len pk
  end.

Definition key_bytes `{D : MainLoop.Device} (c : cx_curve_t)
    (pk : MainLoop.cx_ecfp_public_key_t) : list byte :=
  match c with
  | CX_CURVE_Ed25519 =>
      take 33 (MainLoop.cx_edward_compress_point c (MainLoop.W pk)
                 (MainLoop.W_len pk))
  | _ => take (Z.to_nat (MainLoop.W_len pk)) (MainLoop.W pk)
  end.

(** The reply of [provide_address]: the length byte, the key and the
    status word. *)
Definition address_reply `{D : MainLoop.Device} (c : cx_curve_t)
    (pk : MainLoop.cx_ecfp_public_key_t) : list byte :=
  [key_length c pk mod 256] ++ key_bytes c pk ++ [0x90; 0x00].

(** The public key that [provide_address] leaves in [operationContext]. *)
Definition sent_key `{D : MainLoop.Device} (c : cx_curve_t)
    (pk : MainLoop.cx_ecfp_public_key_t) : MainLoop.cx_ecfp_public_key_t :=
  match c with
  | CX_CURVE_Ed25519 =>
      {| MainLoop.W := MainLoop.cx_edward_compress_point c (MainLoop.W pk)
                         (MainLoop.W_len pk);
         MainLoop.W_len := MainLoop.W_len pk |}
  | _ => pk
  end.

(** The world after the case [INS_GET_PUBLIC_KEY] has derived the key,
    from the world [w] in which the command was received. *)
Definition key_derived `{P : Main.Platform} `{D : MainLoop.Device}
    (w : MainLoop.world) : MainLoop.world :=
  let io := MainLoop.G_io_apdu_buffer w in
  let c0 := MainLoop.operationContext w in
  let c1 :=
    match Main.load8 io Main.OFFSET_P2 with
    | 0 => Main.with_curve CX_CURVE_Ed25519 c0
    | 1 => Main.with_curve CX_CURVE_SECP256K1 c0
    | 2 => Main.with_curve CX_CURVE_SECP256R1 c0
    | _ => c0
    end in
  let c :=
    Main.with_path (fst (Main.read_bip32_path (drop Main.OFFSET_CDATA io)))
      (snd (Main.read_bip32_path (drop Main.OFFSET_CDATA io))) c1 in
  MainLoop.with_signing
    (Main.with_keyPath
       (Main.path_to_string (Main.path_length c) (Main.bip32_path c))
       (Main.with_operationContext c (MainLoop.signing w)))
    (MainLoop.with_publicKey
       (MainLoop.cx_ecfp_generate_pair (Main.curve c)
          (Main.os_perso_derive_node_bip32 (Main.curve c) (Main.bip32_path c)
             (Main.path_length c))) w).

(** The payload and the key of [operationContext], which the signature
    reads. *)
Definition signing_input (s : Main.world)
  : list byte * Z * list Z * Z :=
  let c := Main.operationContext s in
  (Main.data c, Main.datalen c, Main.bip32_path c, Main.path_length c).

(** ** A sample device for the command loop

    Concrete values for what [main.c] leaves open beyond signing: a public
    key of 65 bytes, a compression that rewrites its first byte, and a
    reset that records the level as the one of a block. *)

Module LoopSample.

#[local] Instance device : MainLoop.Device :=
  {| MainLoop.authorize_baking := fun _ _ _ => ret true;
     MainLoop.write_highest_level :=
       fun lvl => BakingAuth.write_highest_level lvl false;
     MainLoop.read_unaligned_big_endian := read_unaligned_big_endian32;
     MainLoop.cx_ecfp_generate_pair := fun _ priv =>
       {| MainLoop.W := 4 :: replicate 64 7; MainLoop.W_len := 65 |};
     MainLoop.cx_edward_compress_point := fun _ W _ =>
       2 :: drop 1 W;
     MainLoop.exception_value := fun _ => 0x6F00 |}.

(** A command [CLA INS P1 P2 LC data], padded to the size of the buffer. *)
Definition command (ins p1 p2 : Z) (payload : list byte) : list byte :=
  let bs := [0x80; ins; p1; p2; Z.of_nat (length payload)] ++ payload in
  bs ++ replicate (260 - length bs) 0.

(** The loop at power-up: no address approved, nothing collected for
    signing, the key [Sample.path] authorized at level 100. *)
Definition world0 : MainLoop.world :=
  {| MainLoop.signing := Sample.main_world CX_CURVE_Ed25519 [];
     MainLoop.publicKey :=
       {| MainLoop.W := 4 :: replicate 64 7; MainLoop.W_len := 65 |};
     MainLoop.address_enabled := false;
     MainLoop.ui := None;
     MainLoop.sent := [];
     MainLoop.tx := 0;
     MainLoop.flags := 0 |}.

(** [INS_GET_PUBLIC_KEY] for [Sample.path] on Ed25519. *)
Definition get_public_key : list byte :=
  command 0x02 0 0 [2; 0x80; 0; 0; 0x2C; 0x80; 0; 0x06; 0xC1].

End LoopSample.

(** * Properties *)

(** ** The monad *)

Section monad_facts.

Context {W : Type}.

Lemma bind_ret {A B} (a : A) (k : A -> M W B) (w : W) :
  bind (ret a) k w = k a w.
Proof. reflexivity. Qed.

Lemma bind_throw {A B} (e : exception) (k : A -> M W B) (w : W) :
  bind (throw e) k w = (Throw e, w).
Proof. reflexivity. Qed.

Lemma bind_gets {A B} (f : W -> A) (k : A -> M W B) (w : W) :
  bind (gets f) k w = k (f w) w.
Proof. reflexivity. Qed.

Lemma bind_modify {B} (f : W -> W) (k : unit -> M W B) (w : W) :
  bind (modify f) k w = k tt (f w).
Proof. reflexivity. Qed.

Lemma bind_assoc {A B C} (m : M W A) (k : A -> M W B) (h : B -> M W C) (w : W) :
  bind (bind m k) h w = bind m (fun a => bind (k a) h) w.
Proof. unfold bind. destruct (m w) as [[a|e] w1]; reflexivity. Qed.

Lemma bind_inv_ret {A B} (m : M W A) (k : A -> M W B) (w w' : W) (b : B) :
  bind m k w = (Ret b, w') ->
  exists a w1, m w = (Ret a, w1) /\ k a w1 = (Ret b, w').
Proof.
  unfold bind. destruct (m w) as [[a|e] w1]; [eauto|discriminate].
Qed.

Lemma bind_run {A B} (m : M W A) (k : A -> M W B) (w w1 : W) (a : A) :
  m w = (Ret a, w1) -> bind m k w = k a w1.
Proof. unfold bind. by intros ->. Qed.

Lemma bind_run_throw {A B} (m : M W A) (k : A -> M W B) (w w1 : W) e :
  m w = (Throw e, w1) -> bind m k w = (Throw e, w1).
Proof. unfold bind. by intros ->. Qed.

Lemma preserves_ret {A} (I : W -> Prop) (a : A) : preserves I (ret a).
Proof. by intros w. Qed.

Lemma preserves_throw {A} (I : W -> Prop) e : preserves I (throw (A := A) e).
Proof. by intros w. Qed.

Lemma preserves_gets {A} (I : W -> Prop) (f : W -> A) : preserves I (gets f).
Proof. by intros w. Qed.

Lemma preserves_modify (I : W -> Prop) (f : W -> W) :
  (forall w, I w -> I (f w)) -> preserves I (modify f).
Proof. intros H w. apply H. Qed.

Lemma preserves_bind {A B} (I : W -> Prop) (m : M W A) (k : A -> M W B) :
  preserves I m -> (forall a, preserves I (k a)) -> preserves I (bind m k).
Proof.
  intros Hm Hk w Hw. unfold bind. specialize (Hm w Hw).
  destruct (m w) as [[a|e] w1]; simpl in *; [by apply Hk|done].
Qed.

Lemma preserves_when (I : W -> Prop) (b : bool) (m : M W unit) :
  preserves I m -> preserves I (when b m).
Proof. intros H. destruct b; [done|apply preserves_ret]. Qed.

Lemma preserves_zoom {V A} (I : W -> Prop) (J : V -> Prop)
    (get : W -> V) (set : V -> W -> W) (m : M V A) :
  preserves J m ->
  (forall w, I w -> J (get w)) ->
  (forall w v, I w -> J v -> I (set v w)) ->
  preserves I (zoom get set m).
Proof.
  intros Hm Hget Hset w Hw. unfold zoom.
  specialize (Hm (get w) (Hget w Hw)).
  destruct (m (get w)) as [r v]; simpl in *. by apply Hset.
Qed.

End monad_facts.

(** One step of a proof that a computation keeps a property: through the
    sequencing, the branches and the primitive actions. *)
Ltac preserves_step :=
  lazymatch goal with
  | |- preserves _ (bind _ _) => apply preserves_bind; [|intros ?]
  | |- preserves _ (ret _) => apply preserves_ret
  | |- preserves _ (throw _) => apply preserves_throw
  | |- preserves _ ApduSign.PARSE_ERROR => apply preserves_throw
  | |- preserves _ (gets _) => apply preserves_gets
  | |- preserves _ (when _ _) => apply preserves_when
  | |- preserves _ (modify _) => apply preserves_modify
  | |- preserves _ (if ?b then _ else _) => destruct b
  | |- preserves _ (match ?x with _ => _ end) => destruct x
  | |- preserves _ (let (_, _) := ?x in _) => destruct x
  end.

Section baking_auth_facts.

Import BakingAuth.

Variable get_magic_byte : list byte -> magic_byte_t.
Variable MAX_BIP32_PATH : Z.

(** [0xC0000000] has bits 30 and 31 set and no other. *)
Lemma testbit_top_two (n : Z) :
  Z.testbit 0xC0000000 n = bool_decide (n = 30 \/ n = 31).
Proof.
  destruct (Z.neg_nonneg_cases n) as [Hneg|Hpos].
  { rewrite Z.testbit_neg_r by lia. rewrite bool_decide_eq_false_2; [done|lia]. }
  change 0xC0000000 with (3 * 2 ^ 30).
  destruct (Z.lt_ge_cases n 30) as [Hlt|Hge].
  { rewrite Z.mul_pow2_bits_low by lia.
    rewrite bool_decide_eq_false_2; [done|lia]. }
  rewrite Z.mul_pow2_bits by lia.
  destruct (decide (n = 30)) as [->|H30]; [done|].
  destruct (decide (n = 31)) as [->|H31]; [done|].
  rewrite bool_decide_eq_false_2 by lia.
  apply Z.bits_above_log2; [lia|]. simpl. lia.
Qed.

Lemma is_valid_level_bits (lvl : level_t) :
  is_valid_level lvl = false <->
  Z.testbit lvl 31 = true \/ Z.testbit lvl 30 = true.
Proof.
  unfold is_valid_level. rewrite Z.eqb_neq. split.
  - intros Hne.
    destruct (Z.testbit lvl 31) eqn:H31; [by left|].
    destruct (Z.testbit lvl 30) eqn:H30; [by right|].
    exfalso. apply Hne. apply Z.bits_inj'. intros n _.
    rewrite Z.land_spec, Z.bits_0, testbit_top_two.
    case_bool_decide as Hn; [|apply andb_false_r].
    destruct Hn as [->| ->]; by rewrite ?H30, ?H31.
  - intros Hbit Hz.
    assert (Hb : forall n, Z.testbit lvl n && Z.testbit 0xC0000000 n = false).
    { intros n. rewrite <- Z.land_spec, Hz. apply Z.bits_0. }
    destruct Hbit as [H|H].
    + specialize (Hb 31). rewrite H in Hb. done.
    + specialize (Hb 30). rewrite H in Hb. done.
Qed.

(** On 32-bit values, a level is valid exactly when it is below [2^30]. *)
Lemma is_valid_level_lt (lvl : level_t) :
  0 <= lvl < 2 ^ 32 -> is_valid_level lvl = true <-> lvl < 2 ^ 30.
Proof.
  intros Hr. rewrite <- not_false_iff_true, is_valid_level_bits.
  rewrite !Z.testbit_true by lia.
  change (2 ^ 31) with 2147483648. change (2 ^ 30) with 1073741824.
  change (2 ^ 32) with 4294967296 in Hr.
  Z.div_mod_to_equations. lia.
Qed.

(** The guard answers [true] exactly when the level is valid and either
    above the mark, or an endorsement with no endorsement recorded. *)
Lemma is_level_authorized_true (nv : nvram_data) (lvl : level_t) (e : bool) :
  is_level_authorized nv lvl e = true <->
  is_valid_level lvl = true /\
  (lvl > highest_level nv \/ (e = true /\ had_endorsement nv = false)).
Proof.
  unfold is_level_authorized.
  destruct (is_valid_level lvl); simpl; [|intuition discriminate].
  destruct (Z.gtb_spec lvl (highest_level nv)).
  - intuition lia.
  - rewrite andb_true_iff, negb_true_iff. intuition lia.
Qed.

End baking_auth_facts.

(** ** The high-water-mark guard *)

(** C1 (the code departs from the claim).  With level 100 recorded and no
    endorsement seen, an endorsement at the valid level 50 is authorized,
    although 50 is neither above 100 nor equal to it: the last test of
    [is_level_authorized] is reached for every level that is not above the
    mark, not only for a tie. *)
Theorem is_level_authorized_endorsement_below_mark :
  let nv := Sample.nv100 false in
  BakingAuth.is_valid_level 50 = true /\
  BakingAuth.is_level_authorized nv 50 true = true /\
  ~ (50 > BakingAuth.highest_level nv \/
     (50 = BakingAuth.highest_level nv /\
      true = true /\ BakingAuth.had_endorsement nv = false)).
Proof. simpl. repeat split; try reflexivity. lia. Qed.

(** C7.  A 32-bit level is malformed exactly when one of its top two bits is
    set, which is the same as not being below [2^30]; a malformed level is
    refused whatever the recorded mark and endorsement flag are. *)
Theorem level_validity_top_two_bits (lvl : level_t) :
  0 <= lvl < 2 ^ 32 ->
  (BakingAuth.is_valid_level lvl = false <->
     Z.testbit lvl 31 = true \/ Z.testbit lvl 30 = true) /\
  (BakingAuth.is_valid_level lvl = true <-> lvl < 2 ^ 30) /\
  (BakingAuth.is_valid_level lvl = false ->
     forall nv e, BakingAuth.is_level_authorized nv lvl e = false).
Proof.
  intros Hr. split; [apply is_valid_level_bits|].
  split; [by apply is_valid_level_lt|].
  intros Hv nv e. unfold BakingAuth.is_level_authorized. by rewrite Hv.
Qed.

Lemma level_validity_top_two_bits_witness :
  0 <= 0x40000065 < 2 ^ 32 /\
  BakingAuth.is_level_authorized (Sample.nv100 false) 0x40000065 true = false.
Proof.
  split; [lia|].
  apply (level_validity_top_two_bits 0x40000065); [lia|reflexivity].
Defined.

(** C10.  With a NULL path, a zero length or a length above
    [MAX_BIP32_PATH], [authorize_baking] returns normally and leaves the
    non-volatile record, and everything else, as it was. *)
Theorem authorize_baking_bad_path_noop (MAX_BIP32_PATH : Z)
    (uninit : BakingAuth.nvram_data) (c : cx_curve_t)
    (path : option (list Z)) (n : Z) (w : BakingAuth.nvram_world) :
  path = None \/ n = 0 \/ n > MAX_BIP32_PATH ->
  BakingAuth.authorize_baking MAX_BIP32_PATH uninit c path n w = (Ret tt, w).
Proof.
  intros H. unfold BakingAuth.authorize_baking.
  destruct path as [p|]; [|done].
  destruct H as [H|[->|H]]; [done| |].
  - by rewrite orb_true_r.
  - destruct (Z.gtb_spec n MAX_BIP32_PATH); [done|lia].
Qed.

Lemma authorize_baking_bad_path_noop_witness :
  (11 > Sample.MAX_BIP32_PATH) /\
  BakingAuth.authorize_baking Sample.MAX_BIP32_PATH Sample.zero_nvram_data
    CX_CURVE_SECP256K1 (Some (replicate 11 1)) 11
    (Sample.nvw (Sample.nv100 true))
  = (Ret tt, Sample.nvw (Sample.nv100 true)).
Proof.
  split; [reflexivity|].
  apply authorize_baking_bad_path_noop. right; right. reflexivity.
Defined.

(** What [authorize_baking] writes for an acceptable path: one whole-record
    write whose curve, length, path and level are the intended ones, and
    whose endorsement flag is whatever the automatic variable held. *)
Lemma authorize_baking_writes (MAX_BIP32_PATH : Z)
    (uninit : BakingAuth.nvram_data) (c : cx_curve_t)
    (path : list Z) (n : Z) (w : BakingAuth.nvram_world) :
  0 < n <= MAX_BIP32_PATH ->
  let rec :=
    {| BakingAuth.curve := c;
       BakingAuth.path_length := n;
       BakingAuth.bip32_path :=
         memcpy_words (BakingAuth.bip32_path uninit) path n;
       BakingAuth.highest_level := BakingAuth.highest_level (BakingAuth.N_data w);
       BakingAuth.had_endorsement := BakingAuth.had_endorsement uninit |} in
  BakingAuth.authorize_baking MAX_BIP32_PATH uninit c (Some path) n w =
  (Ret tt,
   {| BakingAuth.N_data := rec;
      BakingAuth.trace :=
        BakingAuth.trace w ++
        [BakingAuth.EvNvmWrite rec;
         BakingAuth.EvIdleDisplay (BakingAuth.highest_level (BakingAuth.N_data w))] |}).
Proof.
  intros Hn rec. unfold BakingAuth.authorize_baking.
  destruct (Z.gtb_spec n MAX_BIP32_PATH); [lia|].
  destruct (Z.eqb_spec n 0); [lia|]. simpl.
  unfold bind, gets, BakingAuth.nvm_write, BakingAuth.change_idle_display,
    BakingAuth.emit, modify, bind. simpl.
  by rewrite <- app_assoc.
Qed.

(** C6 (the code departs from the claim).  With an endorsement recorded at
    level 100, authorizing a new key from an all-zero stack slot writes a
    record whose level is still 100 but whose endorsement flag is cleared:
    [had_endorsement] is never copied into [new_baking_details]. *)
Theorem authorize_baking_drops_had_endorsement :
  let w := Sample.nvw (Sample.nv100 true) in
  let r :=
    BakingAuth.authorize_baking Sample.MAX_BIP32_PATH Sample.zero_nvram_data
      CX_CURVE_SECP256K1 (Some Sample.path) 2 w in
  fst r = Ret tt /\
  BakingAuth.had_endorsement (BakingAuth.N_data w) = true /\
  BakingAuth.had_endorsement (BakingAuth.N_data (snd r)) = false /\
  BakingAuth.highest_level (BakingAuth.N_data (snd r)) = 100 /\
  BakingAuth.is_level_authorized (BakingAuth.N_data w) 100 true = false /\
  BakingAuth.is_level_authorized (BakingAuth.N_data (snd r)) 100 true = true.
Proof. repeat split. Qed.

(** ** The allow-list of operation tags *)

(** C9.  The baking build allows the two reveal and the two delegation tags
    and no other; the wallet build allows those and the proposal, ballot,
    origination and transaction tags, and no other. *)
Theorem operation_allow_list (tag : ApduSign.operation_tag) :
  let baking_tags :=
    [ApduSign.OPERATION_TAG_ATHENS_REVEAL;
     ApduSign.OPERATION_TAG_BABYLON_REVEAL;
     ApduSign.OPERATION_TAG_ATHENS_DELEGATION;
     ApduSign.OPERATION_TAG_BABYLON_DELEGATION] in
  let wallet_only_tags :=
    [ApduSign.OPERATION_TAG_PROPOSAL;
     ApduSign.OPERATION_TAG_BALLOT;
     ApduSign.OPERATION_TAG_ATHENS_ORIGINATION;
     ApduSign.OPERATION_TAG_BABYLON_ORIGINATION;
     ApduSign.OPERATION_TAG_ATHENS_TRANSACTION;
     ApduSign.OPERATION_TAG_BABYLON_TRANSACTION] in
  (ApduSign.is_operation_allowed true tag = true <-> In tag baking_tags) /\
  (ApduSign.is_operation_allowed false tag = true <->
     In tag (baking_tags ++ wallet_only_tags)).
Proof.
  destruct tag; simpl;
    (split; (split; intros H;
       [try discriminate; tauto
       | try reflexivity; exfalso; intuition discriminate])).
Qed.

(** ** Baking mode and unsafe operations *)

Ltac unfold_monad :=
  unfold ApduSign.PARSE_ERROR in *;
  unfold bind, ret, throw, gets, modify, when, zoom in *.

(** C3 (counterexample).  An unsafe operation whose parse result is invalid
    fails in baking mode with the parse error, not with the security
    error. *)
Lemma baking_unsafe_op_invalid_is_parse_error :
  fst (ApduSign.baking_sign_complete (P := Sample.platform) true false
         (Sample.unsafe_op_session CX_CURVE_Ed25519 false
            (Sample.delegation Sample.baker Sample.baker)))
  = Throw EXC_PARSE_ERROR /\
  EXC_PARSE_ERROR <> EXC_SECURITY.
Proof. split; [reflexivity|discriminate]. Qed.

(** C3 (amended).  In baking mode, completing an unsafe operation never
    signs by itself and leaves the session and the non-volatile record
    untouched.  It throws the parse error when the parse result is invalid;
    otherwise it asks for the "register as delegate" confirmation, whose
    acceptance signs, exactly when the session key is the authorized key
    and source and destination are both the signing identity; otherwise it
    throws the security error. *)
Theorem baking_unsafe_op_outcome `{P : ApduSign.Platform}
    (send_hash : bool) (w : ApduSign.world) :
  ApduSign.magic_byte (ApduSign.G w) = BakingAuth.MAGIC_BYTE_UNSAFE_OP ->
  let g := ApduSign.G w in
  let ops := ApduSign.v (ApduSign.maybe_ops g) in
  let self_delegation :=
    ApduSign.bip32_path_with_curve_eq (ApduSign.key g)
      (ApduSign.N_data_baking_key (BakingAuth.N_data (ApduSign.nvram w)))
    && bool_decide
         (ApduSign.source (ApduSign.operation ops) = ApduSign.signing ops)
    && bool_decide
         (ApduSign.destination (ApduSign.operation ops) = ApduSign.signing ops) in
  let r := ApduSign.baking_sign_complete true send_hash w in
  ApduSign.nvram (snd r) = ApduSign.nvram w /\
  ApduSign.G (snd r) = ApduSign.G w /\
  ApduSign.sent (snd r) = ApduSign.sent w /\
  if negb (ApduSign.is_valid (ApduSign.maybe_ops g)) then
    fst r = Throw EXC_PARSE_ERROR /\ snd r = w
  else if self_delegation then
    fst r = Throw ASYNC_EXCEPTION /\
    exists p, ApduSign.ui (snd r) = Some p /\
      ApduSign.prompts p = ["Register"; "Address"; "Fee"]%string /\
      ApduSign.ok_cb p =
        (if send_hash then ApduSign.sign_with_hash_ok
         else ApduSign.sign_without_hash_ok) /\
      ApduSign.cxl_cb p = ApduSign.sign_reject
  else
    fst r = Throw EXC_SECURITY /\ snd r = w.
Proof.
  intros Hmagic g ops self_delegation r.
  subst r. unfold ApduSign.baking_sign_complete. unfold_monad.
  rewrite Hmagic. fold g.
  destruct (ApduSign.is_valid (ApduSign.maybe_ops g)) eqn:Hvalid; simpl;
    [|done].
  fold ops. unfold ApduSign.COMPARE_eq. fold self_delegation.
  destruct self_delegation; [|done].
  unfold ApduSign.prompt_register_delegate,
    ApduSign.REGISTER_STATIC_UI_VALUE, ApduSign.register_ui_callback,
    ApduSign.ui_prompt.
  unfold_monad. fold g. rewrite Hvalid. simpl.
  repeat split. eexists. split; [reflexivity|]. done.
Qed.

Lemma baking_unsafe_op_outcome_witness :
  let w :=
    Sample.unsafe_op_session CX_CURVE_Ed25519 true
      (Sample.delegation Sample.baker Sample.someone_else) in
  ApduSign.magic_byte (ApduSign.G w) = BakingAuth.MAGIC_BYTE_UNSAFE_OP /\
  fst (ApduSign.baking_sign_complete (P := Sample.platform) true true w)
  = Throw EXC_SECURITY.
Proof.
  intros w. split; [reflexivity|].
  apply (baking_unsafe_op_outcome (P := Sample.platform) true w).
  reflexivity.
Defined.

(** ** What the blocks of [handle_apdu] leave alone *)

Section apdu_sign_frames.

Context `{P : ApduSign.Platform}.

Lemma preserves_trivial {W A} (m : M W A) : preserves (fun _ => True) m.
Proof. by intros w _. Qed.

Lemma on_message_data_counted {A} k n (m : M ApduSign.hash_args A) :
  preserves (Session.counted k n) (ApduSign.on_message_data m).
Proof.
  unfold ApduSign.on_message_data, ApduSign.on_G.
  apply (preserves_zoom _
    (fun g => ApduSign.key g = k /\ ApduSign.packet_index g = n)); [|done|done].
  apply (preserves_zoom _ (fun _ => True)); [apply preserves_trivial|done|done].
Qed.

Lemma get_magic_byte_or_throw_preserves (I : ApduSign.world -> Prop)
    (BAKING_APP : bool) buff :
  preserves I (ApduSign.get_magic_byte_or_throw BAKING_APP buff).
Proof.
  unfold ApduSign.get_magic_byte_or_throw. repeat preserves_step.
Qed.

Lemma parse_packet_counted (BAKING_APP : bool) k n buff :
  preserves (Session.counted k n) (ApduSign.parse_packet BAKING_APP buff).
Proof.
  unfold ApduSign.parse_packet.
  repeat (preserves_step || apply get_magic_byte_or_throw_preserves);
    by intros w Hw.
Qed.

Lemma accumulate_counted k n hashing buff buff_size last :
  preserves (Session.counted k n)
    (ApduSign.accumulate hashing buff buff_size last).
Proof.
  unfold ApduSign.accumulate, ApduSign.finish_message_data,
    ApduSign.hash_message_data, ApduSign.append_message_data.
  repeat (preserves_step || apply on_message_data_counted);
    by intros w Hw.
Qed.

Lemma finalize_successful_send_counted k n tx :
  preserves (Session.counted k n) (ApduSign.finalize_successful_send tx).
Proof.
  unfold ApduSign.finalize_successful_send. repeat preserves_step.
  by intros w Hw.
Qed.

End apdu_sign_frames.

(** ** Packet framing *)

Section framing.

Context `{P : ApduSign.Platform}.

(** The handler on a NEXT packet of acceptable length, past the dispatch on
    the kind. *)
Lemma deliver_next BAKING_APP ins (a : list byte) (w : ApduSign.world) :
  Session.kind a = ApduSign.P1_NEXT ->
  Session.buff_size a <= ApduSign.MAX_APDU_SIZE ->
  Session.deliver BAKING_APP ins a w =
  (let g := ApduSign.G w in
   if ApduSign.path_len (ApduSign.bip32_path (ApduSign.key g)) =? 0
   then (Throw EXC_WRONG_LENGTH_FOR_INS, ApduSign.with_G_io_apdu_buffer a w)
   else if ApduSign.packet_index g >=? 0xFF
   then (Throw EXC_PARSE_ERROR, ApduSign.with_G_io_apdu_buffer a w)
   else
     let hashing := negb (bool_decide (ins = ApduSign.INS_SIGN_UNSAFE)) in
     bind (when hashing (ApduSign.parse_packet BAKING_APP (Session.buff a)))
       (fun _ =>
        bind (ApduSign.accumulate hashing (Session.buff a)
                (Session.buff_size a) (Session.last a))
          (fun _ =>
           if Session.last a then
             if BAKING_APP
             then ApduSign.baking_sign_complete BAKING_APP
                    (bool_decide (ins = ApduSign.INS_SIGN_WITH_HASH))
             else ApduSign.wallet_sign_complete ins
           else ApduSign.finalize_successful_send 0))
       (ApduSign.with_G
          (ApduSign.with_packet_index (ApduSign.packet_index g + 1) g)
          (ApduSign.with_G_io_apdu_buffer a w))).
Proof.
  intros Hk Hlc.
  unfold Session.deliver. rewrite bind_modify.
  unfold ApduSign.handle_apdu. cbv zeta. rewrite bind_gets.
  change (ApduSign.G_io_apdu_buffer (ApduSign.with_G_io_apdu_buffer a w)) with a.
  fold (Session.buff_size a). fold (Session.kind a). fold (Session.last a).
  fold (Session.buff a).
  destruct (Z.gtb_spec (Session.buff_size a) ApduSign.MAX_APDU_SIZE); [lia|].
  rewrite Hk.
  change (ApduSign.P1_NEXT =? ApduSign.P1_FIRST) with false.
  change (ApduSign.P1_NEXT =? ApduSign.P1_HASH_ONLY_NEXT) with false.
  change (ApduSign.P1_NEXT =? ApduSign.P1_NEXT) with true.
  rewrite andb_false_r. cbn [orb when]. rewrite bind_ret, bind_gets.
  change (ApduSign.G (ApduSign.with_G_io_apdu_buffer a w)) with (ApduSign.G w).
  destruct (_ =? 0); [reflexivity|].
  destruct (_ >=? 255); [reflexivity|].
  rewrite bind_modify. reflexivity.
Qed.

(** A packet longer than [MAX_APDU_SIZE] is refused before anything else. *)
Lemma deliver_too_long BAKING_APP ins (a : list byte) (w : ApduSign.world) :
  Session.buff_size a > ApduSign.MAX_APDU_SIZE ->
  Session.deliver BAKING_APP ins a w =
  (Throw EXC_WRONG_LENGTH_FOR_INS, ApduSign.with_G_io_apdu_buffer a w).
Proof.
  intros Hlc.
  unfold Session.deliver. rewrite bind_modify.
  unfold ApduSign.handle_apdu. cbv zeta. rewrite bind_gets.
  change (ApduSign.G_io_apdu_buffer (ApduSign.with_G_io_apdu_buffer a w)) with a.
  fold (Session.buff_size a).
  destruct (Z.gtb_spec (Session.buff_size a) ApduSign.MAX_APDU_SIZE);
    [reflexivity|lia].
Qed.

(** An accepted NEXT packet that is not the last one found a session with a
    path and fewer than 255 packets counted, and counts one more. *)
Lemma next_accepted BAKING_APP ins (a : list byte) (w w' : ApduSign.world) z :
  Session.kind a = ApduSign.P1_NEXT ->
  Session.last a = false ->
  Session.deliver BAKING_APP ins a w = (Ret z, w') ->
  ApduSign.path_len (ApduSign.bip32_path (ApduSign.key (ApduSign.G w))) <> 0 /\
  ApduSign.packet_index (ApduSign.G w) < 255 /\
  Session.counted (ApduSign.key (ApduSign.G w))
    (ApduSign.packet_index (ApduSign.G w) + 1) w'.
Proof.
  intros Hk Hlast Hrun.
  destruct (Z.le_gt_cases (Session.buff_size a) ApduSign.MAX_APDU_SIZE)
    as [Hlc|Hlc]; [|by rewrite deliver_too_long in Hrun by lia].
  rewrite deliver_next in Hrun by done. cbv zeta in Hrun.
  destruct (Z.eqb_spec
    (ApduSign.path_len (ApduSign.bip32_path (ApduSign.key (ApduSign.G w)))) 0);
    [done|].
  destruct (Z.geb_spec (ApduSign.packet_index (ApduSign.G w)) 255); [done|].
  split; [done|]. split; [lia|].
  rewrite Hlast in Hrun.
  match type of Hrun with
  | ?m ?w1 = _ =>
      assert (Hp : preserves
                (Session.counted (ApduSign.key (ApduSign.G w))
                   (ApduSign.packet_index (ApduSign.G w) + 1)) m)
  end.
  { repeat (preserves_step || apply parse_packet_counted
            || apply accumulate_counted
            || apply finalize_successful_send_counted). }
  match type of Hrun with
  | ?m ?w1 = _ => specialize (Hp w1); rewrite Hrun in Hp
  end.
  by apply Hp.
Qed.

(** A run of accepted NEXT packets, none the last, counts them all and
    keeps the key. *)
Lemma next_run_counted BAKING_APP ins (apdus : list (list byte)) :
  forall w : ApduSign.world,
  Forall (fun b => Session.kind b = ApduSign.P1_NEXT /\ Session.last b = false)
    apdus ->
  Forall (fun r => is_ret r = true)
    (fst (Session.deliver_all BAKING_APP ins apdus w)) ->
  let w' := snd (Session.deliver_all BAKING_APP ins apdus w) in
  Session.counted (ApduSign.key (ApduSign.G w))
    (ApduSign.packet_index (ApduSign.G w) + Z.of_nat (length apdus)) w' /\
  (apdus <> [] ->
   ApduSign.path_len (ApduSign.bip32_path (ApduSign.key (ApduSign.G w))) <> 0).
Proof.
  induction apdus as [|a apdus IH]; intros w Hall Hret; simpl in *.
  { split; [|done]. split; [done|lia]. }
  apply Forall_cons in Hall as [[Hk Hl] Hall].
  destruct (Session.deliver BAKING_APP ins a w) as [r w1] eqn:Hrun.
  specialize (IH w1 Hall).
  destruct (Session.deliver_all BAKING_APP ins apdus w1) as [rs w2].
  simpl in *. apply Forall_cons in Hret as [Hr Hret].
  destruct r as [z|e]; [|done].
  destruct (next_accepted _ _ _ _ _ _ Hk Hl Hrun) as (Hpath & _ & Hkey & Hidx).
  destruct (IH Hret) as [[Hkey' Hidx'] _].
  split; [|done]. split; [congruence|]. rewrite Hidx', Hidx. lia.
Qed.

End framing.

(** C4 (counterexample).  A NEXT packet that arrives when no FIRST packet
    has set a path is refused with the wrong-length status, in the wallet
    and in the baking build, not with the parse error. *)
Lemma next_before_first_is_wrong_length :
  let a := Sample.apdu 0x01 0 [3; 1; 2] in
  fst (Session.deliver (P := Sample.platform) false ApduSign.INS_SIGN a
         Sample.world0) = Throw EXC_WRONG_LENGTH_FOR_INS /\
  fst (Session.deliver (P := Sample.platform) true ApduSign.INS_SIGN a
         Sample.world0) = Throw EXC_WRONG_LENGTH_FOR_INS /\
  EXC_WRONG_LENGTH_FOR_INS <> EXC_PARSE_ERROR.
Proof. split; [reflexivity|split; [reflexivity|discriminate]]. Qed.

(** C4 (amended).  A NEXT packet of acceptable length that finds no path in
    the session is refused with the wrong-length status and changes
    nothing but the APDU buffer.  After a session start (counter at zero)
    followed by 255 accepted NEXT packets, none marked last, the counter is
    at 255 and a further NEXT packet is refused with the parse error. *)
Theorem next_packet_framing `{P : ApduSign.Platform} (BAKING_APP : bool)
    (ins : ApduSign.instruction_t) (w : ApduSign.world) (a : list byte) :
  Session.kind a = ApduSign.P1_NEXT ->
  Session.buff_size a <= ApduSign.MAX_APDU_SIZE ->
  (ApduSign.path_len (ApduSign.bip32_path (ApduSign.key (ApduSign.G w))) = 0 ->
   Session.deliver BAKING_APP ins a w =
   (Throw EXC_WRONG_LENGTH_FOR_INS, ApduSign.with_G_io_apdu_buffer a w)) /\
  (forall apdus : list (list byte),
   ApduSign.packet_index (ApduSign.G w) = 0 ->
   length apdus = 255%nat ->
   Forall (fun b => Session.kind b = ApduSign.P1_NEXT /\ Session.last b = false)
     apdus ->
   Forall (fun r => is_ret r = true)
     (fst (Session.deliver_all BAKING_APP ins apdus w)) ->
   let w' := snd (Session.deliver_all BAKING_APP ins apdus w) in
   ApduSign.packet_index (ApduSign.G w') = 255 /\
   Session.deliver BAKING_APP ins a w' =
   (Throw EXC_PARSE_ERROR, ApduSign.with_G_io_apdu_buffer a w')).
Proof.
  intros Hk Hlc. split.
  - intros Hpath. rewrite deliver_next by done. cbv zeta. by rewrite Hpath.
  - intros apdus Hidx Hlen Hall Hret w'.
    destruct (next_run_counted BAKING_APP ins apdus w Hall Hret)
      as [[Hkey Hcount] Hpath].
    fold w' in Hkey, Hcount. rewrite Hidx, Hlen in Hcount.
    split; [done|].
    rewrite deliver_next by done. cbv zeta. rewrite Hkey, Hcount.
    destruct (Z.eqb_spec
      (ApduSign.path_len (ApduSign.bip32_path (ApduSign.key (ApduSign.G w)))) 0)
      as [Hz|_]; [|done].
    exfalso. apply Hpath; [|done]. by destruct apdus.
Qed.

Lemma next_packet_framing_witness :
  let w :=
    snd (Session.deliver (P := Sample.platform) false ApduSign.INS_SIGN
           Sample.first_packet Sample.world0) in
  let a := Sample.apdu 0x01 0 [0] in
  let apdus := Sample.apdu 0x01 0 [3] :: replicate 254 a in
  Session.kind a = ApduSign.P1_NEXT /\
  Session.buff_size a <= ApduSign.MAX_APDU_SIZE (Platform := Sample.platform) /\
  ApduSign.packet_index (ApduSign.G w) = 0 /\
  length apdus = 255%nat /\
  Forall (fun r => is_ret r = true)
    (fst (Session.deliver_all (P := Sample.platform) false ApduSign.INS_SIGN
            apdus w)) /\
  fst (Session.deliver (P := Sample.platform) false ApduSign.INS_SIGN a
         (snd (Session.deliver_all (P := Sample.platform) false
                 ApduSign.INS_SIGN apdus w)))
  = Throw EXC_PARSE_ERROR.
Proof.
  intros w a apdus.
  assert (Hk : Session.kind a = ApduSign.P1_NEXT) by reflexivity.
  assert (Hlc : Session.buff_size a
                <= ApduSign.MAX_APDU_SIZE (Platform := Sample.platform))
    by (vm_compute; discriminate).
  assert (Hidx : ApduSign.packet_index (ApduSign.G w) = 0) by reflexivity.
  assert (Hlen : length apdus = 255%nat) by reflexivity.
  assert (Hall : Forall (fun b => Session.kind b = ApduSign.P1_NEXT
                                  /\ Session.last b = false) apdus).
  { apply Forall_cons. split; [by split|].
    apply Forall_replicate. by split. }
  assert (Hret : Forall (fun r => is_ret r = true)
    (fst (Session.deliver_all (P := Sample.platform) false ApduSign.INS_SIGN
            apdus w))).
  { vm_compute. repeat constructor. }
  repeat (split; [assumption|]).
  destruct (next_packet_framing (P := Sample.platform) false ApduSign.INS_SIGN
              w a Hk Hlc) as [_ H256].
  destruct (H256 apdus Hidx Hlen Hall Hret) as [_ ->].
  reflexivity.
Defined.

(** ** The message buffer stays within its capacity *)

Lemma memmove_at_length (dst src : list byte) (off : Z) :
  0 <= off ->
  (Z.to_nat off + length src <= length dst)%nat ->
  length (memmove_at dst off src) = length dst.
Proof.
  intros Hoff Hfit. unfold memmove_at.
  rewrite !length_app, length_take, length_drop. lia.
Qed.

Section buffer_capacity.

Context `{P : ApduSign.Platform}.
Hypothesis sizeof_nonneg : 0 <= ApduSign.sizeof_message_data.





(** The guarded copy: refused with the parse error and no change when the
    bytes do not fit, done within the capacity otherwise. *)
Lemma append_message_data_spec (w : ApduSign.world) (buff : list byte) (n : Z) :
  Session.buffer_ok w -> 0 <= n -> Z.of_nat (length buff) <= n ->
  if ApduSign.message_data_length (ApduSign.G w) + n
     >? ApduSign.sizeof_message_data
  then ApduSign.append_message_data buff n w = (Throw EXC_PARSE_ERROR, w)
  else
    exists w',
      ApduSign.append_message_data buff n w = (Ret tt, w') /\
      ApduSign.message_data_length (ApduSign.G w')
      = ApduSign.message_data_length (ApduSign.G w) + n /\
      ApduSign.message_data (ApduSign.G w')
      = memmove_at (ApduSign.message_data (ApduSign.G w))
          (ApduSign.message_data_length (ApduSign.G w)) buff /\
      Session.buffer_ok w'.
Proof.
  intros [Hlen Hbuf] Hn Hfit. unfold ApduSign.append_message_data.
  rewrite bind_gets.
  destruct (Z.gtb_spec (ApduSign.message_data_length (ApduSign.G w) + n)
              ApduSign.sizeof_message_data); [done|].
  rewrite bind_modify. unfold modify. eexists. split; [reflexivity|].
  simpl. split; [done|]. split; [done|]. split; simpl; [lia|].
  rewrite memmove_at_length; [done|lia|lia].
Qed.
















End buffer_capacity.

Section main_buffer_capacity.

Context `{Q : Main.Platform}.






End main_buffer_capacity.





(** ** Persistence and signature *)

(** [write_highest_level] returns normally; for a valid level it replaces
    the record by one whole-record write and refreshes the idle screen, for
    an invalid one it does nothing. *)
Lemma write_highest_level_spec (lvl : level_t) (e : bool)
    (n : BakingAuth.nvram_world) :
  BakingAuth.write_highest_level lvl e n =
  (Ret tt,
   if BakingAuth.is_valid_level lvl then
     let rec :=
       {| BakingAuth.curve := BakingAuth.curve (BakingAuth.N_data n);
          BakingAuth.path_length := BakingAuth.path_length (BakingAuth.N_data n);
          BakingAuth.bip32_path := BakingAuth.bip32_path (BakingAuth.N_data n);
          BakingAuth.highest_level := lvl;
          BakingAuth.had_endorsement := e |} in
     {| BakingAuth.N_data := rec;
        BakingAuth.trace :=
          BakingAuth.trace n
          ++ [BakingAuth.EvNvmWrite rec; BakingAuth.EvIdleDisplay lvl] |}
   else n).
Proof.
  unfold BakingAuth.write_highest_level.
  destruct (BakingAuth.is_valid_level lvl); [|done]. simpl.
  unfold BakingAuth.nvm_write, BakingAuth.change_idle_display, BakingAuth.emit.
  rewrite bind_gets, bind_assoc, bind_modify, bind_modify, bind_gets.
  unfold modify. simpl. by rewrite <- app_assoc.
Qed.

Lemma update_high_water_mark_ret get_magic_byte (d : list byte)
    (n : BakingAuth.nvram_world) :
  fst (BakingAuth.update_high_water_mark get_magic_byte d n) = Ret tt.
Proof.
  unfold BakingAuth.update_high_water_mark.
  destruct (BakingAuth.parse_baking_data get_magic_byte d); [|done].
  by rewrite write_highest_level_spec.
Qed.

Section persist_then_sign.

Context `{P : ApduSign.Platform}.

Lemma sign_and_send_trace on_hash send_hash (w : ApduSign.world) :
  let r := ApduSign.sign_and_send on_hash send_hash w in
  BakingAuth.N_data (ApduSign.nvram (snd r))
  = BakingAuth.N_data (ApduSign.nvram w) /\
  exists s,
    BakingAuth.trace (ApduSign.nvram (snd r))
    = BakingAuth.trace (ApduSign.nvram w) ++ s /\
    Session.signed_or_failed (fst r) s.
Proof.
  unfold ApduSign.sign_and_send. cbv zeta. rewrite bind_gets.
  set (data := if on_hash then _ else _).
  match goal with
  | |- context [bind ?m _ w] =>
      assert (Htx : exists tx w1, m w = (Ret tx, w1) /\
                ApduSign.nvram w1 = ApduSign.nvram w /\
                ApduSign.G w1 = ApduSign.G w)
  end.
  { destruct (send_hash && on_hash).
    - rewrite bind_modify. by eexists _, _.
    - by eexists _, _. }
  destruct Htx as (tx & w1 & Htx & Hnv & HG).
  rewrite (bind_run _ _ _ _ _ Htx).
  unfold ApduSign.sign_with_key.
  destruct (ApduSign.sign _ _ _ data) as [sig|e].
  - unfold ApduSign.on_nvram, ApduSign.clear_data,
      ApduSign.finalize_successful_send, BakingAuth.emit.
    unfold bind, zoom, modify, ret. simpl. rewrite Hnv.
    split; [done|]. eexists. split; [done|]. right. by eexists _, _, _, _.
  - rewrite bind_throw. simpl. rewrite Hnv. split; [done|].
    exists []. rewrite app_nil_r. split; [done|]. left. by eexists.
Qed.

Lemma perform_signature_baking_trace on_hash send_hash (w : ApduSign.world) :
  let d := ApduSign.parsed_baking_data (ApduSign.G w) in
  let n1 :=
    snd (BakingAuth.write_highest_level (BakingAuth.level d)
           (BakingAuth.is_endorsement d) (ApduSign.nvram w)) in
  let r := ApduSign.perform_signature true on_hash send_hash w in
  BakingAuth.N_data (ApduSign.nvram (snd r)) = BakingAuth.N_data n1 /\
  exists s,
    BakingAuth.trace (ApduSign.nvram (snd r)) = BakingAuth.trace n1 ++ s /\
    Session.signed_or_failed (fst r) s.
Proof.
  intros d n1. unfold ApduSign.perform_signature. rewrite bind_gets.
  unfold ApduSign.write_high_water_mark, ApduSign.on_nvram. fold d.
  pose proof (write_highest_level_spec (BakingAuth.level d)
                (BakingAuth.is_endorsement d) (ApduSign.nvram w)) as Hw.
  rewrite (bind_run _ _ w (ApduSign.with_nvram n1 w) tt).
  - apply (sign_and_send_trace on_hash send_hash (ApduSign.with_nvram n1 w)).
  - unfold zoom. subst n1. by rewrite Hw.
Qed.

(** For a block or an endorsement, [baking_sign_complete] checks first and
    changes nothing when the check fails. *)
Lemma baking_sign_complete_guard send_hash (w : ApduSign.world) :
  ApduSign.magic_byte (ApduSign.G w) = BakingAuth.MAGIC_BYTE_BLOCK \/
  ApduSign.magic_byte (ApduSign.G w) = BakingAuth.MAGIC_BYTE_BAKING_OP ->
  let g := ApduSign.G w in
  let nv := BakingAuth.N_data (ApduSign.nvram w) in
  ApduSign.baking_sign_complete true send_hash w =
  if BakingAuth.is_path_authorized nv
       (ApduSign.derivation_type (ApduSign.key g))
       (Some (ApduSign.components (ApduSign.bip32_path (ApduSign.key g))))
       (ApduSign.path_len (ApduSign.bip32_path (ApduSign.key g)))
     && BakingAuth.is_level_authorized nv
          (BakingAuth.level (ApduSign.parsed_baking_data g))
          (BakingAuth.is_endorsement (ApduSign.parsed_baking_data g))
  then ApduSign.perform_signature true true send_hash w
  else (Throw EXC_SECURITY, w).
Proof.
  intros Hmagic g nv. unfold ApduSign.baking_sign_complete.
  rewrite bind_gets. fold g.
  assert (Hguard :
    ApduSign.guard_baking_authorized (ApduSign.parsed_baking_data g)
      (ApduSign.key g) w =
    if BakingAuth.is_path_authorized nv
         (ApduSign.derivation_type (ApduSign.key g))
         (Some (ApduSign.components (ApduSign.bip32_path (ApduSign.key g))))
         (ApduSign.path_len (ApduSign.bip32_path (ApduSign.key g)))
       && BakingAuth.is_level_authorized nv
            (BakingAuth.level (ApduSign.parsed_baking_data g))
            (BakingAuth.is_endorsement (ApduSign.parsed_baking_data g))
    then (Ret tt, w) else (Throw EXC_SECURITY, w)).
  { unfold ApduSign.guard_baking_authorized. rewrite bind_gets. fold nv.
    destruct (BakingAuth.is_path_authorized _ _ _ _); [|done].
    by destruct (BakingAuth.is_level_authorized _ _ _). }
  change (ApduSign.G w) with g in Hmagic.
  destruct Hmagic as [-> | ->].
  all: destruct (_ && _);
    [by rewrite (bind_run _ _ _ _ _ Hguard)
    |by rewrite (bind_run_throw _ _ _ _ _ Hguard)].
Qed.

End persist_then_sign.

Lemma main_perform_signature_trace `{Q : Main.Platform} tx (w : Main.world) :
  let c := Main.operationContext w in
  let d := take (Z.to_nat (Main.datalen c)) (Main.data c) in
  let n1 :=
    snd (BakingAuth.update_high_water_mark Main.get_magic_byte d
           (Main.nvram w)) in
  let r := Main.perform_signature tx w in
  BakingAuth.N_data (Main.nvram (snd r)) = BakingAuth.N_data n1 /\
  exists s,
    BakingAuth.trace (Main.nvram (snd r)) = BakingAuth.trace n1 ++ s /\
    Session.signed_or_failed (fst r) s.
Proof.
  intros c d n1. unfold Main.perform_signature. rewrite bind_gets.
  fold c d.
  pose proof (update_high_water_mark_ret Main.get_magic_byte d (Main.nvram w))
    as Hret.
  rewrite (bind_run _ _ w (Main.with_nvram n1 w) tt).
  2:{ unfold Main.on_nvram, zoom. subst n1.
      destruct (BakingAuth.update_high_water_mark _ _ _) as [r0 n0].
      simpl in *. by rewrite Hret. }
  rewrite bind_modify, bind_gets. cbv zeta.
  unfold Main.on_nvram, Main.store_apdu, BakingAuth.emit.
  destruct (Main.curve _); simpl.
  - split; [done|]. exists []. rewrite app_nil_r. split; [done|].
    left. by eexists.
  - destruct (Main.cx_ecdsa_sign _ _) as [sig info].
    unfold bind, zoom, modify, ret, when, gets. simpl.
    destruct (negb _); simpl;
      (split; [done|]; eexists; split; [done|]; right; by eexists _, _, _, _).
  - split; [done|]. exists []. rewrite app_nil_r. split; [done|].
    left. by eexists.
  - unfold bind, zoom, modify, ret. simpl.
    split; [done|]. eexists. split; [done|]. right. by eexists _, _, _, _.
Qed.

(** C2 (counterexample).  In [main.c], signing the block at level 200 with a
    key on the curve secp256r1, which [perform_signature] does not handle,
    ends with status [0x6B00] and no signature, yet the recorded level has
    moved from 100 to 200.  On the curve Ed25519 the same call signs, and
    the write of the record comes before the signature; so it does in the
    baking build of [apdu_sign.c]. *)
Lemma high_water_mark_written_before_signature :
  let w := Sample.main_world CX_CURVE_SECP256R1 (Sample.block_at 200) in
  let r := Main.perform_signature (P := Sample.main_platform) 0 w in
  let rec :=
    {| BakingAuth.curve := CX_CURVE_Ed25519;
       BakingAuth.path_length := 2;
       BakingAuth.bip32_path := Sample.padded_path;
       BakingAuth.highest_level := 200;
       BakingAuth.had_endorsement := false |} in
  fst r = Throw (EXC_raw 0x6B00) /\
  BakingAuth.highest_level (BakingAuth.N_data (Main.nvram w)) = 100 /\
  BakingAuth.highest_level (BakingAuth.N_data (Main.nvram (snd r))) = 200 /\
  BakingAuth.trace (Main.nvram (snd r))
  = [BakingAuth.EvNvmWrite rec; BakingAuth.EvIdleDisplay 200] /\
  match
    BakingAuth.trace
      (Main.nvram
         (snd (Main.perform_signature (P := Sample.main_platform) 0
                 (Sample.main_world CX_CURVE_Ed25519 (Sample.block_at 200)))))
  with
  | [BakingAuth.EvNvmWrite r1; BakingAuth.EvIdleDisplay _;
     BakingAuth.EvSign _ _ _] => r1 = rec
  | _ => False
  end /\
  match
    BakingAuth.trace
      (ApduSign.nvram
         (snd (Session.deliver_all (P := Sample.platform) true
                 ApduSign.INS_SIGN
                 [Sample.first_packet;
                  Sample.apdu 0x81 0 (Sample.block_at 200)]
                 Sample.world0)))
  with
  | [BakingAuth.EvNvmWrite r1; BakingAuth.EvIdleDisplay _;
     BakingAuth.EvSign _ _ _] => r1 = rec
  | _ => False
  end.
Proof.
  cbv zeta.
  do 4 (split; [vm_compute; reflexivity|]).
  split; vm_compute; reflexivity.
Qed.

(** C2 (amended).  In the baking signing flow the new high-water mark is
    persisted before the signature is produced: validation, then
    persistence, then signature.  For a block or an endorsement
    [baking_sign_complete] first checks key and level and throws the
    security error, changing nothing, when the check fails.
    [perform_signature] then writes the mark (one whole-record write, for a
    valid level) and only after that signs: what signing adds to the trace
    is one signature, or nothing when it fails, and the record is then
    already the written one.  [perform_signature] of [main.c] has the same
    order. *)
Theorem high_water_mark_persisted_then_signed `{P : ApduSign.Platform}
    `{Q : Main.Platform} :
  (forall send_hash (w : ApduSign.world),
     ApduSign.magic_byte (ApduSign.G w) = BakingAuth.MAGIC_BYTE_BLOCK \/
     ApduSign.magic_byte (ApduSign.G w) = BakingAuth.MAGIC_BYTE_BAKING_OP ->
     let g := ApduSign.G w in
     let nv := BakingAuth.N_data (ApduSign.nvram w) in
     ApduSign.baking_sign_complete true send_hash w =
     if BakingAuth.is_path_authorized nv
          (ApduSign.derivation_type (ApduSign.key g))
          (Some (ApduSign.components (ApduSign.bip32_path (ApduSign.key g))))
          (ApduSign.path_len (ApduSign.bip32_path (ApduSign.key g)))
        && BakingAuth.is_level_authorized nv
             (BakingAuth.level (ApduSign.parsed_baking_data g))
             (BakingAuth.is_endorsement (ApduSign.parsed_baking_data g))
     then ApduSign.perform_signature true true send_hash w
     else (Throw EXC_SECURITY, w)) /\
  (forall on_hash send_hash (w : ApduSign.world),
     let d := ApduSign.parsed_baking_data (ApduSign.G w) in
     let n1 :=
       snd (BakingAuth.write_highest_level (BakingAuth.level d)
              (BakingAuth.is_endorsement d) (ApduSign.nvram w)) in
     let r := ApduSign.perform_signature true on_hash send_hash w in
     BakingAuth.N_data (ApduSign.nvram (snd r)) = BakingAuth.N_data n1 /\
     exists s,
       BakingAuth.trace (ApduSign.nvram (snd r)) = BakingAuth.trace n1 ++ s /\
       Session.signed_or_failed (fst r) s) /\
  (forall tx (w : Main.world),
     let c := Main.operationContext w in
     let d := take (Z.to_nat (Main.datalen c)) (Main.data c) in
     let n1 :=
       snd (BakingAuth.update_high_water_mark Main.get_magic_byte d
              (Main.nvram w)) in
     let r := Main.perform_signature tx w in
     BakingAuth.N_data (Main.nvram (snd r)) = BakingAuth.N_data n1 /\
     exists s,
       BakingAuth.trace (Main.nvram (snd r)) = BakingAuth.trace n1 ++ s /\
       Session.signed_or_failed (fst r) s) /\
  (forall lvl e (n : BakingAuth.nvram_world),
     BakingAuth.write_highest_level lvl e n =
     (Ret tt,
      if BakingAuth.is_valid_level lvl then
        let rec :=
          {| BakingAuth.curve := BakingAuth.curve (BakingAuth.N_data n);
             BakingAuth.path_length :=
               BakingAuth.path_length (BakingAuth.N_data n);
             BakingAuth.bip32_path :=
               BakingAuth.bip32_path (BakingAuth.N_data n);
             BakingAuth.highest_level := lvl;
             BakingAuth.had_endorsement := e |} in
        {| BakingAuth.N_data := rec;
           BakingAuth.trace :=
             BakingAuth.trace n
             ++ [BakingAuth.EvNvmWrite rec; BakingAuth.EvIdleDisplay lvl] |}
      else n)).
Proof.
  split; [|split; [|split]].
  - intros send_hash w. apply baking_sign_complete_guard.
  - intros on_hash send_hash w. apply perform_signature_baking_trace.
  - intros tx w. apply main_perform_signature_trace.
  - apply write_highest_level_spec.
Qed.

Lemma high_water_mark_persisted_then_signed_witness :
  let w :=
    snd (Session.deliver_all (P := Sample.platform) true ApduSign.INS_SIGN
           [Sample.first_packet] Sample.world0) in
  let w :=
    ApduSign.with_G
      (ApduSign.with_parsed_baking_data
         {| BakingAuth.is_endorsement := false; BakingAuth.level := 100 |}
         (ApduSign.with_magic_byte BakingAuth.MAGIC_BYTE_BLOCK (ApduSign.G w)))
      w in
  ApduSign.magic_byte (ApduSign.G w) = BakingAuth.MAGIC_BYTE_BLOCK /\
  ApduSign.baking_sign_complete (P := Sample.platform) true true w
  = (Throw EXC_SECURITY, w).
Proof.
  intros w0 w. split; [vm_compute; reflexivity|].
  destruct (high_water_mark_persisted_then_signed (P := Sample.platform)
              (Q := Sample.main_platform)) as [Hguard _].
  rewrite (Hguard true w (or_introl eq_refl)). vm_compute. reflexivity.
Defined.

(** ** Chunk-invariance of the incremental hasher *)

Section chunk_invariance.

Context `{P : ApduSign.Platform}.

Lemma absorb_blocks_fuel (fuel : nat) :
  forall st (s : list byte),
  (length s <= fuel)%nat ->
  Session.absorb_blocks fuel st s = Session.absorb st s.
Proof.
  unfold Session.absorb.
  induction (lt_wf fuel) as [fuel _ IH]. intros st s Hle.
  destruct fuel as [|fuel].
  { destruct s; [done|simpl in Hle; lia]. }
  destruct (length s) as [|n] eqn:Hn.
  { simpl. rewrite Hn. simpl. done. }
  simpl. rewrite Hn.
  destruct (Z.gtb_spec (Z.of_nat (S n)) ApduSign.B2B_BLOCKBYTES) as [Hgt|]; [|done].
  unfold ApduSign.B2B_BLOCKBYTES in *.
  assert (Hd : length (drop (Z.to_nat 128) s) = (S n - 128)%nat).
  { rewrite length_drop. lia. }
  rewrite (IH fuel) by lia. rewrite (IH n) by lia. done.
Qed.

Lemma absorb_short st (s : list byte) :
  Z.of_nat (length s) <= ApduSign.B2B_BLOCKBYTES ->
  Session.absorb st s = (st, s).
Proof.
  intros Hs. unfold Session.absorb. destruct (length s) eqn:Hn; [done|].
  simpl. rewrite Hn.
  destruct (Z.gtb_spec (Z.of_nat (S n)) ApduSign.B2B_BLOCKBYTES); [lia|done].
Qed.

Lemma absorb_long st (s : list byte) :
  Z.of_nat (length s) > ApduSign.B2B_BLOCKBYTES ->
  Session.absorb st s =
  Session.absorb
    (ApduSign.b2b_update st (take (Z.to_nat ApduSign.B2B_BLOCKBYTES) s))
    (drop (Z.to_nat ApduSign.B2B_BLOCKBYTES) s).
Proof.
  intros Hs. unfold Session.absorb at 1. destruct (length s) eqn:Hn.
  { unfold ApduSign.B2B_BLOCKBYTES in *. lia. }
  simpl. rewrite Hn.
  destruct (Z.gtb_spec (Z.of_nat (S n)) ApduSign.B2B_BLOCKBYTES); [|lia].
  apply absorb_blocks_fuel. rewrite length_drop.
  unfold ApduSign.B2B_BLOCKBYTES in *. lia.
Qed.

(** Induction along the blocks of a stream. *)
Lemma absorb_ind (Pr : ApduSign.b2b_state -> list byte -> Prop) :
  (forall st s, Z.of_nat (length s) <= ApduSign.B2B_BLOCKBYTES -> Pr st s) ->
  (forall st s,
     Z.of_nat (length s) > ApduSign.B2B_BLOCKBYTES ->
     Pr (ApduSign.b2b_update st (take (Z.to_nat ApduSign.B2B_BLOCKBYTES) s))
        (drop (Z.to_nat ApduSign.B2B_BLOCKBYTES) s) ->
     Pr st s) ->
  forall st s, Pr st s.
Proof.
  intros Hshort Hlong st s.
  remember (length s) as n eqn:Hn. revert st s Hn.
  induction (lt_wf n) as [n _ IH]. intros st s ->.
  destruct (Z.le_gt_cases (Z.of_nat (length s)) ApduSign.B2B_BLOCKBYTES)
    as [Hle|Hgt]; [by apply Hshort|].
  apply Hlong; [lia|].
  eapply IH; [|reflexivity]. rewrite length_drop.
  unfold ApduSign.B2B_BLOCKBYTES in *. lia.
Qed.

Lemma absorb_rest st (s : list byte) :
  Z.of_nat (length (snd (Session.absorb st s))) <= ApduSign.B2B_BLOCKBYTES.
Proof.
  revert st s. apply absorb_ind; intros st s Hs.
  - by rewrite absorb_short.
  - intros IH. by rewrite absorb_long.
Qed.

(** Absorbing again what absorption left changes nothing. *)
Lemma absorb_idem st (s : list byte) :
  Session.absorb (fst (Session.absorb st s)) (snd (Session.absorb st s))
  = Session.absorb st s.
Proof.
  rewrite absorb_short by apply absorb_rest. by destruct (Session.absorb st s).
Qed.

(** Bytes that arrive later do not change how the earlier ones are cut
    into blocks. *)
Lemma absorb_app st (s t : list byte) :
  Session.absorb st (s ++ t)
  = Session.absorb (fst (Session.absorb st s))
      (snd (Session.absorb st s) ++ t).
Proof.
  revert st s. apply absorb_ind; intros st s Hs.
  - by rewrite (absorb_short st s).
  - intros IH. rewrite (absorb_long st s) by done. rewrite <- IH.
    rewrite absorb_long by (rewrite length_app; lia).
    unfold ApduSign.B2B_BLOCKBYTES in *.
    rewrite take_app_le, drop_app_le by lia. done.
Qed.

Lemma effective_after_block (hs : ApduSign.blake2b_hash_state_t) (b : list byte) :
  let s := ApduSign.conditional_init_hash_state hs in
  Session.effective
    {| ApduSign.initialized := ApduSign.initialized s;
       ApduSign.state := ApduSign.b2b_update (ApduSign.state s) b |}
  = ApduSign.b2b_update (Session.effective hs) b /\
  ApduSign.initialized s = true.
Proof.
  unfold ApduSign.conditional_init_hash_state, Session.effective.
  by destruct hs as [[] s0].
Qed.

Lemma incremental_hash_loop_spec (fuel : nat) (out_size : Z) :
  forall (current : Z) (a : ApduSign.hash_args),
  0 <= current -> 0 <= ApduSign.buff_length a ->
  ApduSign.buff_length a <= Z.of_nat fuel ->
  current + ApduSign.buff_length a <= out_size ->
  current + ApduSign.buff_length a <= Z.of_nat (length (ApduSign.buff a)) ->
  exists current' a',
    ApduSign.incremental_hash_loop fuel out_size current a = (Ret current', a') /\
    ApduSign.buff a' = ApduSign.buff a /\
    0 <= ApduSign.buff_length a' /\
    current <= current' /\
    current' + ApduSign.buff_length a' = current + ApduSign.buff_length a /\
    (ApduSign.initialized (ApduSign.st a) = true ->
     ApduSign.initialized (ApduSign.st a') = true) /\
    Session.absorb (Session.effective (ApduSign.st a))
      (take (Z.to_nat (ApduSign.buff_length a))
         (drop (Z.to_nat current) (ApduSign.buff a)))
    = (Session.effective (ApduSign.st a'),
       take (Z.to_nat (ApduSign.buff_length a'))
         (drop (Z.to_nat current') (ApduSign.buff a))).
Proof.
  induction fuel as [|fuel IH]; intros current a Hc Hlen Hfuel Hsize Hbuf;
    simpl; rewrite bind_gets; unfold id.
  - destruct (Z.gtb_spec (ApduSign.buff_length a) ApduSign.B2B_BLOCKBYTES) as [Hgt|Hle].
    { unfold ApduSign.B2B_BLOCKBYTES in *. lia. }
    exists current, a. repeat split; try done; try lia.
    apply absorb_short. rewrite length_take. lia.
  - destruct (Z.gtb_spec (ApduSign.buff_length a) ApduSign.B2B_BLOCKBYTES) as [Hgt|Hle].
    2:{ exists current, a. repeat split; try done; try lia.
        apply absorb_short. rewrite length_take. lia. }
    unfold ApduSign.B2B_BLOCKBYTES in *.
    destruct (Z.gtb_spec current out_size); [lia|].
    rewrite bind_modify.
    set (blk := take (Z.to_nat 128) (drop (Z.to_nat current) (ApduSign.buff a))).
    destruct (effective_after_block (ApduSign.st a) blk) as [Heff Hinit].
    cbv zeta in Heff, Hinit.
    match goal with
    | |- context [ApduSign.incremental_hash_loop fuel out_size _ ?a1] =>
        destruct (IH (current + 128) a1) as
          (c' & a' & Hrun & Hb & Hl' & Hcc & Hsum & Hi & Habs)
    end; cbn [ApduSign.buff ApduSign.buff_length ApduSign.st]; try lia.
    cbn [ApduSign.buff ApduSign.buff_length ApduSign.st] in *.
    exists c', a'. rewrite Hrun.
    split; [done|]. split; [done|]. split; [done|]. split; [lia|].
    split; [lia|]. split; [intros _; by apply Hi|].
    rewrite absorb_long.
    2:{ rewrite length_take, length_drop. unfold ApduSign.B2B_BLOCKBYTES. lia. }
    unfold ApduSign.B2B_BLOCKBYTES.
    rewrite take_take, Nat.min_l by lia. fold blk.
    rewrite <- Heff in *. rewrite <- Habs. f_equal.
    rewrite skipn_firstn_comm, drop_drop. f_equal; [lia|f_equal; lia].
Qed.

Lemma pending_length (a : ApduSign.hash_args) :
  Session.hash_args_ok a ->
  Z.of_nat (length (Session.pending a)) = ApduSign.buff_length a.
Proof.
  intros [Hlen Hbuf]. unfold Session.pending. rewrite length_take. lia.
Qed.

Lemma blake2b_incremental_hash_spec (a : ApduSign.hash_args) :
  Session.hash_args_ok a ->
  exists a',
    ApduSign.blake2b_incremental_hash ApduSign.sizeof_message_data a
    = (Ret tt, a') /\
    Session.hash_args_ok a' /\
    ApduSign.buff_length a' <= ApduSign.B2B_BLOCKBYTES /\
    ApduSign.buff_length a' <= ApduSign.buff_length a /\
    (ApduSign.initialized (ApduSign.st a) = true ->
     ApduSign.initialized (ApduSign.st a') = true) /\
    Session.absorb (Session.effective (ApduSign.st a)) (Session.pending a)
    = (Session.effective (ApduSign.st a'), Session.pending a').
Proof.
  intros [Hlen Hbuf]. unfold ApduSign.blake2b_incremental_hash.
  rewrite bind_gets.
  destruct (incremental_hash_loop_spec (Z.to_nat (ApduSign.buff_length a))
              ApduSign.sizeof_message_data 0 a)
    as (c' & a1 & Hrun & Hb & Hl1 & Hc & Hsum & Hi & Habs); try lia.
  rewrite (bind_run _ _ _ _ _ Hrun). unfold modify.
  eexists. split; [reflexivity|].
  change (drop (Z.to_nat 0) (ApduSign.buff a)) with (ApduSign.buff a) in Habs.
  fold (Session.pending a) in Habs.
  set (X := take (Z.to_nat (ApduSign.buff_length a1))
              (drop (Z.to_nat c') (ApduSign.buff a1))).
  assert (HX : length X = Z.to_nat (ApduSign.buff_length a1)).
  { unfold X. rewrite length_take, length_drop, Hb. lia. }
  assert (Hpend : Session.pending
            {| ApduSign.buff := memmove_at (ApduSign.buff a1) 0 X;
               ApduSign.buff_length := ApduSign.buff_length a1;
               ApduSign.st := ApduSign.st a1 |} = X).
  { unfold Session.pending, memmove_at. cbn [ApduSign.buff ApduSign.buff_length].
    change (take (Z.to_nat 0) (ApduSign.buff a1)) with (@nil byte).
    rewrite app_nil_l, take_app_le by lia. apply take_ge. lia. }
  split; [|split; [|split; [cbn [ApduSign.buff_length]; lia|split; [done|]]]].
  - split; cbn [ApduSign.buff ApduSign.buff_length]; [lia|].
    rewrite memmove_at_length; [by rewrite Hb|lia|]. rewrite Hb. lia.
  - cbn [ApduSign.buff_length].
    pose proof (absorb_rest (Session.effective (ApduSign.st a))
                  (Session.pending a)) as Hrest.
    rewrite Habs in Hrest. cbn [snd] in Hrest.
    rewrite length_take, length_drop in Hrest. lia.
  - rewrite Hpend. cbn [ApduSign.st]. unfold X. by rewrite Hb.
Qed.

Lemma blake2b_finish_hash_spec (a : ApduSign.hash_args) :
  Session.hash_args_ok a ->
  exists a',
    ApduSign.blake2b_finish_hash ApduSign.SIGN_HASH_SIZE
      ApduSign.sizeof_message_data a
    = (Ret (let (s, rest) :=
              Session.absorb (Session.effective (ApduSign.st a))
                (Session.pending a) in
            fst (ApduSign.b2b_final (ApduSign.b2b_update s rest)
                   ApduSign.SIGN_HASH_SIZE)),
       a') /\
    Session.hash_args_ok a'.
Proof.
  intros Hok. unfold ApduSign.blake2b_finish_hash. rewrite bind_modify.
  set (a0 := {| ApduSign.buff := ApduSign.buff a;
                ApduSign.buff_length := ApduSign.buff_length a;
                ApduSign.st :=
                  ApduSign.conditional_init_hash_state (ApduSign.st a) |}).
  assert (Hok0 : Session.hash_args_ok a0) by exact Hok.
  assert (Heff0 : Session.effective (ApduSign.st a0)
                  = Session.effective (ApduSign.st a)).
  { unfold a0, ApduSign.conditional_init_hash_state, Session.effective.
    cbn [ApduSign.st]. by destruct (ApduSign.st a) as [[] s0]. }
  assert (Hinit0 : ApduSign.initialized (ApduSign.st a0) = true).
  { unfold a0, ApduSign.conditional_init_hash_state.
    cbn [ApduSign.st]. by destruct (ApduSign.st a) as [[] s0]. }
  destruct (blake2b_incremental_hash_spec a0 Hok0)
    as (a1 & Hrun & Hok1 & _ & _ & Hi & Habs).
  rewrite (bind_run _ _ _ _ _ Hrun), bind_gets. unfold id.
  change (Session.pending a0) with (Session.pending a) in Habs.
  rewrite Heff0 in Habs. rewrite Habs.
  assert (Hstate : ApduSign.state (ApduSign.st a1)
                   = Session.effective (ApduSign.st a1)).
  { unfold Session.effective. by rewrite (Hi Hinit0). }
  rewrite Hstate. fold (Session.pending a1).
  destruct (ApduSign.b2b_final _ _) as [digest s2].
  rewrite bind_modify. unfold ret. eexists. split; [reflexivity|]. exact Hok1.
Qed.

Lemma on_message_data_run {A} (m : M ApduSign.hash_args A) (w : ApduSign.world) :
  ApduSign.on_message_data m w =
  (fst (m (Session.args_of (ApduSign.G w))),
   Session.put_args (snd (m (Session.args_of (ApduSign.G w)))) w).
Proof.
  unfold ApduSign.on_message_data, ApduSign.on_G, zoom.
  fold (Session.args_of (ApduSign.G w)).
  by destruct (m (Session.args_of (ApduSign.G w))).
Qed.

Lemma buffer_ok_args (w : ApduSign.world) :
  Session.buffer_ok w <-> Session.hash_args_ok (Session.args_of (ApduSign.G w)).
Proof. done. Qed.

Lemma hash_message_data_spec (s : list byte) (w : ApduSign.world) :
  Session.received s w ->
  exists w',
    ApduSign.hash_message_data w = (Ret tt, w') /\
    Session.received s w' /\
    ApduSign.message_data_length (ApduSign.G w') <= ApduSign.B2B_BLOCKBYTES /\
    ApduSign.message_data_length (ApduSign.G w')
    <= ApduSign.message_data_length (ApduSign.G w).
Proof.
  intros [Hok Hrec]. unfold ApduSign.hash_message_data.
  rewrite on_message_data_run.
  destruct (blake2b_incremental_hash_spec _ (proj1 (buffer_ok_args w) Hok))
    as (a' & Hrun & Hok' & Hshort & Hle & _ & Habs).
  rewrite Hrun. cbn [fst snd]. eexists. split; [reflexivity|].
  split; [split; [exact Hok'|]|split; [exact Hshort|exact Hle]].
  change (Session.absorb (Session.effective (ApduSign.st a')) (Session.pending a')
          = Session.absorb (ApduSign.b2b_init ApduSign.SIGN_HASH_SIZE) s).
  rewrite <- Hrec.
  change (ApduSign.hash_state (ApduSign.G w))
    with (ApduSign.st (Session.args_of (ApduSign.G w))).
  pose proof (absorb_rest
    (Session.effective (ApduSign.st (Session.args_of (ApduSign.G w))))
    (Session.pending (Session.args_of (ApduSign.G w)))) as Hrest.
  rewrite Habs in Hrest |- *. by apply absorb_short.
Qed.

Lemma finish_message_data_spec (s : list byte) (w : ApduSign.world) :
  Session.received s w ->
  exists w',
    ApduSign.finish_message_data w = (Ret tt, w') /\
    ApduSign.final_hash (ApduSign.G w') = Session.digest_of_stream s /\
    Session.buffer_ok w'.
Proof.
  intros Hrec. unfold ApduSign.finish_message_data.
  destruct (hash_message_data_spec s w Hrec)
    as (w1 & Hrun1 & [Hok1 Hrec1] & _).
  rewrite (bind_run _ _ _ _ _ Hrun1).
  destruct (blake2b_finish_hash_spec _ (proj1 (buffer_ok_args w1) Hok1))
    as (a' & Hrun & Hok').
  erewrite (bind_run _ _ w1 (Session.put_args a' w1)).
  2:{ by rewrite on_message_data_run, Hrun. }
  unfold modify. eexists. split; [reflexivity|]. split; [|exact Hok'].
  cbn [ApduSign.G ApduSign.with_G ApduSign.final_hash ApduSign.with_final_hash].
  change (ApduSign.st (Session.args_of (ApduSign.G w1)))
    with (ApduSign.hash_state (ApduSign.G w1)).
  rewrite Hrec1. reflexivity.
Qed.

Lemma append_received (s p : list byte) (w : ApduSign.world) :
  Session.received s w ->
  let n := Z.of_nat (length p) in
  if ApduSign.message_data_length (ApduSign.G w) + n
     >? ApduSign.sizeof_message_data
  then ApduSign.append_message_data p n w = (Throw EXC_PARSE_ERROR, w)
  else exists w',
    ApduSign.append_message_data p n w = (Ret tt, w') /\
    Session.received (s ++ p) w'.
Proof.
  intros [Hok Hrec] n.
  pose proof (append_message_data_spec w p n Hok ltac:(lia) ltac:(lia)) as H.
  destruct (Z.gtb_spec (ApduSign.message_data_length (ApduSign.G w) + n)
              ApduSign.sizeof_message_data) as [Hgt|Hle]; [done|].
  destruct H as (w' & Hrun & Hlen & Hdata & Hok').
  exists w'. split; [done|]. split; [done|].
  assert (HG : ApduSign.hash_state (ApduSign.G w')
               = ApduSign.hash_state (ApduSign.G w)).
  { unfold ApduSign.append_message_data in Hrun. rewrite bind_gets in Hrun.
    destruct (_ >? _); [done|]. rewrite bind_modify in Hrun.
    unfold modify in Hrun. by injection Hrun as <-. }
  rewrite HG.
  assert (Hpend : Session.pending (Session.args_of (ApduSign.G w'))
                  = Session.pending (Session.args_of (ApduSign.G w)) ++ p).
  { unfold Session.pending, Session.args_of.
    cbn [ApduSign.buff ApduSign.buff_length]. rewrite Hlen, Hdata.
    destruct Hok as [Hl Hb]. unfold memmove_at.
    rewrite app_assoc, take_app_le.
    2:{ rewrite length_app, length_take. lia. }
    apply take_ge. rewrite length_app, length_take. lia. }
  rewrite Hpend, absorb_app, Hrec, <- absorb_app. done.
Qed.

(** One packet through [accumulate]: refused with the parse error when its
    bytes do not fit after the pending ones; otherwise taken into the
    stream and, when it is the last, the stream is hashed to its digest. *)
Lemma accumulate_spec (s p : list byte) (last : bool) (w : ApduSign.world) :
  Session.received s w ->
  let r := ApduSign.accumulate true p (Z.of_nat (length p)) last w in
  (fst r = Throw EXC_PARSE_ERROR \/
   fst r = Ret tt /\
   if last then
     ApduSign.final_hash (ApduSign.G (snd r))
     = Session.digest_of_stream (s ++ p)
   else Session.received (s ++ p) (snd r)) /\
  (Z.of_nat (length p)
   + Z.min ApduSign.B2B_BLOCKBYTES
       (ApduSign.message_data_length (ApduSign.G w))
   <= ApduSign.sizeof_message_data ->
   fst r = Ret tt).
Proof.
  intros Hrec. unfold ApduSign.accumulate. cbn [when].
  destruct (hash_message_data_spec s w Hrec)
    as (w1 & Hrun1 & Hrec1 & Hshort & Hle).
  rewrite (bind_run _ _ _ _ _ Hrun1).
  pose proof (append_received s p w1 Hrec1) as Happ. cbv zeta in Happ.
  destruct (Z.gtb_spec
    (ApduSign.message_data_length (ApduSign.G w1) + Z.of_nat (length p))
    ApduSign.sizeof_message_data) as [Hgt|Hfit].
  { rewrite (bind_run_throw _ _ _ _ _ Happ). cbn [fst]. split; [by left|lia]. }
  destruct Happ as (w2 & Hrun2 & Hrec2).
  rewrite (bind_run _ _ _ _ _ Hrun2).
  destruct last; cbn [when andb].
  - destruct (finish_message_data_spec _ _ Hrec2) as (w3 & Hrun3 & Hdig & Hok3).
    rewrite Hrun3. cbn [fst snd]. split; [|done]. by right.
  - cbn [fst snd ret]. split; [|done]. by right.
Qed.

Lemma hash_packets_spec (packets : list (list byte)) :
  forall (s : list byte) (w : ApduSign.world),
  packets <> [] ->
  Session.received s w ->
  let r := Session.hash_packets packets w in
  (fst r = Throw EXC_PARSE_ERROR \/
   fst r = Ret tt /\
   ApduSign.final_hash (ApduSign.G (snd r))
   = Session.digest_of_stream (s ++ concat packets)) /\
  (Forall (fun p => Z.of_nat (length p) + ApduSign.B2B_BLOCKBYTES
                    <= ApduSign.sizeof_message_data) packets ->
   fst r = Ret tt).
Proof.
  induction packets as [|p rest IH]; intros s w Hne Hrec; [done|].
  destruct rest as [|q rest].
  - cbn [Session.hash_packets concat]. rewrite app_nil_r.
    destruct (accumulate_spec s p true w Hrec) as [Hout Hfit].
    split; [exact Hout|].
    intros Hsmall. apply Forall_cons in Hsmall as [Hp _]. apply Hfit. lia.
  - change (Session.hash_packets (p :: q :: rest))
      with (bind (ApduSign.accumulate true p (Z.of_nat (length p)) false)
              (fun _ => Session.hash_packets (q :: rest))).
    destruct (accumulate_spec s p false w Hrec) as [Hout Hfit].
    cbv zeta in Hout, Hfit.
    destruct (ApduSign.accumulate true p (Z.of_nat (length p)) false w)
      as [[[]|e] w1] eqn:Hrun; cbn [fst snd] in *.
    + rewrite (bind_run _ _ _ _ _ Hrun).
      destruct Hout as [?|[_ Hrec1]]; [done|].
      destruct (IH (s ++ p) w1 ltac:(done) Hrec1) as [Hout' Hfit'].
      cbn [concat]. rewrite app_assoc. split; [exact Hout'|].
      intros Hsmall. apply Forall_cons in Hsmall as [_ Hsmall]. by apply Hfit'.
    + rewrite (bind_run_throw _ _ _ _ _ Hrun). cbn [fst].
      destruct Hout as [Hout|[? _]]; [|done]. split; [by left|].
      intros Hsmall. apply Forall_cons in Hsmall as [Hp _].
      rewrite Hfit in Hout by lia. done.
Qed.

(** *** The same through [handle_apdu], in the wallet build *)

Lemma received_ext (s : list byte) (w w' : ApduSign.world) :
  ApduSign.message_data (ApduSign.G w') = ApduSign.message_data (ApduSign.G w) ->
  ApduSign.message_data_length (ApduSign.G w')
  = ApduSign.message_data_length (ApduSign.G w) ->
  ApduSign.hash_state (ApduSign.G w') = ApduSign.hash_state (ApduSign.G w) ->
  Session.received s w -> Session.received s w'.
Proof.
  unfold Session.received, Session.buffer_ok, Session.pending, Session.args_of.
  cbn [ApduSign.buff ApduSign.buff_length]. by intros -> -> ->.
Qed.

Lemma parse_packet_received BAKING_APP s buff :
  preserves (Session.received s) (ApduSign.parse_packet BAKING_APP buff).
Proof.
  unfold ApduSign.parse_packet.
  repeat (preserves_step || apply get_magic_byte_or_throw_preserves);
    intros w Hw; by apply (received_ext s w).
Qed.

Lemma finalize_successful_send_received s tx :
  preserves (Session.received s) (ApduSign.finalize_successful_send tx).
Proof.
  unfold ApduSign.finalize_successful_send. repeat preserves_step.
  intros w Hw; by apply (received_ext s w).
Qed.

Lemma parse_packet_throws BAKING_APP buff (w w' : ApduSign.world) e :
  ApduSign.parse_packet BAKING_APP buff w = (Throw e, w') ->
  e = EXC_PARSE_ERROR.
Proof.
  unfold ApduSign.parse_packet, ApduSign.get_magic_byte_or_throw.
  unfold_monad. intros H.
  repeat (case_match; simplify_eq; try done).
Qed.

Lemma wallet_sign_complete_final_hash ins d :
  preserves (fun w => ApduSign.final_hash (ApduSign.G w) = d)
    (ApduSign.wallet_sign_complete ins).
Proof.
  unfold ApduSign.wallet_sign_complete, ApduSign.prompt_transaction,
    ApduSign.ui_prompt, ApduSign.register_ui_callback,
    ApduSign.REGISTER_STATIC_UI_VALUE. cbv zeta.
  repeat preserves_step; by intros w Hw.
Qed.

Lemma deliver_received BAKING_APP ins (a s : list byte) (w w' : ApduSign.world) z :
  ins <> ApduSign.INS_SIGN_UNSAFE ->
  Session.kind a = ApduSign.P1_NEXT ->
  Session.last a = false ->
  Z.of_nat (length (Session.buff a)) = Session.buff_size a ->
  Session.received s w ->
  Session.deliver BAKING_APP ins a w = (Ret z, w') ->
  Session.received (s ++ Session.buff a) w'.
Proof.
  intros Hins Hk Hlast Hlen Hrec Hrun.
  destruct (Z.le_gt_cases (Session.buff_size a) ApduSign.MAX_APDU_SIZE)
    as [Hlc|Hlc]; [|by rewrite deliver_too_long in Hrun by lia].
  rewrite deliver_next in Hrun by done. cbv zeta in Hrun.
  destruct (_ =? 0); [done|]. destruct (_ >=? 255); [done|].
  rewrite bool_decide_eq_false_2 in Hrun by done. cbn [negb when] in Hrun.
  rewrite Hlast in Hrun.
  apply bind_inv_ret in Hrun as ([] & w1 & Hparse & Hrun).
  apply bind_inv_ret in Hrun as ([] & w2 & Hacc & Hrun).
  assert (Hrec1 : Session.received s w1).
  { pose proof (parse_packet_received BAKING_APP s (Session.buff a)) as Hp.
    match type of Hparse with
    | _ ?w0 = _ => specialize (Hp w0); rewrite Hparse in Hp
    end.
    apply Hp. by apply (received_ext s w). }
  rewrite <- Hlen in Hacc.
  destruct (accumulate_spec s (Session.buff a) false w1 Hrec1) as [Hout _].
  cbv zeta in Hout. rewrite Hacc in Hout. cbn [fst snd] in Hout.
  destruct Hout as [?|[_ Hrec2]]; [done|].
  pose proof (finalize_successful_send_received (s ++ Session.buff a) 0 w2 Hrec2)
    as Hfin.
  by rewrite Hrun in Hfin.
Qed.

Lemma deliver_last_final_hash ins (a s : list byte) (w w' : ApduSign.world) :
  ins <> ApduSign.INS_SIGN_UNSAFE ->
  Session.kind a = ApduSign.P1_NEXT ->
  Session.last a = true ->
  Z.of_nat (length (Session.buff a)) = Session.buff_size a ->
  Session.received s w ->
  Session.deliver false ins a w = (Throw ASYNC_EXCEPTION, w') ->
  ApduSign.final_hash (ApduSign.G w') = Session.digest_of_stream (s ++ Session.buff a).
Proof.
  intros Hins Hk Hlast Hlen Hrec Hrun.
  destruct (Z.le_gt_cases (Session.buff_size a) ApduSign.MAX_APDU_SIZE)
    as [Hlc|Hlc]; [|by rewrite deliver_too_long in Hrun by lia].
  rewrite deliver_next in Hrun by done. cbv zeta in Hrun.
  destruct (_ =? 0); [done|]. destruct (_ >=? 255); [done|].
  rewrite bool_decide_eq_false_2 in Hrun by done. cbn [negb when] in Hrun.
  rewrite Hlast in Hrun.
  match type of Hrun with
  | bind ?m _ ?w0 = _ => destruct (m w0) as [[[]|e] w1] eqn:Hparse
  end.
  2:{ rewrite (bind_run_throw _ _ _ _ _ Hparse) in Hrun.
      apply parse_packet_throws in Hparse. congruence. }
  rewrite (bind_run _ _ _ _ _ Hparse) in Hrun.
  assert (Hrec1 : Session.received s w1).
  { pose proof (parse_packet_received false s (Session.buff a)) as Hp.
    match type of Hparse with
    | _ ?w0 = _ => specialize (Hp w0); rewrite Hparse in Hp
    end.
    apply Hp. by apply (received_ext s w). }
  rewrite <- Hlen in Hrun.
  destruct (accumulate_spec s (Session.buff a) true w1 Hrec1) as [Hout _].
  cbv zeta in Hout.
  destruct (ApduSign.accumulate true (Session.buff a) _ true w1)
    as [[[]|e] w2] eqn:Hacc; cbn [fst snd] in Hout.
  2:{ rewrite (bind_run_throw _ _ _ _ _ Hacc) in Hrun.
      destruct Hout as [?|[? _]]; congruence. }
  rewrite (bind_run _ _ _ _ _ Hacc) in Hrun.
  destruct Hout as [?|[_ Hd]]; [done|].
  pose proof (wallet_sign_complete_final_hash ins _ w2 Hd) as Hfin.
  by rewrite Hrun in Hfin.
Qed.

Lemma wallet_session_final_hash ins (apdus : list (list byte)) (a : list byte) :
  forall (s : list byte) (w : ApduSign.world),
  ins <> ApduSign.INS_SIGN_UNSAFE ->
  Forall (fun b => Session.kind b = ApduSign.P1_NEXT /\ Session.last b = false /\
                   Z.of_nat (length (Session.buff b)) = Session.buff_size b)
    apdus ->
  Session.kind a = ApduSign.P1_NEXT ->
  Session.last a = true ->
  Z.of_nat (length (Session.buff a)) = Session.buff_size a ->
  Session.received s w ->
  Forall (fun r => is_ret r = true)
    (fst (Session.deliver_all false ins apdus w)) ->
  let w1 := snd (Session.deliver_all false ins apdus w) in
  fst (Session.deliver false ins a w1) = Throw ASYNC_EXCEPTION ->
  ApduSign.final_hash (ApduSign.G (snd (Session.deliver false ins a w1)))
  = Session.digest_of_stream
      (s ++ concat (map Session.buff apdus) ++ Session.buff a).
Proof.
  induction apdus as [|b apdus IH]; intros s w Hins Hall Hk Hlast Hlen Hrec Hret.
  - intros w1 Hrun. subst w1. cbn [Session.deliver_all snd map concat app] in *.
    destruct (Session.deliver false ins a w) as [r w'] eqn:Hd.
    cbn [fst snd] in *. subst r.
    by apply (deliver_last_final_hash ins a s w w').
  - apply Forall_cons in Hall as [(Hkb & Hlb & Hlenb) Hall].
    cbn [Session.deliver_all] in *.
    destruct (Session.deliver false ins b w) as [r w1] eqn:Hrun.
    specialize (IH (s ++ Session.buff b) w1 Hins Hall Hk Hlast Hlen).
    destruct (Session.deliver_all false ins apdus w1) as [rs w2] eqn:Hrest.
    cbn [fst snd] in *. apply Forall_cons in Hret as [Hr Hret].
    destruct r as [z|e]; [|done].
    pose proof (deliver_received false ins b s w w1 z Hins Hkb Hlb Hlenb Hrec Hrun)
      as Hrec1.
    specialize (IH Hrec1 Hret). cbn [map concat]. rewrite <- !app_assoc in *.
    exact IH.
Qed.

End chunk_invariance.

(** C5.  From a session that has received no byte, hashing a stream
    delivered as any non-empty sequence of packets either refuses a packet
    that does not fit the buffer, with the parse error, or ends with
    [G.final_hash] equal to the digest of the stream, which does not depend
    on the packets.  Packets that leave room for one block are never
    refused, and a stream that fits the buffer can be delivered as one
    packet; whenever both deliveries are accepted they give the same final
    hash.  Through [handle_apdu] in the wallet build: when the NEXT packets
    of a message are accepted and the last one reaches the confirmation
    prompt, [G.final_hash] is the digest of the concatenated payloads. *)
Theorem chunk_invariance `{P : ApduSign.Platform} (w : ApduSign.world)
    (packets : list (list byte)) :
  Session.fresh w ->
  packets <> [] ->
  let stream := concat packets in
  let r := Session.hash_packets packets w in
  let r1 := Session.hash_packets [stream] w in
  (fst r = Throw EXC_PARSE_ERROR \/
   fst r = Ret tt /\
   ApduSign.final_hash (ApduSign.G (snd r)) = Session.digest_of_stream stream) /\
  (Forall (fun p => Z.of_nat (length p) + ApduSign.B2B_BLOCKBYTES
                    <= ApduSign.sizeof_message_data) packets ->
   fst r = Ret tt) /\
  (Z.of_nat (length stream) <= ApduSign.sizeof_message_data ->
   fst r1 = Ret tt /\
   ApduSign.final_hash (ApduSign.G (snd r1)) = Session.digest_of_stream stream) /\
  (fst r = Ret tt -> fst r1 = Ret tt ->
   ApduSign.final_hash (ApduSign.G (snd r))
   = ApduSign.final_hash (ApduSign.G (snd r1))) /\
  (forall ins (apdus : list (list byte)) (a : list byte),
   ins <> ApduSign.INS_SIGN_UNSAFE ->
   Forall (fun b => Session.kind b = ApduSign.P1_NEXT /\
                    Session.last b = false /\
                    Z.of_nat (length (Session.buff b)) = Session.buff_size b)
     apdus ->
   Session.kind a = ApduSign.P1_NEXT ->
   Session.last a = true ->
   Z.of_nat (length (Session.buff a)) = Session.buff_size a ->
   Forall (fun r => is_ret r = true)
     (fst (Session.deliver_all false ins apdus w)) ->
   let w1 := snd (Session.deliver_all false ins apdus w) in
   fst (Session.deliver false ins a w1) = Throw ASYNC_EXCEPTION ->
   ApduSign.final_hash (ApduSign.G (snd (Session.deliver false ins a w1)))
   = Session.digest_of_stream
       (concat (map Session.buff apdus) ++ Session.buff a)).
Proof.
  intros (Hok & Hlen & Hinit) Hne stream r r1.
  assert (Hrec : Session.received [] w).
  { split; [done|]. unfold Session.pending, Session.args_of, Session.effective.
    cbn [ApduSign.buff ApduSign.buff_length]. by rewrite Hlen, Hinit. }
  destruct (hash_packets_spec packets [] w Hne Hrec) as [Hout Hfit].
  destruct (accumulate_spec [] stream true w Hrec) as [Hout1 Hfit1].
  cbn [app] in *. fold stream r in Hout, Hfit.
  change (ApduSign.accumulate true stream (Z.of_nat (length stream)) true w)
    with r1 in Hout1, Hfit1.
  rewrite Hlen in Hfit1.
  split; [exact Hout|]. split; [exact Hfit|]. split; [|split].
  - intros Hfits. assert (Hr1 : fst r1 = Ret tt).
    { apply Hfit1. unfold ApduSign.B2B_BLOCKBYTES. lia. }
    split; [done|]. destruct Hout1 as [Hthrow|[_ Hd]]; [congruence|done].
  - intros Hr Hr1.
    destruct Hout as [Hthrow|[_ ->]]; [congruence|].
    destruct Hout1 as [Hthrow|[_ ->]]; [congruence|done].
  - intros ins apdus a Hins Hall Hk Hlast Hlena Hret.
    by apply (wallet_session_final_hash ins apdus a [] w).
Qed.

Lemma chunk_invariance_witness :
  let w :=
    snd (Session.deliver (P := Sample.platform) false ApduSign.INS_SIGN
           Sample.first_packet Sample.world0) in
  let s := Sample.stream300 in
  let packets :=
    [take 127 s; take 1 (drop 127 s); take 1 (drop 128 s); drop 129 s] in
  Session.fresh (P := Sample.platform) w /\
  packets <> [] /\
  concat packets = s /\
  fst (Session.hash_packets (P := Sample.platform) packets w) = Ret tt /\
  fst (Session.hash_packets (P := Sample.platform) [s] w) = Ret tt /\
  ApduSign.final_hash
    (ApduSign.G (snd (Session.hash_packets (P := Sample.platform) packets w)))
  = ApduSign.final_hash
      (ApduSign.G (snd (Session.hash_packets (P := Sample.platform) [s] w))).
Proof.
  intros w s packets.
  assert (Hfresh : Session.fresh (P := Sample.platform) w).
  { split; [split; vm_compute; [split; discriminate|reflexivity]|].
    split; reflexivity. }
  assert (Hne : packets <> []) by discriminate.
  assert (Hcat : concat packets = s) by (vm_compute; reflexivity).
  assert (Hr : fst (Session.hash_packets (P := Sample.platform) packets w)
               = Ret tt) by (vm_compute; reflexivity).
  assert (Hr1 : fst (Session.hash_packets (P := Sample.platform) [s] w)
                = Ret tt) by (vm_compute; reflexivity).
  repeat (split; [assumption|]).
  destruct (chunk_invariance (P := Sample.platform) w packets Hfresh Hne)
    as (_ & _ & _ & Hsame & _).
  rewrite Hcat in Hsame. exact (Hsame Hr Hr1).
Defined.

(** ** Further properties of the guard and of the session *)

(** X1.  The guard of [baking_auth.c] changes nothing; it passes exactly when the
    key is the authorized one, the payload parses as a block or an
    endorsement, and the level is authorized, and throws the security error
    otherwise.  The key is the authorized one exactly when the path is not
    NULL, its length is not zero and is the recorded one, the curve is the
    recorded one and the components are the recorded ones. *)
Theorem guard_baking_authorized_outcome
    (get_magic_byte : list byte -> BakingAuth.magic_byte_t)
    (c : cx_curve_t) (data : list byte) (path : option (list Z)) (n : Z)
    (w : BakingAuth.nvram_world) :
  let nv := BakingAuth.N_data w in
  BakingAuth.guard_baking_authorized get_magic_byte c data path n w =
  (if BakingAuth.is_path_authorized nv c path n then
     match BakingAuth.parse_baking_data get_magic_byte data with
     | Some d =>
         if BakingAuth.is_level_authorized nv (BakingAuth.level d)
              (BakingAuth.is_endorsement d)
         then Ret tt else Throw EXC_SECURITY
     | None => Throw EXC_SECURITY
     end
   else Throw EXC_SECURITY, w) /\
  (BakingAuth.is_path_authorized nv c path n = true <->
   exists p, path = Some p /\ n <> 0 /\ n = BakingAuth.path_length nv /\
     c = BakingAuth.curve nv /\
     take (Z.to_nat n) p = take (Z.to_nat n) (BakingAuth.bip32_path nv)).
Proof.
  intros nv. split.
  - unfold BakingAuth.guard_baking_authorized. rewrite bind_gets. fold nv.
    destruct (BakingAuth.is_path_authorized nv c path n); [|done].
    destruct (BakingAuth.parse_baking_data get_magic_byte data) as [d|];
      [|done].
    by destruct (BakingAuth.is_level_authorized _ _ _).
  - unfold BakingAuth.is_path_authorized, memcmp_words_eq.
    destruct path as [p|].
    + rewrite !andb_true_iff, negb_true_iff, Z.eqb_neq, Z.eqb_eq,
        !bool_decide_eq_true.
      split.
      * intros [[[H1 H2] H3] H4]. by exists p.
      * intros (p' & [= <-] & H1 & H2 & H3 & H4). done.
    + split; [done|]. by intros (p & Hp & _).
Qed.

(** X2.  The scenario of the specification: with level 100 recorded and no
    endorsement seen, a block at level 100 is refused and an endorsement
    accepted; once that endorsement is recorded a second one is refused;
    level 101 is accepted for either kind and recording it sets the flag
    to the kind recorded. *)
Theorem high_water_mark_scenario :
  let nv := Sample.nv100 false in
  let nv1 :=
    BakingAuth.N_data
      (snd (BakingAuth.write_highest_level 100 true (Sample.nvw nv))) in
  let nv2 :=
    BakingAuth.N_data
      (snd (BakingAuth.write_highest_level 101 false (Sample.nvw nv1))) in
  BakingAuth.is_level_authorized nv 100 false = false /\
  BakingAuth.is_level_authorized nv 100 true = true /\
  BakingAuth.highest_level nv1 = 100 /\
  BakingAuth.had_endorsement nv1 = true /\
  BakingAuth.is_level_authorized nv1 100 true = false /\
  BakingAuth.is_level_authorized nv1 101 false = true /\
  BakingAuth.is_level_authorized nv1 101 true = true /\
  BakingAuth.highest_level nv2 = 101 /\
  BakingAuth.had_endorsement nv2 = false.
Proof. cbv zeta. repeat (split; [reflexivity|]). reflexivity. Qed.

(** X3.  The leading byte a session accepts: a block, an endorsement or an unsafe
    operation in the baking build, an unsafe operation alone in the wallet
    build; any other is refused with the parse error. *)
Theorem magic_byte_accept_list `{P : ApduSign.Platform} (BAKING_APP : bool)
    (buff : list byte) (w : ApduSign.world) :
  let magic := ApduSign.get_magic_byte buff in
  let accepted :=
    match magic with
    | BakingAuth.MAGIC_BYTE_BLOCK | BakingAuth.MAGIC_BYTE_BAKING_OP =>
        BAKING_APP
    | BakingAuth.MAGIC_BYTE_UNSAFE_OP => true
    | _ => false
    end in
  ApduSign.get_magic_byte_or_throw BAKING_APP buff w =
  (if accepted then Ret magic else Throw EXC_PARSE_ERROR, w).
Proof.
  intros magic accepted. unfold ApduSign.get_magic_byte_or_throw.
  subst accepted. fold magic. by destruct magic, BAKING_APP.
Qed.

(** X4.  A FIRST packet whose path and curve are read without error discards
    the session in flight: the session is the all-zero one but for the key,
    and the non-volatile record and the responses sent are untouched.  The
    handler returns what [finalize_successful_send] at offset 0 returns on
    that state.  With the success status written as [perform_signature] of
    [main.c] writes it, the response is the bare status: the bytes 0x90 and
    0x00 stand at the start of the APDU buffer, over the first two bytes of
    the packet, and the length returned is 2. *)
Theorem first_packet_resets_session `{P : ApduSign.Platform}
    (BAKING_APP : bool) (ins : ApduSign.instruction_t) (a : list byte)
    (w : ApduSign.world) (path : ApduSign.bip32_path_t) (dt : cx_curve_t) :
  Session.kind a = ApduSign.P1_FIRST ->
  Session.buff_size a <= ApduSign.MAX_APDU_SIZE ->
  ApduSign.read_bip32_path (Session.buff a) = Ret path ->
  ApduSign.parse_derivation_type (ApduSign.load8 a ApduSign.OFFSET_CURVE)
  = Ret dt ->
  let r := Session.deliver BAKING_APP ins a w in
  fst r = Ret 2 /\
  ApduSign.G (snd r)
  = ApduSign.with_key
      {| ApduSign.bip32_path := path; ApduSign.derivation_type := dt |}
      ApduSign.zero_globals /\
  ApduSign.packet_index (ApduSign.G (snd r)) = 0 /\
  ApduSign.nvram (snd r) = ApduSign.nvram w /\
  ApduSign.G_io_apdu_buffer (snd r) = [0x90; 0x00] ++ drop 2 a /\
  ApduSign.sent (snd r) = ApduSign.sent w /\
  r = ApduSign.finalize_successful_send 0
        (ApduSign.with_G
           (ApduSign.with_key
              {| ApduSign.bip32_path := path; ApduSign.derivation_type := dt |}
              ApduSign.zero_globals)
           (ApduSign.with_G_io_apdu_buffer a w)).
Proof.
  intros Hk Hlc Hpath Hdt.
  unfold Session.deliver. rewrite bind_modify.
  unfold ApduSign.handle_apdu. cbv zeta. rewrite bind_gets.
  change (ApduSign.G_io_apdu_buffer (ApduSign.with_G_io_apdu_buffer a w)) with a.
  fold (Session.buff_size a). fold (Session.kind a). fold (Session.buff a).
  destruct (Z.gtb_spec (Session.buff_size a) ApduSign.MAX_APDU_SIZE); [lia|].
  rewrite Hk. change (ApduSign.P1_FIRST =? ApduSign.P1_FIRST) with true.
  cbv iota. unfold ApduSign.clear_data. rewrite bind_modify, Hpath.
  rewrite bind_modify, Hdt, bind_modify.
  unfold ApduSign.finalize_successful_send. rewrite bind_modify.
  done.
Qed.

Lemma first_packet_resets_session_witness :
  let a := Sample.first_packet in
  let r :=
    Session.deliver (P := Sample.platform) true ApduSign.INS_SIGN a
      Sample.world0 in
  Session.kind a = ApduSign.P1_FIRST /\
  fst r = Ret 2 /\
  ApduSign.packet_index (ApduSign.G (snd r)) = 0.
Proof.
  intros a r. split; [reflexivity|].
  destruct (first_packet_resets_session (P := Sample.platform) true
              ApduSign.INS_SIGN a Sample.world0
              {| ApduSign.path_len := 2;
                 ApduSign.components := Sample.padded_path |}
              CX_CURVE_Ed25519)
    as (Hr & _ & Hidx & _).
  - reflexivity.
  - vm_compute; discriminate.
  - reflexivity.
  - reflexivity.
  - split; [exact Hr|exact Hidx].
Defined.

Lemma sign_and_send_clears `{P : ApduSign.Platform} on_hash send_hash
    (w : ApduSign.world) :
  let r := ApduSign.sign_and_send on_hash send_hash w in
  is_ret (fst r) = true -> ApduSign.G (snd r) = ApduSign.zero_globals.
Proof.
  unfold ApduSign.sign_and_send. cbv zeta. rewrite bind_gets.
  set (data := if on_hash then _ else _).
  match goal with
  | |- context [bind ?m _ w] =>
      assert (Htx : exists tx w1, m w = (Ret tx, w1))
  end.
  { destruct (send_hash && on_hash).
    - rewrite bind_modify. by eexists _, _.
    - by eexists _, _. }
  destruct Htx as (tx & w1 & Htx).
  rewrite (bind_run _ _ _ _ _ Htx).
  unfold ApduSign.sign_with_key.
  destruct (ApduSign.sign _ _ _ data) as [sig|e]; [|done].
  unfold ApduSign.on_nvram, ApduSign.clear_data,
    ApduSign.finalize_successful_send, BakingAuth.emit.
  unfold bind, zoom, modify, ret. simpl. done.
Qed.

(** X5.  A signature that is produced destroys the session: [G] is all zero
    afterwards.  In the wallet build, a session that asked for the hash
    only gets the final hash and the success status as its response, with
    no signature and no change to the non-volatile record. *)
Theorem perform_signature_destroys_session `{P : ApduSign.Platform}
    (BAKING_APP on_hash send_hash : bool) (w : ApduSign.world) :
  let r := ApduSign.perform_signature BAKING_APP on_hash send_hash w in
  (is_ret (fst r) = true -> ApduSign.G (snd r) = ApduSign.zero_globals) /\
  (BAKING_APP = false -> on_hash = true ->
   ApduSign.hash_only (ApduSign.G w) = true ->
   fst r = Ret (ApduSign.SIGN_HASH_SIZE + 2) /\
   ApduSign.nvram (snd r) = ApduSign.nvram w /\
   ApduSign.G_io_apdu_buffer (snd r)
   = memmove_at
       (memmove_at (ApduSign.G_io_apdu_buffer w) 0
          (ApduSign.final_hash (ApduSign.G w)))
       ApduSign.SIGN_HASH_SIZE [0x90; 0x00]).
Proof.
  intros r. subst r. unfold ApduSign.perform_signature. rewrite bind_gets.
  split.
  - destruct BAKING_APP.
    + unfold ApduSign.write_high_water_mark, ApduSign.on_nvram.
      pose proof (write_highest_level_spec
        (BakingAuth.level (ApduSign.parsed_baking_data (ApduSign.G w)))
        (BakingAuth.is_endorsement (ApduSign.parsed_baking_data (ApduSign.G w)))
        (ApduSign.nvram w)) as Hw.
      erewrite (bind_run _ _ w).
      2:{ unfold zoom. rewrite Hw. reflexivity. }
      apply sign_and_send_clears.
    + destruct (on_hash && ApduSign.hash_only (ApduSign.G w)).
      * intros _. reflexivity.
      * apply sign_and_send_clears.
  - intros -> -> ->. cbn [andb]. done.
Qed.

Lemma perform_signature_destroys_session_witness :
  let w :=
    snd (Session.deliver_all (P := Sample.platform) false ApduSign.INS_SIGN
           [Sample.first_packet; Sample.apdu 0x83 0 [3; 1; 2]] Sample.world0) in
  let r := ApduSign.perform_signature (P := Sample.platform) false true false w in
  ApduSign.hash_only (ApduSign.G w) = true /\
  fst r = Ret 34 /\
  ApduSign.G (snd r) = ApduSign.zero_globals (P := Sample.platform).
Proof.
  intros w r.
  assert (Hh : ApduSign.hash_only (ApduSign.G w) = true) by reflexivity.
  destruct (perform_signature_destroys_session (P := Sample.platform)
              false true false w) as [Hclear Honly].
  destruct (Honly eq_refl eq_refl Hh) as (Hr & _).
  split; [exact Hh|]. split; [exact Hr|].
  apply Hclear. rewrite Hr. reflexivity.
Defined.

(** X6.  Only the packet counted first is parsed: on any other packet the baking
    build throws the parse error and changes nothing, and the wallet build
    marks the parse result invalid and changes nothing else. *)
Theorem later_packet_not_parsed `{P : ApduSign.Platform} (BAKING_APP : bool)
    (buff : list byte) (w : ApduSign.world) :
  ApduSign.packet_index (ApduSign.G w) <> 1 ->
  ApduSign.parse_packet BAKING_APP buff w =
  if BAKING_APP then (Throw EXC_PARSE_ERROR, w)
  else
    (Ret tt,
     ApduSign.with_G
       (ApduSign.with_maybe_ops
          {| ApduSign.is_valid := false;
             ApduSign.v := ApduSign.v (ApduSign.maybe_ops (ApduSign.G w)) |}
          (ApduSign.G w)) w).
Proof.
  intros Hidx. unfold ApduSign.parse_packet. rewrite bind_gets.
  destruct (Z.eqb_spec (ApduSign.packet_index (ApduSign.G w)) 1); [done|].
  by destruct BAKING_APP.
Qed.

Lemma later_packet_not_parsed_witness :
  let w :=
    snd (Session.deliver_all (P := Sample.platform) false ApduSign.INS_SIGN
           [Sample.first_packet; Sample.apdu 0x01 0 [3; 1; 2]] Sample.world0) in
  let w2 := ApduSign.with_G (ApduSign.with_packet_index 2 (ApduSign.G w)) w in
  ApduSign.packet_index (ApduSign.G w2) <> 1 /\
  fst (ApduSign.parse_packet (P := Sample.platform) true [4; 5; 6] w2)
  = Throw EXC_PARSE_ERROR.
Proof.
  intros w w2.
  assert (Hidx : ApduSign.packet_index (ApduSign.G w2) <> 1) by discriminate.
  split; [exact Hidx|].
  by rewrite (later_packet_not_parsed (P := Sample.platform) true [4; 5; 6]
                w2 Hidx).
Defined.

(** * Further properties *)

(** ** The record across the guard and the update *)

(** ** The guard and the mark, composed *)

Lemma update_high_water_mark_spec get_magic_byte (data : list byte)
    (w : BakingAuth.nvram_world) :
  BakingAuth.update_high_water_mark get_magic_byte data w =
  (Ret tt,
   match BakingAuth.parse_baking_data get_magic_byte data with
   | Some d =>
       snd (BakingAuth.write_highest_level (BakingAuth.level d)
              (BakingAuth.is_endorsement d) w)
   | None => w
   end).
Proof.
  unfold BakingAuth.update_high_water_mark.
  destruct (BakingAuth.parse_baking_data get_magic_byte data) as [d|]; [|done].
  by rewrite write_highest_level_spec.
Qed.

(** The level test on the record that [write_highest_level] leaves. *)
Lemma is_level_authorized_after_write (lvl lvl' : level_t) (e e' : bool)
    (w : BakingAuth.nvram_world) :
  BakingAuth.is_valid_level lvl = true ->
  BakingAuth.is_level_authorized
    (BakingAuth.N_data (snd (BakingAuth.write_highest_level lvl e w))) lvl' e'
  = BakingAuth.is_valid_level lvl' && ((lvl' >? lvl) || (e' && negb e)).
Proof.
  intros Hv. rewrite write_highest_level_spec, Hv. cbn [snd].
  unfold BakingAuth.is_level_authorized. cbn.
  destruct (BakingAuth.is_valid_level lvl'); [|done]. cbn.
  by destruct (lvl' >? lvl).
Qed.

(** X7.  Once [update_high_water_mark] has run on a payload, the guard
    refuses that payload for every key.  When the payload was a block or an
    endorsement at a valid level, the guard also refuses every payload at
    that level or below that is a block, or that is an endorsement while the
    recorded payload was one. *)
Theorem signed_payload_is_refused_again
    (get_magic_byte : list byte -> BakingAuth.magic_byte_t)
    (data : list byte) (w : BakingAuth.nvram_world) :
  let w' := snd (BakingAuth.update_high_water_mark get_magic_byte data w) in
  (forall c path n,
     BakingAuth.guard_baking_authorized get_magic_byte c data path n w'
     = (Throw EXC_SECURITY, w')) /\
  (forall d data2 d2 c path n,
     BakingAuth.parse_baking_data get_magic_byte data = Some d ->
     BakingAuth.is_valid_level (BakingAuth.level d) = true ->
     BakingAuth.parse_baking_data get_magic_byte data2 = Some d2 ->
     BakingAuth.level d2 <= BakingAuth.level d ->
     BakingAuth.is_endorsement d2 = false \/ BakingAuth.is_endorsement d = true ->
     BakingAuth.guard_baking_authorized get_magic_byte c data2 path n w'
     = (Throw EXC_SECURITY, w')).
Proof.
  intros w'. subst w'. rewrite update_high_water_mark_spec. cbn [snd].
  split.
  - intros c path n. unfold BakingAuth.guard_baking_authorized.
    rewrite bind_gets.
    destruct (BakingAuth.is_path_authorized _ c path n); [|done]. cbn [negb].
    destruct (BakingAuth.parse_baking_data get_magic_byte data) as [d|] eqn:Hd;
      [|done].
    destruct (BakingAuth.is_valid_level (BakingAuth.level d)) eqn:Hv.
    + rewrite is_level_authorized_after_write by done. rewrite Hv.
      destruct (Z.gtb_spec (BakingAuth.level d) (BakingAuth.level d)); [lia|].
      by destruct (BakingAuth.is_endorsement d).
    + unfold BakingAuth.is_level_authorized. by rewrite Hv.
  - intros d data2 d2 c path n Hd Hv Hd2 Hle Hkind.
    rewrite Hd. unfold BakingAuth.guard_baking_authorized.
    rewrite bind_gets.
    destruct (BakingAuth.is_path_authorized _ c path n); [|done]. cbn [negb].
    rewrite Hd2, is_level_authorized_after_write by done.
    destruct (Z.gtb_spec (BakingAuth.level d2) (BakingAuth.level d)); [lia|].
    destruct Hkind as [-> | ->]; cbn; by rewrite ?andb_false_r.
Qed.

Lemma signed_payload_is_refused_again_witness :
  let data := Sample.block_at 200 in
  let w := Sample.nvw (Sample.nv100 false) in
  let w' :=
    snd (BakingAuth.update_high_water_mark Sample.get_magic_byte data w) in
  fst (BakingAuth.guard_baking_authorized Sample.get_magic_byte
         CX_CURVE_Ed25519 data (Some Sample.path) 2 w) = Ret tt /\
  BakingAuth.guard_baking_authorized Sample.get_magic_byte
    CX_CURVE_Ed25519 (Sample.block_at 150) (Some Sample.path) 2 w'
  = (Throw EXC_SECURITY, w').
Proof.
  intros data w w'. split; [reflexivity|].
  destruct (signed_payload_is_refused_again Sample.get_magic_byte data w)
    as [_ H].
  apply (H {| BakingAuth.is_endorsement := false; BakingAuth.level := 200 |}
           (Sample.block_at 150)
           {| BakingAuth.is_endorsement := false; BakingAuth.level := 150 |}).
  - reflexivity.
  - reflexivity.
  - reflexivity.
  - simpl. lia.
  - left. reflexivity.
Defined.

(** X8.  [authorize_baking] with a path of 1 to [MAX_BIP32_PATH] components
    returns, keeps the recorded level, and makes [is_path_authorized] accept
    exactly the curve, the length and the first [n] components it was given. *)
Theorem authorize_baking_round_trip (MAX_BIP32_PATH : Z)
    (uninit : BakingAuth.nvram_data) (c : cx_curve_t) (p : list Z) (n : Z)
    (w : BakingAuth.nvram_world) :
  0 < n <= MAX_BIP32_PATH ->
  n <= Z.of_nat (length p) ->
  let r := BakingAuth.authorize_baking MAX_BIP32_PATH uninit c (Some p) n w in
  let nv' := BakingAuth.N_data (snd r) in
  fst r = Ret tt /\
  BakingAuth.highest_level nv' = BakingAuth.highest_level (BakingAuth.N_data w) /\
  BakingAuth.is_path_authorized nv' c (Some p) n = true /\
  (forall c' p' n',
     BakingAuth.is_path_authorized nv' c' p' n' = true <->
     exists q, p' = Some q /\ n' = n /\ c' = c /\
       take (Z.to_nat n) q = take (Z.to_nat n) p).
Proof.
  intros Hn Hlen r nv'. subst nv' r.
  rewrite authorize_baking_writes by done. cbn [fst snd BakingAuth.N_data].
  assert (Htake :
    take (Z.to_nat n) (memcpy_words (BakingAuth.bip32_path uninit) p n)
    = take (Z.to_nat n) p).
  { unfold memcpy_words. rewrite take_app_le by (rewrite length_take; lia).
    rewrite take_take. f_equal. lia. }
  assert (Hiff : forall c' p' n',
     BakingAuth.is_path_authorized
       {| BakingAuth.curve := c;
          BakingAuth.path_length := n;
          BakingAuth.bip32_path :=
            memcpy_words (BakingAuth.bip32_path uninit) p n;
          BakingAuth.highest_level :=
            BakingAuth.highest_level (BakingAuth.N_data w);
          BakingAuth.had_endorsement := BakingAuth.had_endorsement uninit |}
       c' p' n' = true <->
     exists q, p' = Some q /\ n' = n /\ c' = c /\
       take (Z.to_nat n) q = take (Z.to_nat n) p).
  { intros c' p' n'. unfold BakingAuth.is_path_authorized, memcmp_words_eq.
    cbn [BakingAuth.path_length BakingAuth.curve BakingAuth.bip32_path].
    destruct p' as [q|].
    - rewrite !andb_true_iff, negb_true_iff, Z.eqb_neq, Z.eqb_eq,
        !bool_decide_eq_true.
      split.
      + intros [[[H1 H2] H3] H4]. subst n' c'. rewrite Htake in H4.
        by exists q.
      + intros (q' & [= <-] & -> & -> & Hq). rewrite Htake.
        repeat split; [lia|done].
    - split; [done|]. by intros (q & Hq & _). }
  split; [done|]. split; [done|]. split; [|exact Hiff].
  apply Hiff. by exists p.
Qed.

Lemma authorize_baking_round_trip_witness :
  let r :=
    BakingAuth.authorize_baking Sample.MAX_BIP32_PATH Sample.zero_nvram_data
      CX_CURVE_SECP256K1 (Some [0x8000002C; 0x800006C1; 0x80000000]) 3
      (Sample.nvw (Sample.nv100 true)) in
  let nv' := BakingAuth.N_data (snd r) in
  BakingAuth.is_path_authorized nv' CX_CURVE_SECP256K1
    (Some [0x8000002C; 0x800006C1; 0x80000000]) 3 = true /\
  BakingAuth.is_path_authorized nv' CX_CURVE_Ed25519 (Some Sample.path) 2 = false /\
  BakingAuth.highest_level nv' = 100.
Proof.
  intros r nv'.
  destruct (authorize_baking_round_trip Sample.MAX_BIP32_PATH
              Sample.zero_nvram_data CX_CURVE_SECP256K1
              [0x8000002C; 0x800006C1; 0x80000000] 3
              (Sample.nvw (Sample.nv100 true)))
    as (_ & Hlvl & Hsame & _).
  - vm_compute. split; [reflexivity|discriminate].
  - vm_compute. discriminate.
  - split; [exact Hsame|]. split; [reflexivity|exact Hlvl].
Defined.

(** X9.  A payload that the guard lets through parses as a block or an
    endorsement; [update_high_water_mark] then records its level and kind
    and keeps the authorized key, with one write of the record and one
    refresh of the idle display, the key stays authorized, and the recorded
    level rises strictly for a block, and for an endorsement when the record
    already had one. *)
Theorem guarded_payload_moves_mark
    (get_magic_byte : list byte -> BakingAuth.magic_byte_t)
    (c : cx_curve_t) (data : list byte) (path : option (list Z)) (n : Z)
    (w : BakingAuth.nvram_world) :
  fst (BakingAuth.guard_baking_authorized get_magic_byte c data path n w)
  = Ret tt ->
  let nv := BakingAuth.N_data w in
  let w' := snd (BakingAuth.update_high_water_mark get_magic_byte data w) in
  let nv' := BakingAuth.N_data w' in
  exists d,
    BakingAuth.parse_baking_data get_magic_byte data = Some d /\
    nv' = {| BakingAuth.curve := BakingAuth.curve nv;
             BakingAuth.path_length := BakingAuth.path_length nv;
             BakingAuth.bip32_path := BakingAuth.bip32_path nv;
             BakingAuth.highest_level := BakingAuth.level d;
             BakingAuth.had_endorsement := BakingAuth.is_endorsement d |} /\
    BakingAuth.trace w' =
      BakingAuth.trace w
      ++ [BakingAuth.EvNvmWrite nv'; BakingAuth.EvIdleDisplay (BakingAuth.level d)] /\
    BakingAuth.is_valid_level (BakingAuth.highest_level nv') = true /\
    BakingAuth.is_path_authorized nv' c path n = true /\
    (BakingAuth.is_endorsement d = false \/ BakingAuth.had_endorsement nv = true ->
     BakingAuth.highest_level nv < BakingAuth.highest_level nv').
Proof.
  intros Hguard nv w' nv'.
  unfold BakingAuth.guard_baking_authorized in Hguard.
  rewrite bind_gets in Hguard. fold nv in Hguard.
  destruct (BakingAuth.is_path_authorized nv c path n) eqn:Hpath; [|done].
  cbn [negb] in Hguard.
  destruct (BakingAuth.parse_baking_data get_magic_byte data) as [d|] eqn:Hd;
    [|done].
  destruct (BakingAuth.is_level_authorized nv (BakingAuth.level d)
              (BakingAuth.is_endorsement d)) eqn:Hlvl; [|done].
  assert (Hv : BakingAuth.is_valid_level (BakingAuth.level d) = true).
  { unfold BakingAuth.is_level_authorized in Hlvl.
    by destruct (BakingAuth.is_valid_level (BakingAuth.level d)). }
  exists d. split; [done|].
  subst nv' w'. rewrite update_high_water_mark_spec, Hd.
  rewrite write_highest_level_spec, Hv. cbn [snd BakingAuth.N_data BakingAuth.trace
    BakingAuth.highest_level].
  split; [done|]. split; [done|]. split; [done|]. split; [exact Hpath|].
  intros Hkind. unfold BakingAuth.is_level_authorized in Hlvl.
  rewrite Hv in Hlvl. cbn [negb] in Hlvl. fold nv.
  destruct (Z.gtb_spec (BakingAuth.level d) (BakingAuth.highest_level nv));
    [lia|].
  destruct Hkind as [Hk|Hk]; rewrite Hk in Hlvl; cbn in Hlvl;
    [done|by rewrite andb_false_r in Hlvl].
Qed.

Lemma guarded_payload_moves_mark_witness :
  let w := Sample.nvw (Sample.nv100 false) in
  let w' :=
    snd (BakingAuth.update_high_water_mark Sample.get_magic_byte
           (Sample.block_at 200) w) in
  fst (BakingAuth.guard_baking_authorized Sample.get_magic_byte
         CX_CURVE_Ed25519 (Sample.block_at 200) (Some Sample.path) 2 w)
  = Ret tt /\
  BakingAuth.highest_level (BakingAuth.N_data w) = 100 /\
  BakingAuth.highest_level (BakingAuth.N_data w') = 200.
Proof.
  intros w w'.
  assert (Hg : fst (BakingAuth.guard_baking_authorized Sample.get_magic_byte
         CX_CURVE_Ed25519 (Sample.block_at 200) (Some Sample.path) 2 w)
  = Ret tt) by reflexivity.
  split; [exact Hg|]. split; [reflexivity|].
  destruct (guarded_payload_moves_mark Sample.get_magic_byte CX_CURVE_Ed25519
              (Sample.block_at 200) (Some Sample.path) 2 w Hg)
    as (d & Hd & Hnv & _).
  injection Hd as <-. subst w'. rewrite Hnv. reflexivity.
Defined.

(** ** What the wallet handler returns and leaves alone *)

(** ** What a computation can return *)

Section returns_facts.

Context {W : Type}.

Lemma returns_only_ret {A} (Q : A -> Prop) (a : A) :
  Q a -> returns_only (W := W) Q (ret a).
Proof. intros H w a' w' [= <- _]. exact H. Qed.

Lemma returns_only_throw {A} (Q : A -> Prop) e :
  returns_only (W := W) Q (throw e).
Proof. by intros w a w'. Qed.

Lemma returns_only_bind {A B} (Q : B -> Prop) (m : M W A) (k : A -> M W B) :
  (forall a, returns_only Q (k a)) -> returns_only Q (bind m k).
Proof.
  intros Hk w b w' Hrun.
  apply bind_inv_ret in Hrun as (a & w1 & _ & Hrun). by eapply Hk.
Qed.

Lemma returns_with_throw {A} (Q : A -> W -> Prop) e :
  returns_with Q (throw e).
Proof. by intros w a w'. Qed.

Lemma returns_with_bind {A B} (Q : B -> W -> Prop) (m : M W A)
    (k : A -> M W B) :
  (forall a, returns_with Q (k a)) -> returns_with Q (bind m k).
Proof.
  intros Hk w b w' Hrun.
  apply bind_inv_ret in Hrun as (a & w1 & _ & Hrun). by eapply Hk.
Qed.

Lemma returns_with_never {A} (Q : A -> W -> Prop) (m : M W A) :
  returns_only (fun _ => False) m -> returns_with Q m.
Proof. intros Hm w a w' Hrun. destruct (Hm _ _ _ Hrun). Qed.

End returns_facts.

Ltac returns_step :=
  lazymatch goal with
  | |- returns_only _ (bind _ _) => apply returns_only_bind; intros ?
  | |- returns_only _ (throw _) => apply returns_only_throw
  | |- returns_only _ ApduSign.PARSE_ERROR => apply returns_only_throw
  | |- returns_only _ (if ?b then _ else _) => destruct b
  | |- returns_only _ (match ?x with _ => _ end) => destruct x
  | |- returns_only _ (let (_, _) := ?x in _) => destruct x
  end.

(** ** Frames of the session *)

Section session_frames.

Context `{P : ApduSign.Platform}.

Lemma on_message_data_frame {A} (I : ApduSign.world -> Prop)
    (m : M ApduSign.hash_args A) :
  (forall w a, I w -> I (Session.put_args a w)) ->
  preserves I (ApduSign.on_message_data m).
Proof. intros H w Hw. rewrite on_message_data_run. by apply H. Qed.

Lemma on_nvram_frame {A} (I : ApduSign.world -> Prop)
    (m : M BakingAuth.nvram_world A) :
  (forall w n, I w -> I (ApduSign.with_nvram n w)) ->
  preserves I (ApduSign.on_nvram m).
Proof.
  intros H w Hw. unfold ApduSign.on_nvram, zoom.
  destruct (m (ApduSign.nvram w)). by apply H.
Qed.

End session_frames.

(** A step of a frame proof: the sequencing and the branches, and the
    hasher and the record, which act on their own part of the world. *)
Ltac frame_step :=
  first
    [ preserves_step
    | apply get_magic_byte_or_throw_preserves
    | apply on_message_data_frame; intros ? ?
    | apply on_nvram_frame; intros ? ? ].

Ltac unfold_session :=
  unfold ApduSign.accumulate, ApduSign.finish_message_data,
    ApduSign.hash_message_data, ApduSign.append_message_data,
    ApduSign.parse_packet, ApduSign.wallet_sign_complete,
    ApduSign.prompt_transaction, ApduSign.ui_prompt,
    ApduSign.register_ui_callback, ApduSign.REGISTER_STATIC_UI_VALUE,
    ApduSign.finalize_successful_send, ApduSign.clear_data,
    ApduSign.delayed_send, ApduSign.delay_reject.

Section wallet_never_signs.

Context `{P : ApduSign.Platform}.

Lemma wallet_handle_apdu_untouched ins nv s :
  preserves (untouched nv s) (ApduSign.handle_apdu false ins).
Proof.
  unfold ApduSign.handle_apdu. unfold_session.
  cbn [negb andb orb]. cbv beta iota zeta.
  repeat frame_step; by intros.
Qed.

Lemma wallet_sign_complete_throws ins :
  returns_only (fun _ : Z => False) (ApduSign.wallet_sign_complete ins).
Proof.
  unfold ApduSign.wallet_sign_complete, ApduSign.ui_prompt. cbv zeta.
  repeat returns_step.
Qed.

(** Where the wallet handler returns, it has come through
    [finalize_successful_send] at offset 0. *)
Lemma wallet_handle_apdu_returns ins :
  returns_with
    (fun tx w =>
       (exists w0, ApduSign.finalize_successful_send 0 w0 = (Ret tx, w)) /\
       tx = 2 /\ take 2 (ApduSign.G_io_apdu_buffer w) = [0x90; 0x00])
    (ApduSign.handle_apdu false ins).
Proof.
  unfold ApduSign.handle_apdu. cbv beta iota zeta.
  repeat first
    [ lazymatch goal with
      | |- returns_with _ (bind _ _) => apply returns_with_bind; intros ?
      | |- returns_with _ (throw _) => apply returns_with_throw
      | |- returns_with _ ApduSign.PARSE_ERROR => apply returns_with_throw
      | |- returns_with _ (ApduSign.wallet_sign_complete _) =>
          apply returns_with_never, wallet_sign_complete_throws
      | |- returns_with _ (ApduSign.finalize_successful_send _) =>
          intros w z w' Hrun; split; [by exists w|];
          by injection Hrun as <- <-
      | |- returns_with _ (if ?b then _ else _) => destruct b
      | |- returns_with _ (match ?x with _ => _ end) => destruct x
      | |- returns_with _ (let (_, _) := ?x in _) => destruct x
      end ].
Qed.

End wallet_never_signs.

(** ** The prompts of the wallet *)

Section wallet_prompts.

Context `{P : ApduSign.Platform}.

Lemma shows_ui_prompt {A} labels ok cxl (L : list string -> Prop) :
  L labels -> shows (A := A) ok cxl L (ApduSign.ui_prompt labels ok cxl).
Proof. intros HL w. split; [done|]. by eexists. Qed.

Lemma shows_register_ui_callback {A} i f ok cxl L (k : M ApduSign.world A) :
  shows ok cxl L k -> shows ok cxl L (ApduSign.register_ui_callback i f ;; k).
Proof. intros Hk w. exact (Hk _). Qed.

Lemma shows_REGISTER_STATIC_UI_VALUE {A} i t ok cxl L (k : M ApduSign.world A) :
  shows ok cxl L k -> shows ok cxl L (ApduSign.REGISTER_STATIC_UI_VALUE i t ;; k).
Proof. intros Hk w. exact (Hk _). Qed.

Lemma shows_modify {A} f ok cxl L (k : M ApduSign.world A) :
  shows ok cxl L k -> shows ok cxl L (modify f ;; k).
Proof. intros Hk w. exact (Hk _). Qed.

Ltac shows_step :=
  lazymatch goal with
  | |- shows _ _ _ (ApduSign.ui_prompt (if ?b then _ else _) _ _) => destruct b
  | |- shows _ _ _ (ApduSign.ui_prompt _ _ _) =>
      apply shows_ui_prompt; try discriminate
  | |- shows _ _ _ (bind (ApduSign.register_ui_callback _ _) _) =>
      apply shows_register_ui_callback
  | |- shows _ _ _ (bind (ApduSign.REGISTER_STATIC_UI_VALUE _ _) _) =>
      apply shows_REGISTER_STATIC_UI_VALUE
  | |- shows _ _ _ (bind (modify _) _) => apply shows_modify
  | |- shows _ _ _ (if ?b then _ else _) => destruct b
  end.

Lemma prompt_transaction_untouched ops ok cxl nv s g :
  preserves (fun w => untouched nv s w /\ ApduSign.G w = g)
    (ApduSign.prompt_transaction ops ok cxl).
Proof.
  unfold ApduSign.prompt_transaction. unfold_session.
  repeat frame_step; by intros.
Qed.

Lemma prompt_transaction_spec (ops : ApduSign.parsed_operation_group)
    (ok cxl : ApduSign.ui_callback_t) (w : ApduSign.world) :
  let op := ApduSign.operation ops in
  let r := ApduSign.prompt_transaction ops ok cxl w in
  match ApduSign.tag op with
  | ApduSign.OPERATION_TAG_NONE
  | ApduSign.OPERATION_TAG_PROPOSAL
  | ApduSign.OPERATION_TAG_BALLOT
  | ApduSign.OPERATION_TAG_ATHENS_TRANSACTION
  | ApduSign.OPERATION_TAG_BABYLON_TRANSACTION
  | ApduSign.OPERATION_TAG_ATHENS_DELEGATION
  | ApduSign.OPERATION_TAG_BABYLON_DELEGATION =>
      prompted ok cxl (fun l => l <> hash_labels) r
  | ApduSign.OPERATION_TAG_ATHENS_ORIGINATION
  | ApduSign.OPERATION_TAG_BABYLON_ORIGINATION =>
      if Z.land (ApduSign.flags op) ApduSign.ORIGINATION_FLAG_SPENDABLE =? 0
      then fst r = Ret false /\ ApduSign.ui (snd r) = ApduSign.ui w
      else prompted ok cxl (fun l => l <> hash_labels) r
  | ApduSign.OPERATION_TAG_ATHENS_REVEAL
  | ApduSign.OPERATION_TAG_BABYLON_REVEAL
  | ApduSign.OPERATION_TAG_other _ => r = (Throw EXC_PARSE_ERROR, w)
  end.
Proof.
  intros op r. subst r. unfold ApduSign.prompt_transaction. fold op.
  unfold hash_labels. cbv zeta.
  destruct (ApduSign.tag op); try reflexivity.
  all: lazymatch goal with
       | |- prompted ?ok ?cxl ?L (?m ?w) =>
           revert w; change (shows ok cxl L m); repeat shows_step
       | |- _ => idtac
       end.
  all: destruct (Z.land _ _ =? 0) eqn:Hs; [split; reflexivity|].
  all: lazymatch goal with
       | |- prompted ?ok ?cxl ?L (?m ?w) =>
           revert w; change (shows ok cxl L m); repeat shows_step
       end.
Qed.

Lemma prompted_bind_throw {A B} ok cxl L (m : M ApduSign.world A)
    (k : A -> M ApduSign.world B) (w : ApduSign.world) :
  prompted ok cxl L (m w) -> prompted ok cxl L (bind m k w).
Proof.
  intros [Hr Hp]. unfold bind.
  destruct (m w) as [[a|e] w1]; cbn [fst snd] in *; [done|].
  injection Hr as ->. split; [reflexivity|exact Hp].
Qed.

Lemma wallet_sign_complete_spec (ins : ApduSign.instruction_t)
    (w : ApduSign.world) :
  let g := ApduSign.G w in
  let op := ApduSign.operation (ApduSign.v (ApduSign.maybe_ops g)) in
  let r := ApduSign.wallet_sign_complete ins w in
  let shown := prompted (ok_callback ins) ApduSign.sign_reject in
  if bool_decide (ins = ApduSign.INS_SIGN_UNSAFE)
  then shown (eq ["Pre-hashed"; "Sign Hash"]%string) r
  else
    match ApduSign.magic_byte g with
    | BakingAuth.MAGIC_BYTE_UNSAFE_OP2
    | BakingAuth.MAGIC_BYTE_UNSAFE_OP3 => shown (eq hash_labels) r
    | BakingAuth.MAGIC_BYTE_UNSAFE_OP =>
        if negb (ApduSign.is_valid (ApduSign.maybe_ops g))
        then shown (eq hash_labels) r
        else
          match ApduSign.tag op with
          | ApduSign.OPERATION_TAG_NONE
          | ApduSign.OPERATION_TAG_PROPOSAL
          | ApduSign.OPERATION_TAG_BALLOT
          | ApduSign.OPERATION_TAG_ATHENS_TRANSACTION
          | ApduSign.OPERATION_TAG_BABYLON_TRANSACTION
          | ApduSign.OPERATION_TAG_ATHENS_DELEGATION
          | ApduSign.OPERATION_TAG_BABYLON_DELEGATION =>
              shown (fun l => l <> hash_labels) r
          | ApduSign.OPERATION_TAG_ATHENS_ORIGINATION
          | ApduSign.OPERATION_TAG_BABYLON_ORIGINATION =>
              if Z.land (ApduSign.flags op) ApduSign.ORIGINATION_FLAG_SPENDABLE
                 =? 0
              then shown (eq hash_labels) r
              else shown (fun l => l <> hash_labels) r
          | ApduSign.OPERATION_TAG_ATHENS_REVEAL
          | ApduSign.OPERATION_TAG_BABYLON_REVEAL
          | ApduSign.OPERATION_TAG_other _ => fst r = Throw EXC_PARSE_ERROR
          end
    | _ => fst r = Throw EXC_PARSE_ERROR
    end.
Proof.
  intros g op r shown.
  assert (Hok : (if bool_decide (ins = ApduSign.INS_SIGN_WITH_HASH)
                 then ApduSign.sign_with_hash_ok
                 else ApduSign.sign_without_hash_ok) = ok_callback ins
                \/ ins = ApduSign.INS_SIGN_UNSAFE).
  { destruct ins; (by left) || (by right). }
  destruct (bool_decide (ins = ApduSign.INS_SIGN_UNSAFE)) eqn:Hins.
  { apply bool_decide_eq_true in Hins as ->. subst r shown.
    unfold ApduSign.wallet_sign_complete. cbv zeta.
    rewrite bool_decide_eq_true_2 by done. cbn [ok_callback].
    clear g op. revert w.
    lazymatch goal with
    | |- forall w, prompted ?ok ?cxl ?L (?m w) => change (shows ok cxl L m)
    end.
    repeat shows_step. done. }
  destruct Hok as [Hok|Hok]; [|by rewrite Hok in Hins].
  assert (Hr : r =
    bind (gets ApduSign.G)
      (fun g =>
         let unsafe :=
           modify (fun w =>
             ApduSign.with_G
               (ApduSign.with_message_data_as_buffer
                  {| ApduSign.bytes := ApduSign.buffer_final_hash;
                     ApduSign.size := ApduSign.SIGN_HASH_SIZE;
                     ApduSign.length_ := ApduSign.SIGN_HASH_SIZE |}
                  (ApduSign.G w)) w) ;;
           ApduSign.register_ui_callback 1 "buffer_to_base58" ;;
           ApduSign.ui_prompt hash_labels (ok_callback ins)
             ApduSign.sign_reject in
         match ApduSign.magic_byte g with
         | BakingAuth.MAGIC_BYTE_UNSAFE_OP =>
             (if negb (ApduSign.is_valid (ApduSign.maybe_ops g)) then ret tt
              else _ <- ApduSign.prompt_transaction
                          (ApduSign.v (ApduSign.maybe_ops g))
                          (ok_callback ins) ApduSign.sign_reject ;;
                   ret tt) ;;
             unsafe
         | BakingAuth.MAGIC_BYTE_UNSAFE_OP2
         | BakingAuth.MAGIC_BYTE_UNSAFE_OP3 => unsafe
         | _ => ApduSign.PARSE_ERROR
         end)
      (ApduSign.with_ui_values
         (ApduSign.ui_values w ++ [(0, ApduSign.ui_static "Operation")]) w)).
  { subst r. unfold ApduSign.wallet_sign_complete. cbv zeta.
    rewrite Hins, Hok. reflexivity. }
  clearbody r. subst r. cbv zeta. rewrite bind_gets.
  set (w0 := ApduSign.with_ui_values _ w).
  change (ApduSign.G w0) with g.
  set (unsafe := bind (modify _) _).
  assert (Hunsafe : shows (ok_callback ins) ApduSign.sign_reject
                      (eq hash_labels) unsafe).
  { subst unsafe. repeat shows_step. done. }
  subst shown.
  destruct (ApduSign.magic_byte g); try reflexivity; try apply Hunsafe.
  destruct (ApduSign.is_valid (ApduSign.maybe_ops g)); cbn [negb];
    [|rewrite bind_ret; apply Hunsafe].
  fold op.
  pose proof (prompt_transaction_spec (ApduSign.v (ApduSign.maybe_ops g))
                (ok_callback ins) ApduSign.sign_reject w0) as Hpt.
  cbv zeta in Hpt. fold op in Hpt.
  destruct (ApduSign.tag op);
    try (by do 2 apply prompted_bind_throw);
    try (by rewrite !bind_assoc, (bind_run_throw _ _ _ _ _ Hpt)).
  all: destruct (Z.land _ _ =? 0);
    [|by do 2 apply prompted_bind_throw].
  all: destruct Hpt as [Hr Hui];
    destruct (ApduSign.prompt_transaction _ _ _ w0) as [r1 w1] eqn:Hrun;
    cbn [fst snd] in *; subst r1.
  all: rewrite bind_assoc, (bind_run _ _ _ _ _ Hrun), bind_ret; apply Hunsafe.
Qed.

Lemma wallet_sign_complete_untouched ins nv s :
  preserves (untouched nv s) (ApduSign.wallet_sign_complete ins).
Proof.
  unfold ApduSign.wallet_sign_complete. cbv zeta. unfold_session.
  repeat frame_step; by intros.
Qed.

End wallet_prompts.

(** ** The response of an accepted confirmation *)

Lemma take_memmove_at (dst src : list byte) (off : Z) :
  0 <= off -> off <= Z.of_nat (length dst) ->
  take (Z.to_nat off + length src) (memmove_at dst off src)
  = take (Z.to_nat off) dst ++ src.
Proof.
  intros Hoff Hfit. unfold memmove_at.
  rewrite app_assoc, take_app_le by (rewrite length_app, length_take; lia).
  apply take_ge. rewrite length_app, length_take. lia.
Qed.

Section signature_response.

Context `{P : ApduSign.Platform}.

Lemma sign_and_send_run on_hash send_hash (w : ApduSign.world) :
  let g := ApduSign.G w in
  let hashed := send_hash && on_hash in
  let tx0 := if hashed then ApduSign.SIGN_HASH_SIZE else 0 in
  let io0 :=
    if hashed
    then memmove_at (ApduSign.G_io_apdu_buffer w) 0 (ApduSign.final_hash g)
    else ApduSign.G_io_apdu_buffer w in
  let data := signed_data on_hash g in
  ApduSign.sign_and_send on_hash send_hash w =
  match ApduSign.sign ApduSign.MAX_SIGNATURE_SIZE
          (ApduSign.derivation_type (ApduSign.key g))
          (ApduSign.bip32_path (ApduSign.key g)) data with
  | Throw e => (Throw e, ApduSign.with_G_io_apdu_buffer io0 w)
  | Ret sig =>
      (Ret (tx0 + Z.of_nat (length sig) + 2),
       {| ApduSign.nvram :=
            {| BakingAuth.N_data := BakingAuth.N_data (ApduSign.nvram w);
               BakingAuth.trace :=
                 BakingAuth.trace (ApduSign.nvram w)
                 ++ [signature_event g data] |};
          ApduSign.G := ApduSign.zero_globals;
          ApduSign.G_io_apdu_buffer :=
            memmove_at (memmove_at io0 tx0 sig)
              (tx0 + Z.of_nat (length sig)) [0x90; 0x00];
          ApduSign.ui_values := ApduSign.ui_values w;
          ApduSign.ui := ApduSign.ui w;
          ApduSign.sent := ApduSign.sent w |})
  end.
Proof.
  intros g hashed tx0 io0 data.
  unfold ApduSign.sign_and_send. cbv zeta. rewrite bind_gets.
  fold g hashed. change (if on_hash then _ else _) with data.
  unfold ApduSign.sign_with_key.
  subst tx0 io0. destruct w as [nv g0 io uv u s]. cbn in g. subst g.
  destruct hashed.
  - rewrite bind_assoc, bind_modify, bind_ret.
    destruct (ApduSign.sign _ _ _ data) as [sig|e]; reflexivity.
  - rewrite bind_ret.
    destruct (ApduSign.sign _ _ _ data) as [sig|e]; reflexivity.
Qed.

(** When [perform_signature] returns, the session is the all-zero one. *)
Lemma perform_signature_clears BAKING_APP on_hash send_hash
    (w : ApduSign.world) :
  let r := ApduSign.perform_signature BAKING_APP on_hash send_hash w in
  is_ret (fst r) = true -> ApduSign.G (snd r) = ApduSign.zero_globals.
Proof.
  intros r. subst r. unfold ApduSign.perform_signature. rewrite bind_gets.
  destruct BAKING_APP.
  - unfold ApduSign.write_high_water_mark, ApduSign.on_nvram.
    pose proof (write_highest_level_spec
      (BakingAuth.level (ApduSign.parsed_baking_data (ApduSign.G w)))
      (BakingAuth.is_endorsement (ApduSign.parsed_baking_data (ApduSign.G w)))
      (ApduSign.nvram w)) as Hw.
    erewrite (bind_run _ _ w).
    2:{ unfold zoom. rewrite Hw. reflexivity. }
    apply sign_and_send_clears.
  - destruct (on_hash && ApduSign.hash_only (ApduSign.G w)).
    + intros _. reflexivity.
    + apply sign_and_send_clears.
Qed.

Lemma perform_signature_sent BAKING_APP on_hash send_hash s :
  preserves (fun w => ApduSign.sent w = s)
    (ApduSign.perform_signature BAKING_APP on_hash send_hash).
Proof.
  unfold ApduSign.perform_signature, ApduSign.sign_and_send,
    ApduSign.write_high_water_mark, ApduSign.sign_with_key.
  unfold_session.
  repeat frame_step; by intros.
Qed.

Lemma take_memmove_at_Z (dst src : list byte) (off n : Z) :
  0 <= off -> off <= Z.of_nat (length dst) ->
  n = off + Z.of_nat (length src) ->
  take (Z.to_nat n) (memmove_at dst off src) = take (Z.to_nat off) dst ++ src.
Proof.
  intros Hoff Hfit ->. rewrite <- take_memmove_at by done. f_equal. lia.
Qed.

(** The bytes of a successful response: the optional prefix, the
    signature and the status word. *)
Lemma response_bytes (io pre sig : list byte) :
  (length pre + length sig + 2 <= length io)%nat ->
  let n := Z.of_nat (length pre) in
  take (Z.to_nat (n + Z.of_nat (length sig) + 2))
    (memmove_at (memmove_at (memmove_at io 0 pre) n sig)
       (n + Z.of_nat (length sig)) [0x90; 0x00])
  = pre ++ sig ++ [0x90; 0x00].
Proof.
  intros Hfit n. subst n.
  assert (H0 : length (memmove_at io 0 pre) = length io).
  { apply memmove_at_length; simpl; lia. }
  assert (H1 : length (memmove_at (memmove_at io 0 pre)
                         (Z.of_nat (length pre)) sig) = length io).
  { rewrite memmove_at_length; [done|lia|lia]. }
  rewrite take_memmove_at_Z; [|lia|lia|simpl; lia].
  rewrite take_memmove_at_Z; [|lia|lia|lia].
  rewrite (take_memmove_at_Z io pre 0); [|lia|lia|lia].
  by rewrite <- app_assoc.
Qed.

Lemma delayed_send_run tx (w : ApduSign.world) :
  ApduSign.delayed_send tx w =
  (Ret tt,
   ApduSign.with_sent
     (ApduSign.sent w ++ [take (Z.to_nat tx) (ApduSign.G_io_apdu_buffer w)]) w).
Proof. reflexivity. Qed.

(** A confirmation callback that is not the rejection: the signature on
    the hash, or on the message for [sign_unsafe_ok], with the hash sent
    first for [sign_with_hash_ok]. *)
Lemma call_ui_callback_sign BAKING_APP cb :
  cb <> ApduSign.sign_reject ->
  ApduSign.call_ui_callback BAKING_APP cb =
  (tx <- ApduSign.perform_signature BAKING_APP
           (callback_on_hash cb) (callback_send_hash cb) ;;
   ApduSign.delayed_send tx ;; ret true).
Proof. by destruct cb. Qed.

End signature_response.

(** X17.  Wallet build: an accepting callback whose signature succeeds sends
    the hash (for [sign_with_hash_ok] only), the signature and the status
    0x9000, in this order.  The signature is on the final hash, or on the
    message itself for [sign_unsafe_ok]; one signature is logged, the data
    of the record is unchanged and the session is cleared.  This is for a
    session that is not in hash-only mode, with a final hash of
    [SIGN_HASH_SIZE] bytes and a response that fits the APDU buffer. *)
Theorem approved_signature_response `{P : ApduSign.Platform}
    (cb : ApduSign.ui_callback_t) (w : ApduSign.world) (sig : list byte) :
  let g := ApduSign.G w in
  let on_hash := callback_on_hash cb in
  let send_hash := callback_send_hash cb in
  let data := signed_data on_hash g in
  let prefix := if send_hash then ApduSign.final_hash g else [] in
  cb <> ApduSign.sign_reject ->
  on_hash && ApduSign.hash_only g = false ->
  ApduSign.sign ApduSign.MAX_SIGNATURE_SIZE
    (ApduSign.derivation_type (ApduSign.key g))
    (ApduSign.bip32_path (ApduSign.key g)) data = Ret sig ->
  Z.of_nat (length (ApduSign.final_hash g)) = ApduSign.SIGN_HASH_SIZE ->
  (length prefix + length sig + 2 <= length (ApduSign.G_io_apdu_buffer w))%nat ->
  let r := ApduSign.call_ui_callback false cb w in
  fst r = Ret true /\
  ApduSign.sent (snd r) = ApduSign.sent w ++ [prefix ++ sig ++ [0x90; 0x00]] /\
  BakingAuth.trace (ApduSign.nvram (snd r))
  = BakingAuth.trace (ApduSign.nvram w) ++ [signature_event g data] /\
  BakingAuth.N_data (ApduSign.nvram (snd r))
  = BakingAuth.N_data (ApduSign.nvram w) /\
  ApduSign.G (snd r) = ApduSign.zero_globals.
Proof.
  intros g on_hash send_hash data prefix Hcb Honly Hsig Hlen Hfit r.
  subst r. rewrite call_ui_callback_sign by done. fold on_hash send_hash.
  unfold ApduSign.perform_signature. rewrite bind_assoc, bind_gets.
  fold g. rewrite Honly.
  pose proof (sign_and_send_run on_hash send_hash w) as Hrun.
  cbv zeta in Hrun. fold g data in Hrun. rewrite Hsig in Hrun.
  rewrite (bind_run _ _ _ _ _ Hrun). cbv beta.
  rewrite (bind_run _ _ _ _ _ (delayed_send_run _ _)).
  cbn [fst snd ApduSign.sent ApduSign.with_sent ApduSign.nvram ApduSign.G
       ApduSign.G_io_apdu_buffer BakingAuth.trace BakingAuth.N_data ret].
  split; [done|]. split; [|done].
  f_equal. f_equal.
  assert (Hpre : (if send_hash && on_hash then ApduSign.SIGN_HASH_SIZE else 0)
                 = Z.of_nat (length prefix) /\
                 (if send_hash && on_hash
                  then memmove_at (ApduSign.G_io_apdu_buffer w) 0
                         (ApduSign.final_hash g)
                  else ApduSign.G_io_apdu_buffer w)
                 = memmove_at (ApduSign.G_io_apdu_buffer w) 0 prefix).
  { subst prefix on_hash send_hash.
    destruct cb; try done; cbn; split; try done.
    all: unfold memmove_at; cbn; by rewrite drop_0. }
  destruct Hpre as [-> ->]. by apply response_bytes.
Qed.

(** X13.  Whatever callback a confirmation runs, if it returns then the
    session is all zero and one response has been sent, so that a NEXT
    packet that follows is refused with [EXC_WRONG_LENGTH_FOR_INS]; if it
    throws, no response has been sent.  The rejection always returns, leaves
    the record alone and sends the status 0x6985. *)
Theorem confirmation_ends_session `{P : ApduSign.Platform}
    (BAKING_APP : bool) (cb : ApduSign.ui_callback_t) (w : ApduSign.world) :
  let r := ApduSign.call_ui_callback BAKING_APP cb w in
  (is_ret (fst r) = true ->
   ApduSign.G (snd r) = ApduSign.zero_globals /\
   (exists resp, ApduSign.sent (snd r) = ApduSign.sent w ++ [resp]) /\
   forall ins a,
     Session.kind a = ApduSign.P1_NEXT ->
     Session.buff_size a <= ApduSign.MAX_APDU_SIZE ->
     fst (Session.deliver BAKING_APP ins a (snd r))
     = Throw EXC_WRONG_LENGTH_FOR_INS) /\
  (is_ret (fst r) = false -> ApduSign.sent (snd r) = ApduSign.sent w) /\
  (cb = ApduSign.sign_reject ->
   fst r = Ret true /\
   ApduSign.nvram (snd r) = ApduSign.nvram w /\
   ApduSign.sent (snd r) = ApduSign.sent w ++ [[0x69; 0x85]]).
Proof.
  intros r.
  assert (Hnext : forall w' : ApduSign.world,
    ApduSign.G w' = ApduSign.zero_globals ->
    forall ins a,
      Session.kind a = ApduSign.P1_NEXT ->
      Session.buff_size a <= ApduSign.MAX_APDU_SIZE ->
      fst (Session.deliver BAKING_APP ins a w')
      = Throw EXC_WRONG_LENGTH_FOR_INS).
  { intros w' HG ins a Hk Hlc. rewrite deliver_next by done. cbv zeta.
    by rewrite HG. }
  assert (Hcases : cb = ApduSign.sign_reject \/ cb <> ApduSign.sign_reject).
  { destruct cb; (by left) || (by right). }
  destruct Hcases as [->|Hcb].
  { subst r. cbn [ApduSign.call_ui_callback].
    unfold ApduSign.sign_reject_fn, ApduSign.clear_data, ApduSign.delay_reject.
    rewrite bind_modify, !bind_assoc, bind_modify.
    rewrite (bind_run _ _ _ _ _ (delayed_send_run _ _)).
    cbn [fst snd is_ret ret ApduSign.sent ApduSign.with_sent ApduSign.G
         ApduSign.with_G ApduSign.with_G_io_apdu_buffer ApduSign.nvram
         ApduSign.G_io_apdu_buffer].
    split; [|split; [done|]].
    - intros _. split; [done|]. split; [by eexists|]. by apply Hnext.
    - intros _. done. }
  split; [|split; [|done]].
  - subst r. rewrite call_ui_callback_sign by done. intros Hret.
    pose proof (perform_signature_clears BAKING_APP (callback_on_hash cb)
                  (callback_send_hash cb) w) as Hclear.
    pose proof (perform_signature_sent BAKING_APP (callback_on_hash cb)
                  (callback_send_hash cb) (ApduSign.sent w) w eq_refl) as Hsent.
    cbv zeta in Hclear.
    destruct (ApduSign.perform_signature _ _ _ w) as [[tx|e] w1] eqn:Hps;
      cbn [fst snd] in *;
      [|by rewrite (bind_run_throw _ _ _ _ _ Hps) in Hret].
    rewrite (bind_run _ _ _ _ _ Hps).
    rewrite (bind_run _ _ _ _ _ (delayed_send_run _ _)). cbn [ret fst snd].
    assert (HG : ApduSign.G (ApduSign.with_sent
                   (ApduSign.sent w1
                    ++ [take (Z.to_nat tx) (ApduSign.G_io_apdu_buffer w1)]) w1)
                 = ApduSign.zero_globals) by (by apply Hclear).
    split; [exact HG|]. split; [|by apply Hnext].
    eexists. cbn [ApduSign.sent ApduSign.with_sent]. by rewrite Hsent.
  - subst r. rewrite call_ui_callback_sign by done. intros Hret.
    pose proof (perform_signature_sent BAKING_APP (callback_on_hash cb)
                  (callback_send_hash cb) (ApduSign.sent w) w eq_refl) as Hsent.
    destruct (ApduSign.perform_signature _ _ _ w) as [[tx|e] w1] eqn:Hps;
      cbn [fst snd] in *.
    + rewrite (bind_run _ _ _ _ _ Hps) in Hret.
      by rewrite (bind_run _ _ _ _ _ (delayed_send_run _ _)) in Hret.
    + by rewrite (bind_run_throw _ _ _ _ _ Hps).
Qed.

Lemma approved_signature_response_witness :
  let w :=
    snd (Session.deliver_all (P := Sample.platform) false
           ApduSign.INS_SIGN_WITH_HASH
           [Sample.first_packet; Sample.apdu 0x81 0 [3; 1; 2]] Sample.world0) in
  let sig := take 64 (ApduSign.final_hash (ApduSign.G w) ++ replicate 64 0) in
  fst (ApduSign.call_ui_callback (P := Sample.platform) false
         ApduSign.sign_with_hash_ok w) = Ret true.
Proof.
  intros w sig.
  refine (proj1 (approved_signature_response (P := Sample.platform)
                   ApduSign.sign_with_hash_ok w sig _ _ _ _ _)).
  - discriminate.
  - vm_compute; reflexivity.
  - vm_compute; reflexivity.
  - vm_compute; reflexivity.
  - vm_compute. lia.
Defined.

Lemma confirmation_ends_session_witness :
  let w :=
    snd (Session.deliver_all (P := Sample.platform) false ApduSign.INS_SIGN
           [Sample.first_packet; Sample.apdu 0x81 0 [3; 1; 2]] Sample.world0) in
  let r :=
    ApduSign.call_ui_callback (P := Sample.platform) false
      ApduSign.sign_reject w in
  fst r = Ret true /\
  ApduSign.nvram (snd r) = ApduSign.nvram w /\
  ApduSign.sent (snd r) = ApduSign.sent w ++ [[0x69; 0x85]].
Proof.
  intros w r.
  exact (proj2 (proj2 (confirmation_ends_session (P := Sample.platform) false
                         ApduSign.sign_reject w)) eq_refl).
Defined.

(** ** The hasher keeps the last block *)

(** ** The hasher keeps back the last block *)

Section hasher_discipline.

Context `{P : ApduSign.Platform}.

(** What absorption leaves is the stream less a whole number of blocks,
    and is not empty unless the stream is. *)
Lemma absorb_cut st (s : list byte) :
  exists k : nat,
    snd (Session.absorb st s) = drop (k * 128) s /\
    (k * 128 + length (snd (Session.absorb st s)) = length s)%nat /\
    (s <> [] -> snd (Session.absorb st s) <> []).
Proof.
  revert st s. apply absorb_ind; intros st s Hs.
  - exists 0%nat. rewrite absorb_short by done. cbn [snd]. by rewrite drop_0.
  - intros (k & Hdrop & Hlen & Hne). rewrite absorb_long by lia.
    unfold ApduSign.B2B_BLOCKBYTES in *.
    change (Z.to_nat 128) with 128%nat in *.
    rewrite length_drop in Hlen.
    exists (S k). split; [rewrite Hdrop, drop_drop; f_equal; lia|].
    split; [lia|].
    intros _. apply Hne.
    intros Hnil. apply (f_equal length) in Hnil.
    rewrite length_drop in Hnil. simpl in Hnil. lia.
Qed.

Lemma blake2b_incremental_hash_short (out_size : Z) (a : ApduSign.hash_args) :
  ApduSign.buff_length a <= ApduSign.B2B_BLOCKBYTES ->
  ApduSign.blake2b_incremental_hash out_size a =
  (Ret tt,
   {| ApduSign.buff :=
        memmove_at (ApduSign.buff a) 0
          (take (Z.to_nat (ApduSign.buff_length a)) (ApduSign.buff a));
      ApduSign.buff_length := ApduSign.buff_length a;
      ApduSign.st := ApduSign.st a |}).
Proof.
  intros Hle. unfold ApduSign.blake2b_incremental_hash. rewrite bind_gets.
  assert (Hloop : forall fuel,
    ApduSign.incremental_hash_loop fuel out_size 0 a = (Ret 0, a)).
  { intros [|fuel]; simpl; rewrite bind_gets; unfold id;
      by destruct (Z.gtb_spec (ApduSign.buff_length a) ApduSign.B2B_BLOCKBYTES);
        [lia|]. }
  rewrite (bind_run _ _ _ _ _ (Hloop _)). reflexivity.
Qed.

End hasher_discipline.

(** X18.  [blake2b_incremental_hash] on a well-formed buffer returns; it
    consumes a whole number of blocks of 128 bytes from the front and moves
    the rest to the start of the buffer.  At most one block is left, a
    buffer that held bytes still holds some, and a buffer of at most one
    block is left as it was, with the hash state untouched. *)
Theorem hasher_keeps_last_block `{P : ApduSign.Platform}
    (a : ApduSign.hash_args) :
  Session.hash_args_ok a ->
  exists a',
    ApduSign.blake2b_incremental_hash ApduSign.sizeof_message_data a
    = (Ret tt, a') /\
    Session.hash_args_ok a' /\
    ApduSign.buff_length a' <= ApduSign.B2B_BLOCKBYTES /\
    (0 < ApduSign.buff_length a -> 0 < ApduSign.buff_length a') /\
    (exists k : nat,
       ApduSign.buff_length a
       = Z.of_nat k * ApduSign.B2B_BLOCKBYTES + ApduSign.buff_length a' /\
       Session.pending a'
       = drop (k * Z.to_nat ApduSign.B2B_BLOCKBYTES) (Session.pending a)) /\
    (ApduSign.buff_length a <= ApduSign.B2B_BLOCKBYTES ->
     ApduSign.st a' = ApduSign.st a /\ Session.pending a' = Session.pending a).
Proof.
  intros Hok.
  destruct (blake2b_incremental_hash_spec a Hok)
    as (a' & Hrun & Hok' & Hshort & Hle & _ & Habs).
  exists a'. split; [exact Hrun|]. split; [exact Hok'|]. split; [exact Hshort|].
  pose proof (pending_length a Hok) as Hlen.
  pose proof (pending_length a' Hok') as Hlen'.
  destruct (absorb_cut (Session.effective (ApduSign.st a)) (Session.pending a))
    as (k & Hdrop & Hsum & Hne).
  rewrite Habs in Hdrop, Hsum, Hne. cbn [snd] in Hdrop, Hsum, Hne.
  split; [|split].
  - intros Hpos.
    assert (Session.pending a <> []) as Hnil.
    { intros Hnil. rewrite Hnil in Hlen. simpl in Hlen. lia. }
    specialize (Hne Hnil).
    destruct (Session.pending a') eqn:Hp; [done|]. simpl in Hlen'. lia.
  - exists k. unfold ApduSign.B2B_BLOCKBYTES. split; [lia|exact Hdrop].
  - intros Hle1. rewrite blake2b_incremental_hash_short in Hrun by done.
    injection Hrun as <-. cbn [ApduSign.st]. split; [done|].
    rewrite absorb_short in Habs by lia.
    apply (f_equal snd) in Habs. symmetry. exact Habs.
Qed.

Lemma hasher_keeps_last_block_witness :
  let a :=
    {| ApduSign.buff := Sample.stream300 ++ replicate 724 0;
       ApduSign.buff_length := 300;
       ApduSign.st :=
         {| ApduSign.initialized := false;
            ApduSign.state := ApduSign.b2b_zero (Platform := Sample.platform) |} |} in
  let a' :=
    snd (ApduSign.blake2b_incremental_hash (P := Sample.platform) 1024 a) in
  ApduSign.buff_length a' = 44 /\
  Session.pending a' = drop 256 Sample.stream300.
Proof.
  intros a a'.
  assert (Hok : Session.hash_args_ok (P := Sample.platform) a).
  { split; [vm_compute; split; discriminate|vm_compute; reflexivity]. }
  destruct (hasher_keeps_last_block (P := Sample.platform) a Hok)
    as (a1 & Hrun & _).
  subst a'.
  change (ApduSign.sizeof_message_data (Platform := Sample.platform)) with 1024
    in Hrun.
  rewrite Hrun. cbn [snd].
  assert (Ha1 : a1 = snd (ApduSign.blake2b_incremental_hash
                            (P := Sample.platform) 1024 a))
    by (by rewrite Hrun).
  rewrite Ha1. split; vm_compute; reflexivity.
Defined.

(** ** Refused packets *)

Section throws_facts.

Context {W : Type}.

Lemma throws_only_ret {A} (Q : exception -> Prop) (a : A) :
  throws_only (W := W) Q (ret a).
Proof. by intros w e w'. Qed.

Lemma throws_only_gets {A} (Q : exception -> Prop) (f : W -> A) :
  throws_only Q (gets f).
Proof. by intros w e w'. Qed.

Lemma throws_only_modify (Q : exception -> Prop) (f : W -> W) :
  throws_only Q (modify f).
Proof. by intros w e w'. Qed.

Lemma throws_only_throw {A} (Q : exception -> Prop) e :
  Q e -> throws_only (W := W) (A := A) Q (throw e).
Proof. intros H w e' w' [= <- _]. exact H. Qed.

Lemma throws_only_bind {A B} (Q : exception -> Prop) (m : M W A)
    (k : A -> M W B) :
  throws_only Q m -> (forall a, throws_only Q (k a)) ->
  throws_only Q (bind m k).
Proof.
  intros Hm Hk w e w' Hrun. unfold bind in Hrun.
  destruct (m w) as [[a|e1] w1] eqn:Hmw.
  - by eapply Hk.
  - injection Hrun as <- <-. by eapply Hm.
Qed.

Lemma throws_only_when (Q : exception -> Prop) (b : bool) (m : M W unit) :
  throws_only Q m -> throws_only Q (when b m).
Proof. intros H. destruct b; [done|apply throws_only_ret]. Qed.

Lemma throws_only_zoom {V A} (Q : exception -> Prop)
    (get : W -> V) (set : V -> W -> W) (m : M V A) :
  throws_only Q m -> throws_only Q (zoom get set m).
Proof.
  intros Hm w e w' Hrun. unfold zoom in Hrun.
  destruct (m (get w)) as [r v] eqn:Hmw. injection Hrun as -> _.
  by eapply Hm.
Qed.

End throws_facts.

Ltac throws_step :=
  lazymatch goal with
  | |- throws_only _ (bind _ _) => apply throws_only_bind; [|intros ?]
  | |- throws_only _ (ret _) => apply throws_only_ret
  | |- throws_only _ (gets _) => apply throws_only_gets
  | |- throws_only _ (modify _) => apply throws_only_modify
  | |- throws_only _ (when _ _) => apply throws_only_when
  | |- throws_only _ (zoom _ _ _) => apply throws_only_zoom
  | |- throws_only _ (throw _) => apply throws_only_throw
  | |- throws_only _ ApduSign.PARSE_ERROR => apply throws_only_throw
  | |- throws_only _ (if ?b then _ else _) => destruct b
  | |- throws_only _ (match ?x with _ => _ end) => destruct x
  | |- throws_only _ (let (_, _) := ?x in _) => destruct x
  end.

Section accumulate_throws.

Context `{P : ApduSign.Platform}.

Lemma incremental_hash_loop_throws fuel out_size :
  forall current,
  throws_only buffer_error
    (ApduSign.incremental_hash_loop fuel out_size current).
Proof.
  induction fuel as [|fuel IH]; intros current; simpl;
    repeat (throws_step || apply IH); by right.
Qed.

Lemma accumulate_throws hashing buff buff_size last :
  throws_only buffer_error (ApduSign.accumulate hashing buff buff_size last).
Proof.
  unfold ApduSign.accumulate, ApduSign.finish_message_data,
    ApduSign.hash_message_data, ApduSign.append_message_data,
    ApduSign.on_message_data, ApduSign.on_G,
    ApduSign.blake2b_finish_hash, ApduSign.blake2b_incremental_hash.
  repeat (throws_step || apply incremental_hash_loop_throws); by left.
Qed.

End accumulate_throws.

(** X11.  A packet longer than [MAX_APDU_SIZE] is refused with
    [EXC_WRONG_LENGTH_FOR_INS], and a packet of an unknown kind, which the
    hash-only kind is in the baking build, with [EXC_WRONG_PARAM]; in both
    cases nothing but the APDU buffer has changed.  In the wallet build a
    hash-only packet leaves the hash-only flag of the session set. *)
Theorem refused_packet_changes_nothing `{P : ApduSign.Platform}
    (BAKING_APP : bool) (ins : ApduSign.instruction_t) (a : list byte)
    (w : ApduSign.world) :
  let kind := Session.kind a in
  let r := Session.deliver BAKING_APP ins a w in
  (Session.buff_size a > ApduSign.MAX_APDU_SIZE ->
   r = (Throw EXC_WRONG_LENGTH_FOR_INS, ApduSign.with_G_io_apdu_buffer a w)) /\
  (Session.buff_size a <= ApduSign.MAX_APDU_SIZE ->
   kind <> ApduSign.P1_FIRST -> kind <> ApduSign.P1_NEXT ->
   BAKING_APP = true \/ kind <> ApduSign.P1_HASH_ONLY_NEXT ->
   r = (Throw EXC_WRONG_PARAM, ApduSign.with_G_io_apdu_buffer a w)) /\
  (Session.buff_size a <= ApduSign.MAX_APDU_SIZE ->
   kind = ApduSign.P1_HASH_ONLY_NEXT -> BAKING_APP = false ->
   ApduSign.hash_only (ApduSign.G (snd r)) = true).
Proof.
  intros kind r. split; [|split].
  - intros Hlc. by apply deliver_too_long.
  - intros Hlc Hfirst Hnext Hhash. subst r.
    unfold Session.deliver. rewrite bind_modify.
    unfold ApduSign.handle_apdu. cbv zeta. rewrite bind_gets.
    change (ApduSign.G_io_apdu_buffer (ApduSign.with_G_io_apdu_buffer a w))
      with a.
    fold (Session.buff_size a). fold (Session.kind a). fold kind.
    destruct (Z.gtb_spec (Session.buff_size a) ApduSign.MAX_APDU_SIZE); [lia|].
    destruct (Z.eqb_spec kind ApduSign.P1_FIRST); [done|].
    destruct (Z.eqb_spec kind ApduSign.P1_NEXT); [done|].
    destruct Hhash as [->|Hhash]; [done|].
    destruct (Z.eqb_spec kind ApduSign.P1_HASH_ONLY_NEXT); [done|].
    by rewrite andb_false_r.
  - intros Hlc Hk ->. subst r.
    unfold Session.deliver. rewrite bind_modify.
    unfold ApduSign.handle_apdu. cbv zeta. rewrite bind_gets.
    change (ApduSign.G_io_apdu_buffer (ApduSign.with_G_io_apdu_buffer a w))
      with a.
    fold (Session.buff_size a). fold (Session.kind a). fold kind.
    destruct (Z.gtb_spec (Session.buff_size a) ApduSign.MAX_APDU_SIZE); [lia|].
    rewrite Hk.
    change (ApduSign.P1_HASH_ONLY_NEXT =? ApduSign.P1_FIRST) with false.
    change (ApduSign.P1_HASH_ONLY_NEXT =? ApduSign.P1_HASH_ONLY_NEXT) with true.
    cbn [negb andb orb when]. rewrite bind_modify.
    match goal with
    | |- ApduSign.hash_only (ApduSign.G (snd (?m ?w1))) = true =>
        assert (Hp : preserves
                  (fun w => ApduSign.hash_only (ApduSign.G w) = true) m);
        [|by apply Hp]
    end.
    unfold_session. cbv zeta.
    repeat frame_step; by intros.
Qed.

Lemma refused_packet_changes_nothing_witness :
  let a := Sample.apdu 0x03 0 [3; 1; 2] in
  let w :=
    snd (Session.deliver (P := Sample.platform) true ApduSign.INS_SIGN
           Sample.first_packet Sample.world0) in
  Session.deliver (P := Sample.platform) true ApduSign.INS_SIGN a w
  = (Throw EXC_WRONG_PARAM, ApduSign.with_G_io_apdu_buffer a w).
Proof.
  intros a w.
  refine (proj1 (proj2 (refused_packet_changes_nothing (P := Sample.platform)
                          true ApduSign.INS_SIGN a w)) _ _ _ _).
  - vm_compute; discriminate.
  - vm_compute; discriminate.
  - vm_compute; discriminate.
  - left; reflexivity.
Defined.

(** ** Packets after the first of a message *)

Section later_packets.

Context `{P : ApduSign.Platform}.

Lemma accumulate_keeps_parse hashing buff buff_size last m ops :
  preserves
    (fun w => ApduSign.magic_byte (ApduSign.G w) = m /\
              ApduSign.maybe_ops (ApduSign.G w) = ops)
    (ApduSign.accumulate hashing buff buff_size last).
Proof.
  unfold_session. repeat frame_step; by intros.
Qed.

End later_packets.

(** X19.  Wallet build, for [INS_SIGN] and [INS_SIGN_WITH_HASH]: a last NEXT
    packet that is not the first counted packet of its message never
    returns, and when it prompts, [ui_prompt] is called with the labels of
    the bare hash, the accepting callback of the instruction and
    [sign_reject]: an operation that came in several packets is not
    displayed. *)
Theorem wallet_later_packet_shows_hash `{P : ApduSign.Platform}
    (ins : ApduSign.instruction_t) (a : list byte) (w : ApduSign.world) :
  ins <> ApduSign.INS_SIGN_UNSAFE ->
  Session.kind a = ApduSign.P1_NEXT ->
  Session.last a = true ->
  ApduSign.packet_index (ApduSign.G w) <> 0 ->
  let r := Session.deliver false ins a w in
  is_ret (fst r) = false /\
  (fst r = Throw ASYNC_EXCEPTION ->
   prompted (ok_callback ins) ApduSign.sign_reject (eq hash_labels) r).
Proof.
  intros Hins Hk Hlast Hidx r. subst r.
  destruct (Z.le_gt_cases (Session.buff_size a) ApduSign.MAX_APDU_SIZE)
    as [Hlc|Hlc]; [|by rewrite deliver_too_long by lia].
  rewrite deliver_next by done. cbv zeta.
  destruct (_ =? 0); [done|]. destruct (_ >=? 255); [done|].
  rewrite bool_decide_eq_false_2 by done. cbn [negb when]. rewrite Hlast.
  set (w1 := ApduSign.with_G _ _).
  assert (Hparse : ApduSign.parse_packet false (Session.buff a) w1 =
    (Ret tt,
     ApduSign.with_G
       (ApduSign.with_maybe_ops
          {| ApduSign.is_valid := false;
             ApduSign.v := ApduSign.v (ApduSign.maybe_ops (ApduSign.G w1)) |}
          (ApduSign.G w1)) w1)).
  { unfold ApduSign.parse_packet. rewrite bind_gets.
    destruct (Z.eqb_spec (ApduSign.packet_index (ApduSign.G w1)) 1) as [H1|];
      [|done].
    subst w1. cbn in H1. lia. }
  rewrite (bind_run _ _ _ _ _ Hparse).
  set (w2 := ApduSign.with_G _ w1).
  pose proof (accumulate_keeps_parse true (Session.buff a)
                (Session.buff_size a) true
                (ApduSign.magic_byte (ApduSign.G w2))
                (ApduSign.maybe_ops (ApduSign.G w2)) w2 (conj eq_refl eq_refl))
    as [Hmagic Hops].
  pose proof (accumulate_throws true (Session.buff a) (Session.buff_size a)
                true w2) as Hthrows.
  destruct (ApduSign.accumulate true (Session.buff a) (Session.buff_size a)
              true w2) as [[[]|e] w3] eqn:Hacc; cbn [snd] in Hmagic, Hops.
  2:{ rewrite (bind_run_throw _ _ _ _ _ Hacc). cbn [fst]. split; [done|].
      intros [= ->]. by destruct (Hthrows _ _ eq_refl). }
  rewrite (bind_run _ _ _ _ _ Hacc).
  pose proof (wallet_sign_complete_spec ins w3) as Hspec.
  cbv zeta in Hspec. rewrite bool_decide_eq_false_2 in Hspec by done.
  rewrite Hops in Hspec. cbn [ApduSign.is_valid ApduSign.maybe_ops
    ApduSign.with_maybe_ops ApduSign.G ApduSign.with_G negb] in Hspec.
  destruct (ApduSign.magic_byte (ApduSign.G w3)).
  all: try (by rewrite Hspec).
  all: split; [by rewrite (proj1 Hspec)|intros _; exact Hspec].
Qed.

Lemma wallet_later_packet_shows_hash_witness :
  let w :=
    snd (Session.deliver_all (P := Sample.platform) false ApduSign.INS_SIGN
           [Sample.first_packet; Sample.apdu 0x01 0 [3; 1; 2]] Sample.world0) in
  let r :=
    Session.deliver (P := Sample.platform) false ApduSign.INS_SIGN
      (Sample.apdu 0x81 0 [4; 5]) w in
  fst r = Throw ASYNC_EXCEPTION /\
  prompted (ok_callback ApduSign.INS_SIGN) ApduSign.sign_reject
    (eq hash_labels) r.
Proof.
  intros w r.
  assert (Hr : fst r = Throw ASYNC_EXCEPTION) by (vm_compute; reflexivity).
  split; [exact Hr|].
  refine (proj2 (wallet_later_packet_shows_hash (P := Sample.platform)
                   ApduSign.INS_SIGN (Sample.apdu 0x81 0 [4; 5]) w _ _ _ _) Hr).
  - discriminate.
  - vm_compute; reflexivity.
  - vm_compute; reflexivity.
  - vm_compute; discriminate.
Defined.

(** ** Unsafe signing signs what was sent *)

Section unsafe_signing.

Context `{P : ApduSign.Platform}.

Lemma accumulate_unhashed buff n last (w : ApduSign.world) :
  ApduSign.accumulate false buff n last w
  = ApduSign.append_message_data buff n w.
Proof.
  unfold ApduSign.accumulate. cbn [when]. rewrite bind_ret, andb_false_r.
  cbn [when]. unfold bind.
  by destruct (ApduSign.append_message_data buff n w) as [[[]|e] w'].
Qed.

Lemma append_stored (s p : list byte) (w w' : ApduSign.world) :
  stored s w ->
  ApduSign.append_message_data p (Z.of_nat (length p)) w = (Ret tt, w') ->
  stored (s ++ p) w' /\
  ApduSign.key (ApduSign.G w') = ApduSign.key (ApduSign.G w) /\
  ApduSign.nvram w' = ApduSign.nvram w.
Proof.
  intros [Hok Hs] Hrun.
  pose proof (append_message_data_spec w p (Z.of_nat (length p)) Hok
                ltac:(lia) ltac:(lia)) as H.
  destruct (_ >? _); [by rewrite H in Hrun|].
  destruct H as (w1 & Hrun1 & Hlen & Hdata & Hok1).
  rewrite Hrun1 in Hrun. injection Hrun as <-.
  split; [split; [exact Hok1|]|].
  - unfold signed_data in *. rewrite Hlen, Hdata.
    destruct Hok as [Hl Hb].
    rewrite (take_memmove_at_Z _ _ (ApduSign.message_data_length (ApduSign.G w)));
      [by rewrite Hs|lia|lia|lia].
  - unfold ApduSign.append_message_data in Hrun1. rewrite bind_gets in Hrun1.
    destruct (_ >? _); [done|]. rewrite bind_modify in Hrun1.
    unfold modify in Hrun1. by injection Hrun1 as <-.
Qed.

Lemma wallet_sign_complete_message ins g nv :
  preserves (message_kept g nv) (ApduSign.wallet_sign_complete ins).
Proof.
  unfold ApduSign.wallet_sign_complete. cbv zeta. unfold_session.
  repeat frame_step; by intros.
Qed.

Lemma finalize_successful_send_message tx g nv :
  preserves (message_kept g nv) (ApduSign.finalize_successful_send tx).
Proof. unfold_session. repeat frame_step; by intros. Qed.

Lemma stored_kept (s : list byte) (w w' : ApduSign.world) :
  stored s w -> message_kept (ApduSign.G w) (ApduSign.nvram w) w' ->
  stored s w' /\
  ApduSign.key (ApduSign.G w') = ApduSign.key (ApduSign.G w) /\
  ApduSign.nvram w' = ApduSign.nvram w.
Proof.
  intros [[Hl Hb] Hs] (Hd & Hlen & Hkey & Hnv).
  split; [|done]. unfold stored, Session.buffer_ok, signed_data in *.
  by rewrite Hd, Hlen.
Qed.

Lemma deliver_unsafe_step (a s : list byte) (w w' : ApduSign.world)
    (r : result Z) :
  Session.kind a = ApduSign.P1_NEXT ->
  Z.of_nat (length (Session.buff a)) = Session.buff_size a ->
  stored s w ->
  Session.deliver false ApduSign.INS_SIGN_UNSAFE a w = (r, w') ->
  is_ret r = true \/ r = Throw ASYNC_EXCEPTION ->
  stored (s ++ Session.buff a) w' /\
  ApduSign.key (ApduSign.G w') = ApduSign.key (ApduSign.G w) /\
  ApduSign.nvram w' = ApduSign.nvram w.
Proof.
  intros Hk Hlen Hs Hrun Hr.
  destruct (Z.le_gt_cases (Session.buff_size a) ApduSign.MAX_APDU_SIZE)
    as [Hlc|Hlc].
  2:{ rewrite deliver_too_long in Hrun by lia. injection Hrun as <- _.
      by destruct Hr. }
  rewrite deliver_next in Hrun by done. cbv zeta in Hrun.
  destruct (_ =? 0).
  { injection Hrun as <- _. by destruct Hr. }
  destruct (_ >=? 255).
  { injection Hrun as <- _. by destruct Hr. }
  rewrite bool_decide_eq_true_2 in Hrun by done. cbn [negb when] in Hrun.
  rewrite bind_ret in Hrun.
  set (w1 := ApduSign.with_G _ _) in Hrun.
  assert (Hs1 : stored s w1) by exact Hs.
  rewrite <- Hlen in Hrun.
  pose proof (accumulate_throws false (Session.buff a)
                (Z.of_nat (length (Session.buff a))) (Session.last a) w1)
    as Hthrows.
  destruct (ApduSign.accumulate false (Session.buff a) _ (Session.last a) w1)
    as [[[]|e] w2] eqn:Hacc.
  2:{ rewrite (bind_run_throw _ _ _ _ _ Hacc) in Hrun.
      injection Hrun as <- _. destruct Hr as [?|[= ->]]; [done|].
      by destruct (Hthrows _ _ eq_refl). }
  rewrite (bind_run _ _ _ _ _ Hacc) in Hrun.
  rewrite accumulate_unhashed in Hacc.
  destruct (append_stored s (Session.buff a) w1 w2 Hs1 Hacc)
    as (Hs2 & Hkey2 & Hnv2).
  assert (Hkept : message_kept (ApduSign.G w2) (ApduSign.nvram w2) w').
  { destruct (Session.last a).
    - pose proof (wallet_sign_complete_message ApduSign.INS_SIGN_UNSAFE
                    (ApduSign.G w2) (ApduSign.nvram w2) w2
                    ltac:(by repeat split)) as Hp.
      by rewrite Hrun in Hp.
    - pose proof (finalize_successful_send_message 0
                    (ApduSign.G w2) (ApduSign.nvram w2) w2
                    ltac:(by repeat split)) as Hp.
      by rewrite Hrun in Hp. }
  destruct (stored_kept _ _ _ Hs2 Hkept) as (Hs' & Hkey' & Hnv').
  split; [exact Hs'|]. split; [by rewrite Hkey', Hkey2|by rewrite Hnv', Hnv2].
Qed.

Lemma unsafe_session_stored (apdus : list (list byte)) :
  forall (s : list byte) (w : ApduSign.world),
  Forall (fun b => Session.kind b = ApduSign.P1_NEXT /\
                   Z.of_nat (length (Session.buff b)) = Session.buff_size b)
    apdus ->
  stored s w ->
  Forall (fun r => is_ret r = true)
    (fst (Session.deliver_all false ApduSign.INS_SIGN_UNSAFE apdus w)) ->
  let w1 := snd (Session.deliver_all false ApduSign.INS_SIGN_UNSAFE apdus w) in
  stored (s ++ concat (map Session.buff apdus)) w1 /\
  ApduSign.key (ApduSign.G w1) = ApduSign.key (ApduSign.G w) /\
  ApduSign.nvram w1 = ApduSign.nvram w.
Proof.
  induction apdus as [|b apdus IH]; intros s w Hall Hs Hret.
  { cbn. by rewrite app_nil_r. }
  apply Forall_cons in Hall as [[Hkb Hlenb] Hall].
  cbn [Session.deliver_all] in *.
  destruct (Session.deliver false ApduSign.INS_SIGN_UNSAFE b w)
    as [r w1] eqn:Hrun.
  specialize (IH (s ++ Session.buff b) w1 Hall).
  destruct (Session.deliver_all false ApduSign.INS_SIGN_UNSAFE apdus w1)
    as [rs w2] eqn:Hrest.
  cbn [fst snd] in *. apply Forall_cons in Hret as [Hr Hret].
  destruct (deliver_unsafe_step b s w w1 r Hkb Hlenb Hs Hrun (or_introl Hr))
    as (Hs1 & Hkey1 & Hnv1).
  destruct (IH Hs1 Hret) as (Hs2 & Hkey2 & Hnv2).
  cbn [map concat]. rewrite app_assoc.
  split; [exact Hs2|]. split; congruence.
Qed.

End unsafe_signing.

(** X14.  [INS_SIGN_UNSAFE] in the wallet build: when the NEXT packets of a
    message, sent to a session whose buffer is empty, are all accepted and
    the last one raises the prompt, the message buffer holds the payloads
    one after the other, and they fit it; accepting the prompt signs exactly
    these bytes with the key of the session, logs that one signature and
    leaves the data of the record alone. *)
Theorem unsafe_session_signs_the_bytes_sent `{P : ApduSign.Platform}
    (apdus : list (list byte)) (a : list byte) (w : ApduSign.world) :
  stored [] w ->
  Forall (fun b => Session.kind b = ApduSign.P1_NEXT /\
                   Z.of_nat (length (Session.buff b)) = Session.buff_size b)
    (apdus ++ [a]) ->
  Forall (fun r => is_ret r = true)
    (fst (Session.deliver_all false ApduSign.INS_SIGN_UNSAFE apdus w)) ->
  let w1 := snd (Session.deliver_all false ApduSign.INS_SIGN_UNSAFE apdus w) in
  let r := Session.deliver false ApduSign.INS_SIGN_UNSAFE a w1 in
  fst r = Throw ASYNC_EXCEPTION ->
  let stream := concat (map Session.buff (apdus ++ [a])) in
  let g := ApduSign.G w in
  Z.of_nat (length stream) <= ApduSign.sizeof_message_data /\
  signed_data false (ApduSign.G (snd r)) = stream /\
  forall sig,
    ApduSign.sign ApduSign.MAX_SIGNATURE_SIZE
      (ApduSign.derivation_type (ApduSign.key g))
      (ApduSign.bip32_path (ApduSign.key g)) stream = Ret sig ->
    let r2 :=
      ApduSign.call_ui_callback false ApduSign.sign_unsafe_ok (snd r) in
    fst r2 = Ret true /\
    BakingAuth.trace (ApduSign.nvram (snd r2))
    = BakingAuth.trace (ApduSign.nvram w) ++ [signature_event g stream] /\
    BakingAuth.N_data (ApduSign.nvram (snd r2))
    = BakingAuth.N_data (ApduSign.nvram w).
Proof.
  intros Hs Hall Hret w1 r Hr stream g.
  apply Forall_app in Hall as [Hall Ha].
  apply Forall_cons in Ha as [[Hka Hlena] _].
  destruct (unsafe_session_stored apdus [] w Hall Hs Hret)
    as (Hs1 & Hkey1 & Hnv1).
  fold w1 in Hs1, Hkey1, Hnv1. cbn [app] in Hs1.
  destruct r as [r0 w2] eqn:Hrun. cbn [fst snd] in *. subst r0.
  destruct (deliver_unsafe_step a _ w1 w2 _ Hka Hlena Hs1 Hrun
              (or_intror eq_refl)) as ([Hok2 Hs2] & Hkey2 & Hnv2).
  assert (Hstream : concat (map Session.buff apdus) ++ Session.buff a = stream).
  { subst stream. by rewrite map_app, concat_app; cbn; rewrite app_nil_r. }
  rewrite Hstream in Hs2.
  split; [|split; [exact Hs2|]].
  - rewrite <- Hs2. unfold signed_data. rewrite length_take.
    destruct Hok2 as [Hl Hb]. lia.
  - intros sig Hsig.
    cbn [ApduSign.call_ui_callback]. unfold ApduSign.sign_unsafe_ok_fn.
    unfold ApduSign.perform_signature. rewrite bind_assoc, bind_gets.
    cbn [andb].
    pose proof (sign_and_send_run false false w2) as Hsend.
    cbv zeta in Hsend. rewrite Hs2, Hkey2, Hkey1 in Hsend. fold g in Hsend.
    rewrite Hsig in Hsend.
    rewrite (bind_run _ _ _ _ _ Hsend). cbv beta.
    rewrite (bind_run _ _ _ _ _ (delayed_send_run _ _)).
    cbn [fst snd ret ApduSign.nvram ApduSign.with_sent BakingAuth.trace
         BakingAuth.N_data].
    split; [done|]. rewrite Hnv2, Hnv1. split; [|done].
    f_equal. f_equal. unfold signature_event. by rewrite Hkey2, Hkey1.
Qed.

(** ** A baking packet is checked and hashed as one *)

Section baking_packet.

Context `{P : ApduSign.Platform}.

Lemma accumulate_parsed_kept hashing buff buff_size last g nv s :
  preserves (parsed_kept g nv s)
    (ApduSign.accumulate hashing buff buff_size last).
Proof.
  unfold_session. repeat frame_step; by intros.
Qed.

Lemma fresh_received (w : ApduSign.world) :
  Session.fresh w -> Session.received [] w.
Proof.
  intros (Hok & Hlen & Hinit). split; [done|].
  unfold Session.pending, Session.args_of, Session.effective.
  cbn [ApduSign.buff ApduSign.buff_length]. by rewrite Hlen, Hinit.
Qed.

End baking_packet.

(** X12.  Baking build: a single last NEXT packet that parses as a block or
    an endorsement, delivered to a fresh session for a key, reaches
    [baking_sign_complete] with the magic byte, the parsed level and kind,
    and the digest of exactly the bytes of the packet in the session; the
    key, the record and the responses are unchanged on the way. *)
Theorem baking_packet_checked_and_hashed_together `{P : ApduSign.Platform}
    (ins : ApduSign.instruction_t) (a : list byte) (w : ApduSign.world)
    (d : BakingAuth.parsed_baking_data) :
  ins <> ApduSign.INS_SIGN_UNSAFE ->
  Session.kind a = ApduSign.P1_NEXT ->
  Session.last a = true ->
  Z.of_nat (length (Session.buff a)) = Session.buff_size a ->
  Session.buff_size a <= ApduSign.MAX_APDU_SIZE ->
  Session.buff_size a <= ApduSign.sizeof_message_data ->
  ApduSign.path_len (ApduSign.bip32_path (ApduSign.key (ApduSign.G w))) <> 0 ->
  ApduSign.packet_index (ApduSign.G w) = 0 ->
  Session.fresh w ->
  BakingAuth.parse_baking_data ApduSign.get_magic_byte (Session.buff a)
  = Some d ->
  exists w2,
    Session.deliver true ins a w
    = ApduSign.baking_sign_complete true
        (bool_decide (ins = ApduSign.INS_SIGN_WITH_HASH)) w2 /\
    ApduSign.magic_byte (ApduSign.G w2)
    = ApduSign.get_magic_byte (Session.buff a) /\
    ApduSign.parsed_baking_data (ApduSign.G w2) = d /\
    ApduSign.final_hash (ApduSign.G w2)
    = Session.digest_of_stream (Session.buff a) /\
    ApduSign.key (ApduSign.G w2) = ApduSign.key (ApduSign.G w) /\
    ApduSign.nvram w2 = ApduSign.nvram w /\
    ApduSign.sent w2 = ApduSign.sent w.
Proof.
  intros Hins Hk Hlast Hlen Hlc Hfit Hpath Hidx Hfresh Hd.
  assert (Hmagic :
    ApduSign.get_magic_byte (Session.buff a) = BakingAuth.MAGIC_BYTE_BLOCK \/
    ApduSign.get_magic_byte (Session.buff a) = BakingAuth.MAGIC_BYTE_BAKING_OP).
  { unfold BakingAuth.parse_baking_data in Hd.
    destruct (ApduSign.get_magic_byte (Session.buff a)); try done;
      by (left + right). }
  rewrite deliver_next by done. cbv zeta.
  destruct (Z.eqb_spec
    (ApduSign.path_len (ApduSign.bip32_path (ApduSign.key (ApduSign.G w)))) 0);
    [done|].
  rewrite Hidx. change (0 >=? 255) with false. cbv iota.
  rewrite bool_decide_eq_false_2 by done. cbn [negb when]. rewrite Hlast.
  set (w1 := ApduSign.with_G _ _).
  set (magic := ApduSign.get_magic_byte (Session.buff a)) in *.
  set (w1' :=
    ApduSign.with_G
      (ApduSign.with_parsed_baking_data d
         (ApduSign.with_magic_byte magic (ApduSign.G w1))) w1).
  assert (Hparse : ApduSign.parse_packet true (Session.buff a) w1
                   = (Ret tt, w1')).
  { unfold ApduSign.parse_packet. rewrite bind_gets.
    change (ApduSign.packet_index (ApduSign.G w1)) with (0 + 1).
    change (negb (0 + 1 =? 1)) with false. cbv iota.
    assert (Hget : ApduSign.get_magic_byte_or_throw true (Session.buff a) w1
                   = (Ret magic, w1)).
    { unfold ApduSign.get_magic_byte_or_throw. fold magic.
      by destruct Hmagic as [-> | ->]. }
    rewrite (bind_run _ _ _ _ _ Hget), bind_modify.
    rewrite bool_decide_eq_false_2 by (by destruct Hmagic as [-> | ->]).
    by rewrite Hd. }
  rewrite (bind_run _ _ _ _ _ Hparse).
  assert (Hrec : Session.received [] w1').
  { apply fresh_received. exact Hfresh. }
  rewrite <- Hlen.
  destruct (accumulate_spec [] (Session.buff a) true w1' Hrec) as [Hout Hok].
  cbv zeta in Hout, Hok.
  pose proof (accumulate_parsed_kept true (Session.buff a)
                (Z.of_nat (length (Session.buff a))) true (ApduSign.G w1')
                (ApduSign.nvram w1') (ApduSign.sent w1') w1'
                ltac:(by repeat split)) as Hkept.
  destruct (ApduSign.accumulate true (Session.buff a) _ true w1')
    as [r2 w2] eqn:Hacc.
  cbn [fst snd] in *.
  assert (Hr2 : r2 = Ret tt).
  { apply Hok. destruct Hfresh as (_ & Hl0 & _).
    change (ApduSign.message_data_length (ApduSign.G w1'))
      with (ApduSign.message_data_length (ApduSign.G w)).
    rewrite Hl0. unfold ApduSign.B2B_BLOCKBYTES. lia. }
  subst r2. destruct Hout as [|[_ Hdigest]]; [done|].
  rewrite (bind_run _ _ _ _ _ Hacc).
  destruct Hkept as (Hkey & Hm & Hpd & _ & Hnv & Hsent).
  exists w2. by repeat split.
Qed.

Lemma unsafe_session_signs_the_bytes_sent_witness :
  let w :=
    snd (Session.deliver_all (P := Sample.platform) false
           ApduSign.INS_SIGN_UNSAFE [Sample.first_packet] Sample.world0) in
  let apdus := [Sample.apdu 0x01 0 [3; 1; 2]] in
  let a := Sample.apdu 0x81 0 [4; 5] in
  let w1 :=
    snd (Session.deliver_all (P := Sample.platform) false
           ApduSign.INS_SIGN_UNSAFE apdus w) in
  let r :=
    Session.deliver (P := Sample.platform) false ApduSign.INS_SIGN_UNSAFE a
      w1 in
  signed_data (P := Sample.platform) false (ApduSign.G (snd r))
  = concat (map Session.buff (apdus ++ [a])).
Proof.
  intros w apdus a w1 r.
  refine (proj1 (proj2 (unsafe_session_signs_the_bytes_sent
                          (P := Sample.platform) apdus a w _ _ _ _))).
  - split; [split|]; vm_compute; first [reflexivity | by split].
  - cbn [app]. repeat constructor; vm_compute; reflexivity.
  - vm_compute. repeat constructor.
  - vm_compute; reflexivity.
Defined.

Lemma baking_packet_checked_and_hashed_together_witness :
  let w :=
    snd (Session.deliver_all (P := Sample.platform) true ApduSign.INS_SIGN
           [Sample.first_packet] Sample.world0) in
  let a := Sample.apdu 0x81 0 (Sample.block_at 101) in
  exists w2,
    Session.deliver (P := Sample.platform) true ApduSign.INS_SIGN a w
    = ApduSign.baking_sign_complete (P := Sample.platform) true
        (bool_decide (ApduSign.INS_SIGN = ApduSign.INS_SIGN_WITH_HASH)) w2 /\
    ApduSign.magic_byte (ApduSign.G w2)
    = ApduSign.get_magic_byte (Platform := Sample.platform) (Session.buff a) /\
    ApduSign.parsed_baking_data (ApduSign.G w2)
    = {| BakingAuth.is_endorsement := false; BakingAuth.level := 101 |} /\
    ApduSign.final_hash (ApduSign.G w2)
    = Session.digest_of_stream (P := Sample.platform) (Session.buff a) /\
    ApduSign.key (ApduSign.G w2) = ApduSign.key (ApduSign.G w) /\
    ApduSign.nvram w2 = ApduSign.nvram w /\
    ApduSign.sent w2 = ApduSign.sent w.
Proof.
  intros w a.
  refine (baking_packet_checked_and_hashed_together (P := Sample.platform)
            ApduSign.INS_SIGN a w
            {| BakingAuth.is_endorsement := false; BakingAuth.level := 101 |}
            _ _ _ _ _ _ _ _ _ _).
  - discriminate.
  - vm_compute; reflexivity.
  - vm_compute; reflexivity.
  - vm_compute; reflexivity.
  - vm_compute; discriminate.
  - vm_compute; discriminate.
  - vm_compute; discriminate.
  - vm_compute; reflexivity.
  - split; [split|split]; vm_compute; first [reflexivity | by split].
  - vm_compute; reflexivity.
Defined.

(** X10.  In the wallet build no packet changes the non-volatile record or
    has a response sent from the handler, and the only normal return of the
    handler is that of [finalize_successful_send] at offset 0: the length 2,
    with the bytes 0x90 and 0x00 of the success status at the start of the
    APDU buffer, written as [perform_signature] of [main.c] writes them.  A
    signature only comes from a confirmation callback. *)
Theorem wallet_packet_never_signs `{P : ApduSign.Platform}
    (ins : ApduSign.instruction_t) (a : list byte) (w : ApduSign.world) :
  let r := Session.deliver false ins a w in
  ApduSign.nvram (snd r) = ApduSign.nvram w /\
  ApduSign.sent (snd r) = ApduSign.sent w /\
  match fst r with
  | Ret tx =>
      (exists w0, ApduSign.finalize_successful_send 0 w0 = r) /\
      tx = 2 /\ take 2 (ApduSign.G_io_apdu_buffer (snd r)) = [0x90; 0x00]
  | Throw _ => True
  end.
Proof.
  intros r. subst r. unfold Session.deliver. rewrite bind_modify.
  set (w0 := ApduSign.with_G_io_apdu_buffer a w).
  pose proof (wallet_handle_apdu_untouched ins (ApduSign.nvram w)
                (ApduSign.sent w) w0 (conj eq_refl eq_refl)) as [Hnv Hsent].
  split; [exact Hnv|]. split; [exact Hsent|].
  destruct (ApduSign.handle_apdu false ins w0) as [[tx|e] w1] eqn:Hrun;
    [|done].
  exact (wallet_handle_apdu_returns ins _ _ _ Hrun).
Qed.

(** X15.  [wallet_sign_complete] never returns and touches neither the
    record nor the responses: it calls [ui_prompt] with the accepting
    callback of the instruction and [sign_reject], or throws the parse
    error. [INS_SIGN_UNSAFE] gets the pre-hashed prompt.  Otherwise the
    unsafe formats 2 and 3, an operation that did not parse and an
    origination that is not spendable get the prompt of the bare hash, an
    operation that can be displayed gets a prompt of its own, and a reveal,
    an unknown tag and every other magic byte get the parse error. *)
Theorem wallet_sign_complete_outcome `{P : ApduSign.Platform}
    (ins : ApduSign.instruction_t) (w : ApduSign.world) :
  let g := ApduSign.G w in
  let op := ApduSign.operation (ApduSign.v (ApduSign.maybe_ops g)) in
  let r := ApduSign.wallet_sign_complete ins w in
  let shown := prompted (ok_callback ins) ApduSign.sign_reject in
  ApduSign.nvram (snd r) = ApduSign.nvram w /\
  ApduSign.sent (snd r) = ApduSign.sent w /\
  is_ret (fst r) = false /\
  if bool_decide (ins = ApduSign.INS_SIGN_UNSAFE)
  then shown (eq ["Pre-hashed"; "Sign Hash"]%string) r
  else
    match ApduSign.magic_byte g with
    | BakingAuth.MAGIC_BYTE_UNSAFE_OP2
    | BakingAuth.MAGIC_BYTE_UNSAFE_OP3 => shown (eq hash_labels) r
    | BakingAuth.MAGIC_BYTE_UNSAFE_OP =>
        if negb (ApduSign.is_valid (ApduSign.maybe_ops g))
        then shown (eq hash_labels) r
        else
          match ApduSign.tag op with
          | ApduSign.OPERATION_TAG_NONE
          | ApduSign.OPERATION_TAG_PROPOSAL
          | ApduSign.OPERATION_TAG_BALLOT
          | ApduSign.OPERATION_TAG_ATHENS_TRANSACTION
          | ApduSign.OPERATION_TAG_BABYLON_TRANSACTION
          | ApduSign.OPERATION_TAG_ATHENS_DELEGATION
          | ApduSign.OPERATION_TAG_BABYLON_DELEGATION =>
              shown (fun l => l <> hash_labels) r
          | ApduSign.OPERATION_TAG_ATHENS_ORIGINATION
          | ApduSign.OPERATION_TAG_BABYLON_ORIGINATION =>
              if Z.land (ApduSign.flags op) ApduSign.ORIGINATION_FLAG_SPENDABLE
                 =? 0
              then shown (eq hash_labels) r
              else shown (fun l => l <> hash_labels) r
          | ApduSign.OPERATION_TAG_ATHENS_REVEAL
          | ApduSign.OPERATION_TAG_BABYLON_REVEAL
          | ApduSign.OPERATION_TAG_other _ => fst r = Throw EXC_PARSE_ERROR
          end
    | _ => fst r = Throw EXC_PARSE_ERROR
    end.
Proof.
  intros g op r shown.
  pose proof (wallet_sign_complete_untouched ins (ApduSign.nvram w)
                (ApduSign.sent w) w (conj eq_refl eq_refl)) as [Hnv Hsent].
  split; [exact Hnv|]. split; [exact Hsent|]. split.
  - subst r.
    destruct (ApduSign.wallet_sign_complete ins w) as [[tx|e] w1] eqn:Hrun;
      [|done].
    destruct (wallet_sign_complete_throws ins _ _ _ Hrun).
  - exact (wallet_sign_complete_spec ins w).
Qed.

(** X16.  [prompt_transaction] changes neither the record, the responses nor
    the session.  For a proposal, a ballot, a transaction, a delegation and
    the tag [OPERATION_TAG_NONE] it calls [ui_prompt] with the callbacks
    given and labels that are not those of the bare-hash prompt; for an
    origination it returns false without a prompt when the spendable flag is
    clear, and prompts otherwise; for the two reveal tags, which
    [is_operation_allowed] accepts, and for an unknown tag it throws the
    parse error and changes nothing. *)
Theorem prompt_transaction_outcome `{P : ApduSign.Platform}
    (ops : ApduSign.parsed_operation_group)
    (ok cxl : ApduSign.ui_callback_t) (w : ApduSign.world) :
  let op := ApduSign.operation ops in
  let r := ApduSign.prompt_transaction ops ok cxl w in
  ApduSign.nvram (snd r) = ApduSign.nvram w /\
  ApduSign.sent (snd r) = ApduSign.sent w /\
  ApduSign.G (snd r) = ApduSign.G w /\
  match ApduSign.tag op with
  | ApduSign.OPERATION_TAG_NONE
  | ApduSign.OPERATION_TAG_PROPOSAL
  | ApduSign.OPERATION_TAG_BALLOT
  | ApduSign.OPERATION_TAG_ATHENS_TRANSACTION
  | ApduSign.OPERATION_TAG_BABYLON_TRANSACTION
  | ApduSign.OPERATION_TAG_ATHENS_DELEGATION
  | ApduSign.OPERATION_TAG_BABYLON_DELEGATION =>
      prompted ok cxl (fun l => l <> hash_labels) r
  | ApduSign.OPERATION_TAG_ATHENS_ORIGINATION
  | ApduSign.OPERATION_TAG_BABYLON_ORIGINATION =>
      if Z.land (ApduSign.flags op) ApduSign.ORIGINATION_FLAG_SPENDABLE =? 0
      then fst r = Ret false /\ ApduSign.ui (snd r) = ApduSign.ui w
      else prompted ok cxl (fun l => l <> hash_labels) r
  | ApduSign.OPERATION_TAG_ATHENS_REVEAL
  | ApduSign.OPERATION_TAG_BABYLON_REVEAL
  | ApduSign.OPERATION_TAG_other _ => r = (Throw EXC_PARSE_ERROR, w)
  end.
Proof.
  intros op r.
  pose proof (prompt_transaction_untouched ops ok cxl (ApduSign.nvram w)
                (ApduSign.sent w) (ApduSign.G w) w
                (conj (conj eq_refl eq_refl) eq_refl)) as [[Hnv Hsent] HG].
  split; [exact Hnv|]. split; [exact Hsent|]. split; [exact HG|].
  exact (prompt_transaction_spec ops ok cxl w).
Qed.

(** ** The command loop of [src/main.c] *)

Lemma all_from_spec (f : Z -> bool) (n : nat) :
  forall start, all_from f n start = true ->
  forall x, start <= x < start + Z.of_nat n -> f x = true.
Proof.
  induction n as [|n IH]; intros start Hall x Hx; [lia|].
  cbn [all_from] in Hall. apply andb_true_iff in Hall as [Hs Hall].
  destruct (Z.eq_dec x start) as [->|Hne]; [done|].
  apply (IH (start + 1) Hall). lia.
Qed.

Lemma status_word_checked :
  all_from status_word_ok (Z.to_nat 65536) 0 = true.
Proof. vm_compute. reflexivity. Qed.

Lemma land_mod_16 (e m : Z) :
  Z.land (Z.ones 16) m = m -> Z.land (e mod 2 ^ 16) m = Z.land e m.
Proof.
  intros Hm. rewrite <- Z.land_ones by lia.
  by rewrite <- Z.land_assoc, Hm.
Qed.

(** The status word only depends on the low 16 bits of the exception. *)
Lemma status_word_mod (e : Z) :
  MainLoop.status_word (e mod 2 ^ 16) = MainLoop.status_word e.
Proof.
  unfold MainLoop.status_word. cbv zeta.
  rewrite !land_mod_16 by reflexivity. by rewrite Z.mod_mod by lia.
Qed.


Section throws_in_facts.

Context {W : Type}.

Lemma throws_in_preserves {A} (I : W -> Prop) (m : M W A) :
  preserves I m -> throws_in I m.
Proof. intros Hm w e w' Hw Hrun. specialize (Hm w Hw). by rewrite Hrun in Hm. Qed.

Lemma throws_in_never {A} (I : W -> Prop) (m : M W A) :
  throws_only (fun _ => False) m -> throws_in I m.
Proof. intros Hm w e w' _ Hrun. destruct (Hm _ _ _ Hrun). Qed.

Lemma throws_in_bind {A B} (I : W -> Prop) (m : M W A) (k : A -> M W B) :
  preserves I m -> (forall a, throws_in I (k a)) -> throws_in I (bind m k).
Proof.
  intros Hm Hk w e w' Hw Hrun. specialize (Hm w Hw). unfold bind in Hrun.
  destruct (m w) as [[a|e1] w1]; cbn [snd] in Hm.
  - exact (Hk a w1 e w' Hm Hrun).
  - by injection Hrun as _ <-.
Qed.

Lemma throws_in_bind_last {A B} (I : W -> Prop) (m : M W A)
    (k : A -> M W B) :
  throws_in I m -> (forall a, throws_only (fun _ => False) (k a)) ->
  throws_in I (bind m k).
Proof.
  intros Hm Hk w e w' Hw Hrun. unfold bind in Hrun.
  destruct (m w) as [[a|e1] w1] eqn:Hmw.
  - destruct (Hk _ _ _ _ Hrun).
  - injection Hrun as <- <-. exact (Hm w e1 w1 Hw Hmw).
Qed.

End throws_in_facts.

Section main_loop_frames.

Context `{P : Main.Platform} `{D : MainLoop.Device}.

Lemma on_signing_frame {A} (I : MainLoop.world -> Prop)
    (m : M Main.world A) :
  (forall w s, I w -> I (MainLoop.with_signing s w)) ->
  preserves I (MainLoop.on_signing m).
Proof.
  intros H w Hw. unfold MainLoop.on_signing, zoom.
  destruct (m (MainLoop.signing w)). by apply H.
Qed.

(** What [m] does to the signing globals, under [on_signing]. *)
Lemma on_signing_zoom {A} (I : MainLoop.world -> Prop)
    (J : Main.world -> Prop) (m : M Main.world A) :
  preserves J m ->
  (forall w, I w -> J (MainLoop.signing w)) ->
  (forall w s, I w -> J s -> I (MainLoop.with_signing s w)) ->
  preserves I (MainLoop.on_signing m).
Proof.
  intros Hm Hget Hset w Hw. unfold MainLoop.on_signing, zoom.
  specialize (Hm _ (Hget w Hw)).
  destruct (m (MainLoop.signing w)). by apply Hset.
Qed.

Lemma main_on_nvram_frame {A} (I : Main.world -> Prop)
    (m : M BakingAuth.nvram_world A) :
  (forall w n, I w -> I (Main.with_nvram n w)) ->
  preserves I (Main.on_nvram m).
Proof.
  intros H w Hw. unfold Main.on_nvram, zoom.
  destruct (m (Main.nvram w)). by apply H.
Qed.

End main_loop_frames.

Ltac main_frame_step :=
  first
    [ preserves_step
    | apply on_signing_frame; intros ? ?
    | apply main_on_nvram_frame; intros ? ? ].

Ltac unfold_main_loop :=
  unfold MainLoop.ins_get_public_key, MainLoop.ins_reset, MainLoop.ins_sign,
    MainLoop.call_callback, MainLoop.call_sign_callback,
    MainLoop.address_ok_fn, MainLoop.address_cancel_fn,
    MainLoop.reset_ok_fn, MainLoop.reset_cancel_fn, MainLoop.sign_ok_fn,
    MainLoop.sign_cancel_fn, MainLoop.bake_ok_fn,
    MainLoop.catch_other, MainLoop.provide_address, MainLoop.delay_reject,
    MainLoop.UI_PROMPT, MainLoop.io_exchange_return_after_tx.

(** A step of a proof of [throws_in]: the prefix keeps the property, or
    nothing throws from here on, or the computation branches. *)
Ltac throws_in_step :=
  first
    [ apply throws_in_preserves; solve [repeat main_frame_step; done]
    | apply throws_in_never; unfold MainLoop.on_signing, Main.on_nvram;
        solve [repeat throws_step]
    | apply throws_in_bind;
        [solve [repeat main_frame_step; done]|intros ?]
    | lazymatch goal with
      | |- throws_in _ (if ?b then _ else _) => destruct b
      | |- throws_in _ (match ?x with _ => _ end) => destruct x
      | |- throws_in _ (let (_, _) := ?x in _) => destruct x
      | |- throws_in _ (bind (if ?b then _ else _) _) => destruct b
      | |- throws_in _ (bind (match ?x with _ => _ end) _) => destruct x
      | |- throws_in _ (bind (let (_, _) := ?x in _) _) => destruct x
      end ].

Section error_reply.

Context `{P : Main.Platform} `{D : MainLoop.Device}.

Lemma perform_signature_throws_in (I : Main.world -> Prop) tx :
  (forall w n, I w -> I (Main.with_nvram n w)) ->
  (forall w c, I w -> I (Main.with_operationContext c w)) ->
  throws_in I (Main.perform_signature tx).
Proof.
  intros Hnv Hc.
  unfold Main.perform_signature, Main.store_apdu, BakingAuth.emit.
  cbv zeta.
  repeat first
    [ apply throws_in_bind;
        [solve [repeat main_frame_step; auto]|intros ?]
    | apply throws_in_never; unfold Main.on_nvram; solve [repeat throws_step]
    | apply throws_in_preserves; solve [repeat main_frame_step; auto]
    | lazymatch goal with
      | |- throws_in _ (bind (match ?x with _ => _ end) _) => destruct x
      | |- throws_in _ (bind (let (_, _) := ?x in _) _) => destruct x
      end ].
Qed.

Lemma main_ins_sign_throws_in (I : Main.world -> Prop) tx flags :
  (forall w n, I w -> I (Main.with_nvram n w)) ->
  (forall w c, I w -> I (Main.with_operationContext c w)) ->
  (forall w s, I w -> I (Main.with_keyPath s w)) ->
  (forall w u, I w -> I (Main.with_ui u w)) ->
  throws_in I (Main.ins_sign tx flags).
Proof.
  intros Hnv Hc Hk Hu.
  unfold Main.ins_sign, Main.return_ok, Main.UI_PROMPT. cbv zeta.
  repeat first
    [ apply throws_in_bind;
        [solve [repeat main_frame_step; auto]|intros ?]
    | apply throws_in_never; solve [repeat throws_step]
    | apply throws_in_preserves; solve [repeat main_frame_step; auto]
    | apply throws_in_bind_last;
        [by apply perform_signature_throws_in
        |intros ?; solve [repeat throws_step]]
    | lazymatch goal with
      | |- throws_in _ (if ?b then _ else _) => destruct b
      | |- throws_in _ (match ?x with _ => _ end) => destruct x
      | |- throws_in _ (let (_, _) := ?x in _) => destruct x
      end ].
Qed.

Lemma on_signing_throws_in {A} (io : list byte) (m : M Main.world A) :
  throws_in (fun s => Main.G_io_apdu_buffer s = io) m ->
  throws_in (dispatching io) (MainLoop.on_signing m).
Proof.
  intros Hm w e w' (Htx & Hfl & Hio) Hrun.
  unfold MainLoop.on_signing, zoom in Hrun.
  destruct (m (MainLoop.signing w)) as [r s] eqn:Hms.
  injection Hrun as -> <-.
  repeat split; [done|done|]. by eapply Hm.
Qed.

Lemma dispatch_throws_in (io : list byte) :
  throws_in (dispatching io)
    (let ins := Main.load8 io MainLoop.OFFSET_INS in
     if ins =? MainLoop.INS_GET_PUBLIC_KEY
     then MainLoop.ins_get_public_key ;; ret MainLoop.Continue
     else if ins =? MainLoop.INS_RESET
     then MainLoop.ins_reset ;; ret MainLoop.Continue
     else if ins =? MainLoop.INS_SIGN
     then MainLoop.ins_sign ;; ret MainLoop.Continue
     else if ins =? 0xFF then ret MainLoop.Exit
     else throw (EXC_raw 0x6D00)).
Proof.
  cbv zeta.
  destruct (_ =? MainLoop.INS_GET_PUBLIC_KEY).
  { apply throws_in_bind_last; [|intros ?; repeat throws_step].
    unfold_main_loop. unfold Main.store_apdu. cbv zeta.
    repeat throws_in_step. }
  destruct (_ =? MainLoop.INS_RESET).
  { apply throws_in_bind_last; [|intros ?; repeat throws_step].
    unfold_main_loop. cbv zeta. repeat throws_in_step. }
  destruct (_ =? MainLoop.INS_SIGN).
  { apply throws_in_bind_last; [|intros ?; repeat throws_step].
    unfold MainLoop.ins_sign.
    apply throws_in_bind; [by repeat main_frame_step|intros tx0].
    apply throws_in_bind; [by repeat main_frame_step|intros flags0].
    apply throws_in_bind_last; [|intros ?; repeat throws_step].
    apply on_signing_throws_in. by apply main_ins_sign_throws_in. }
  destruct (_ =? 0xFF); repeat throws_in_step.
Qed.

Lemma try_block_received (io : list byte) (rx : Z) (w : MainLoop.world) :
  MainLoop.try_block io (Ret rx) w =
  (if rx =? 0 then throw (EXC_raw 0x6982)
   else if negb (Main.load8 io MainLoop.OFFSET_CLA =? MainLoop.CLA)
   then throw (EXC_raw 0x6E00)
   else
     let ins := Main.load8 io MainLoop.OFFSET_INS in
     if ins =? MainLoop.INS_GET_PUBLIC_KEY
     then MainLoop.ins_get_public_key ;; ret MainLoop.Continue
     else if ins =? MainLoop.INS_RESET
     then MainLoop.ins_reset ;; ret MainLoop.Continue
     else if ins =? MainLoop.INS_SIGN
     then MainLoop.ins_sign ;; ret MainLoop.Continue
     else if ins =? 0xFF then ret MainLoop.Exit
     else throw (EXC_raw 0x6D00)) (command_received io w).
Proof. reflexivity. Qed.

Lemma command_received_dispatching (io : list byte) (w : MainLoop.world) :
  dispatching io (command_received io w).
Proof. by repeat split. Qed.

Lemma try_block_exchange_failed (io : list byte) (e : exception)
    (w : MainLoop.world) :
  MainLoop.try_block io (Throw e) w = (Throw e, exchange_failed io w).
Proof. reflexivity. Qed.

(** Wherever the [TRY] block throws after [io_exchange] has returned,
    [tx] and [flags] are 0 and the command is still in the buffer. *)
Lemma try_block_throws_in (io : list byte) (rx : Z) (w : MainLoop.world)
    (e : exception) (w1 : MainLoop.world) :
  MainLoop.try_block io (Ret rx) w = (Throw e, w1) -> dispatching io w1.
Proof.
  rewrite try_block_received. intros Hrun.
  pose proof (command_received_dispatching io w) as Hd.
  destruct (rx =? 0); [by injection Hrun as _ <-|].
  destruct (negb _); [by injection Hrun as _ <-|].
  by eapply dispatch_throws_in.
Qed.

Lemma catch_other_run (e : Z) (w : MainLoop.world) :
  MainLoop.tx w = 0 ->
  MainLoop.catch_other e w =
  (Ret tt,
   status_reply (MainLoop.status_word e) (MainLoop.G_io_apdu_buffer w) w).
Proof.
  intros Htx. unfold MainLoop.catch_other. cbv zeta.
  rewrite bind_gets, Htx. reflexivity.
Qed.

End error_reply.

(** X21.  Whenever the [TRY] block of [sample_main] throws, the reply is the
    two bytes of the status word, written at offset 0 over what
    [io_exchange] left in the buffer; [tx] is 2 and the catch block changes
    nothing else. When [io_exchange] had returned, [flags] is 0.  When it is
    [io_exchange] that throws, the exception is its own and [flags] has not
    been reset: only [tx] and the buffer have changed. *)
Theorem error_reply_is_status_word `{P : Main.Platform}
    `{D : MainLoop.Device} (io : list byte) (x : result Z)
    (w : MainLoop.world) (e : exception) (w1 : MainLoop.world) :
  MainLoop.try_block io x w = (Throw e, w1) ->
  let sw := MainLoop.status_word (MainLoop.exception_code e) in
  MainLoop.sample_main_iteration io x w
  = (MainLoop.Continue, status_reply sw io w1) /\
  match x with
  | Ret _ => MainLoop.flags w1 = 0
  | Throw e' => e = e' /\ w1 = exchange_failed io w
  end /\
  (0x6000 <= sw < 0x7000 \/ 0x9000 <= sw < 0xA000) /\
  Z.shiftr sw 8 mod 256 * 256 + sw mod 256 = sw.
Proof.
  intros Hrun sw.
  assert (Hthrow : MainLoop.tx w1 = 0 /\ MainLoop.G_io_apdu_buffer w1 = io /\
                   match x with
                   | Ret _ => MainLoop.flags w1 = 0
                   | Throw e' => e = e' /\ w1 = exchange_failed io w
                   end).
  { destruct x as [rx|e'].
    - by destruct (try_block_throws_in _ _ _ _ _ Hrun) as (Htx & Hfl & Hio).
    - rewrite try_block_exchange_failed in Hrun.
      injection Hrun as <- <-. by repeat split. }
  destruct Hthrow as (Htx & Hio & Hfl).
  unfold MainLoop.sample_main_iteration. rewrite Hrun.
  rewrite catch_other_run by done. cbn [snd]. rewrite Hio.
  split; [reflexivity|]. split; [exact Hfl|].
  pose proof (status_word_mod (MainLoop.exception_code e)) as Hmod.
  assert (Hrange : 0 <= MainLoop.exception_code e mod 2 ^ 16
                   < 0 + Z.of_nat (Z.to_nat 65536)).
  { pose proof (Z.mod_pos_bound (MainLoop.exception_code e) (2 ^ 16)). lia. }
  pose proof (all_from_spec _ _ _ status_word_checked _ Hrange) as Hok.
  unfold status_word_ok in Hok. cbv zeta in Hok.
  rewrite Hmod in Hok. fold sw in Hok.
  apply andb_true_iff in Hok as [Hok _].
  apply andb_true_iff in Hok as [Hok Hbytes].
  apply andb_true_iff in Hok as [Hcls _].
  apply Z.eqb_eq in Hbytes. split; [|exact Hbytes].
  apply orb_true_iff in Hcls as [H|H];
    apply andb_true_iff in H as [H1 H2]; [left|right]; lia.
Qed.

Section address.

Context `{P : Main.Platform} `{D : MainLoop.Device}.

Lemma provide_address_run (tx : Z) (w : MainLoop.world) :
  let c := Main.curve (MainLoop.operationContext w) in
  let pk := MainLoop.publicKey w in
  MainLoop.provide_address tx w =
  (Ret (tx + 1 + key_length c pk + 2),
   MainLoop.with_signing
     (Main.with_G_io_apdu_buffer
        (memmove_at
           (memmove_at
              (memmove_at (MainLoop.G_io_apdu_buffer w) tx
                 [key_length c pk mod 256])
              (tx + 1) (key_bytes c pk))
           (tx + 1 + key_length c pk) [0x90; 0x00])
        (MainLoop.signing w))
     (MainLoop.with_publicKey (sent_key c pk) w)).
Proof.
  cbv zeta. unfold MainLoop.provide_address. rewrite bind_gets.
  destruct w as [s pk en u snt t fl].
  unfold MainLoop.operationContext. cbn [MainLoop.signing MainLoop.publicKey].
  by destruct (Main.curve (Main.operationContext s)).
Qed.

End address.

Section address_runs.

Context `{P : Main.Platform} `{D : MainLoop.Device}.

Lemma address_reply_bytes (io : list byte) (c : cx_curve_t)
    (pk : MainLoop.cx_ecfp_public_key_t) :
  Z.of_nat (length (key_bytes c pk)) = key_length c pk ->
  key_length c pk + 3 <= Z.of_nat (length io) ->
  take (Z.to_nat (0 + 1 + key_length c pk + 2))
    (memmove_at
       (memmove_at (memmove_at io 0 [key_length c pk mod 256])
          (0 + 1) (key_bytes c pk))
       (0 + 1 + key_length c pk) [0x90; 0x00])
  = address_reply c pk.
Proof.
  intros Hlen Hfit. unfold address_reply. rewrite <- Hlen in *.
  change (0 + 1) with (Z.of_nat 1).
  pose proof (response_bytes io [Z.of_nat (length (key_bytes c pk)) mod 256]
                (key_bytes c pk)) as Hr.
  cbv zeta in Hr. cbn [length] in Hr. apply Hr. lia.
Qed.

Lemma ins_get_public_key_run (w : MainLoop.world) :
  let io := MainLoop.G_io_apdu_buffer w in
  Main.load8 io Main.OFFSET_P1 = 0 ->
  Main.load8 io Main.OFFSET_P2 <= 2 ->
  MainLoop.ins_get_public_key w =
  (if MainLoop.address_enabled w
   then
     tx1 <- MainLoop.provide_address (MainLoop.tx w) ;;
     modify (MainLoop.with_tx tx1)
   else
     MainLoop.UI_PROMPT MainLoop.ui_address_screen MainLoop.address_ok
       MainLoop.address_cancel ;;
     modify (fun w =>
       MainLoop.with_flags (Z.lor (MainLoop.flags w) Main.IO_ASYNCH_REPLY) w))
    (key_derived w).
Proof.
  intros io Hp1 Hp2. unfold MainLoop.ins_get_public_key.
  rewrite bind_gets. fold io. cbv zeta. rewrite Hp1.
  change (negb (0 =? 0)) with false. cbv iota.
  destruct (Z.gtb_spec (Main.load8 io Main.OFFSET_P2) 2) as [|_]; [lia|].
  unfold key_derived. fold io. cbv zeta.
  destruct (Main.read_bip32_path (drop Main.OFFSET_CDATA io)) as [n path].
  destruct w as [s pk en u snt t fl]. by destruct en.
Qed.

(** One prompt is pending, the one raised last: a prompt of the loop
    replaces the prompt of a signing screen, and the other way round. *)
Lemma loop_prompt_pending (screen : MainLoop.screen_t)
    (ok cancel : MainLoop.callback_t) (w : MainLoop.world) :
  let w' := snd (MainLoop.UI_PROMPT screen ok cancel w) in
  MainLoop.prompt w' = Some (MainLoop.loop_prompt (screen, ok, cancel)) /\
  Main.ui (MainLoop.signing w') = None.
Proof. by split. Qed.

Lemma signing_prompt_pending (screen : Main.screen_t)
    (ok cancel : Main.callback_t) (w : MainLoop.world) :
  MainLoop.prompt
    (snd (MainLoop.on_signing (Main.UI_PROMPT screen ok cancel) w))
  = Some (MainLoop.signing_prompt (screen, ok, cancel)).
Proof. reflexivity. Qed.

End address_runs.

(** X23.  [address_ok] sets [address_enabled] and sends the length byte, the
    public key and the status 0x9000: [W_len] bytes of the key, or the 33
    bytes of the compressed point on Ed25519.  This is for a key that has so
    many bytes and a reply that fits the buffer; the prompt, the signing
    fields of [operationContext] and the record are unchanged. *)
Theorem approved_address_response `{D : MainLoop.Device}
    (w : MainLoop.world) :
  let c := Main.curve (MainLoop.operationContext w) in
  let pk := MainLoop.publicKey w in
  Z.of_nat (length (key_bytes c pk)) = key_length c pk ->
  key_length c pk + 3 <= Z.of_nat (length (MainLoop.G_io_apdu_buffer w)) ->
  exists w',
    MainLoop.call_callback MainLoop.address_ok w = (Ret tt, w') /\
    MainLoop.address_enabled w' = true /\
    MainLoop.sent w' = MainLoop.sent w ++ [address_reply c pk] /\
    MainLoop.ui w' = MainLoop.ui w /\
    MainLoop.operationContext w' = MainLoop.operationContext w /\
    Main.nvram (MainLoop.signing w') = Main.nvram (MainLoop.signing w).
Proof.
  intros c pk Hlen Hfit.
  unfold MainLoop.call_callback, MainLoop.address_ok_fn.
  rewrite bind_modify.
  rewrite (bind_run _ _ _ _ _ (provide_address_run 0 _)).
  unfold MainLoop.io_exchange_return_after_tx, modify.
  eexists. split; [reflexivity|].
  split; [reflexivity|]. split; [|by repeat split].
  cbn [MainLoop.sent MainLoop.with_sent MainLoop.with_signing
       MainLoop.with_publicKey MainLoop.with_address_enabled
       MainLoop.G_io_apdu_buffer MainLoop.signing MainLoop.publicKey
       MainLoop.operationContext Main.G_io_apdu_buffer
       Main.with_G_io_apdu_buffer Main.operationContext].
  do 2 f_equal. by apply address_reply_bytes.
Qed.

(** X24.  A well-formed [INS_GET_PUBLIC_KEY] replaces the path of
    [operationContext] by the one of the command and keeps the bytes
    collected for signing and their count; the handler sends nothing and
    leaves the record alone.  While [address_enabled] is clear, the address
    prompt is raised with [address_ok] and [address_cancel] and the reply is
    deferred: it replaces the prompt that was pending, a signing prompt too.
    Once [address_enabled] is set, the key is returned at once and the
    prompt that was pending stays. *)
Theorem get_public_key_reply `{P : Main.Platform} `{D : MainLoop.Device}
    (io : list byte) (rx : Z) (w : MainLoop.world) :
  rx <> 0 ->
  Main.load8 io MainLoop.OFFSET_CLA = MainLoop.CLA ->
  Main.load8 io MainLoop.OFFSET_INS = MainLoop.INS_GET_PUBLIC_KEY ->
  Main.load8 io Main.OFFSET_P1 = 0 ->
  Main.load8 io Main.OFFSET_P2 <= 2 ->
  let w1 := key_derived (command_received io w) in
  let c := Main.curve (MainLoop.operationContext w1) in
  let pk := MainLoop.publicKey w1 in
  let r := MainLoop.sample_main_iteration io (Ret rx) w in
  fst r = MainLoop.Continue /\
  MainLoop.sent (snd r) = MainLoop.sent w /\
  Main.nvram (MainLoop.signing (snd r)) = Main.nvram (MainLoop.signing w) /\
  Main.data (MainLoop.operationContext (snd r))
  = Main.data (MainLoop.operationContext w) /\
  Main.datalen (MainLoop.operationContext (snd r))
  = Main.datalen (MainLoop.operationContext w) /\
  (Main.path_length (MainLoop.operationContext (snd r)),
   Main.bip32_path (MainLoop.operationContext (snd r)))
  = Main.read_bip32_path (drop Main.OFFSET_CDATA io) /\
  (MainLoop.address_enabled w = false ->
   snd r =
   MainLoop.with_flags (Z.lor 0 Main.IO_ASYNCH_REPLY)
     (MainLoop.with_ui
        (Some (MainLoop.ui_address_screen, MainLoop.address_ok,
               MainLoop.address_cancel))
        (MainLoop.with_signing (Main.with_ui None (MainLoop.signing w1))
           w1)) /\
   MainLoop.prompt (snd r)
   = Some (MainLoop.loop_prompt
             (MainLoop.ui_address_screen, MainLoop.address_ok,
              MainLoop.address_cancel)) /\
   Main.ui (MainLoop.signing (snd r)) = None) /\
  (MainLoop.address_enabled w = true ->
   MainLoop.prompt (snd r) = MainLoop.prompt w /\
   Main.ui (MainLoop.signing (snd r)) = Main.ui (MainLoop.signing w) /\
   MainLoop.ui (snd r) = MainLoop.ui w /\
   MainLoop.flags (snd r) = 0 /\
   MainLoop.tx (snd r) = key_length c pk + 3 /\
   (Z.of_nat (length (key_bytes c pk)) = key_length c pk ->
    key_length c pk + 3 <= Z.of_nat (length io) ->
    take (Z.to_nat (MainLoop.tx (snd r))) (MainLoop.G_io_apdu_buffer (snd r))
    = address_reply c pk)).
Proof.
  intros Hrx Hcla Hins Hp1 Hp2 w1 c pk r.
  assert (Hdata : Main.data (MainLoop.operationContext w1)
                  = Main.data (MainLoop.operationContext w) /\
                  Main.datalen (MainLoop.operationContext w1)
                  = Main.datalen (MainLoop.operationContext w) /\
                  (Main.path_length (MainLoop.operationContext w1),
                   Main.bip32_path (MainLoop.operationContext w1))
                  = Main.read_bip32_path (drop Main.OFFSET_CDATA io)).
  { subst w1. unfold key_derived. cbv zeta.
    change (MainLoop.G_io_apdu_buffer (command_received io w)) with io.
    change (MainLoop.operationContext (command_received io w))
      with (MainLoop.operationContext w).
    destruct (Main.read_bip32_path (drop Main.OFFSET_CDATA io)) as [n path].
    by destruct (Main.load8 io Main.OFFSET_P2) as [|[[]|[]|]|]. }
  destruct Hdata as (Hdata & Hdatalen & Hpath).
  assert (Hrun : MainLoop.try_block io (Ret rx) w =
    (bind MainLoop.ins_get_public_key (fun _ => ret MainLoop.Continue))
      (command_received io w)).
  { rewrite try_block_received.
    destruct (Z.eqb_spec rx 0); [done|]. rewrite Hcla, Hins. reflexivity. }
  assert (Hkey : MainLoop.ins_get_public_key (command_received io w) = _)
    by (by apply ins_get_public_key_run).
  change (MainLoop.address_enabled (command_received io w))
    with (MainLoop.address_enabled w) in Hkey.
  fold w1 in Hkey.
  subst r. unfold MainLoop.sample_main_iteration. rewrite Hrun.
  destruct (MainLoop.address_enabled w) eqn:Hen.
  - rewrite (bind_run _ _ _ _ _ (provide_address_run _ _)) in Hkey.
    fold c pk in Hkey. unfold modify in Hkey.
    rewrite (bind_run _ _ _ _ _ Hkey). cbn [ret fst snd].
    do 3 (split; [done|]). do 3 (split; [done|]). split; [done|]. intros _.
    do 4 (split; [done|]).
    split.
    { cbn [MainLoop.tx MainLoop.with_tx].
      change (MainLoop.tx (command_received io w)) with 0. lia. }
    intros Hlen Hfit.
    cbn [MainLoop.tx MainLoop.with_tx MainLoop.with_signing
         MainLoop.with_publicKey MainLoop.G_io_apdu_buffer MainLoop.signing
         Main.G_io_apdu_buffer Main.with_G_io_apdu_buffer].
    change (MainLoop.tx (command_received io w)) with 0.
    apply address_reply_bytes; [done|].
    change (Main.G_io_apdu_buffer (MainLoop.signing w1)) with io. done.
  - assert (Hprompt :
      (MainLoop.UI_PROMPT MainLoop.ui_address_screen MainLoop.address_ok
         MainLoop.address_cancel ;;
       modify (fun w =>
         MainLoop.with_flags (Z.lor (MainLoop.flags w) Main.IO_ASYNCH_REPLY)
           w)) w1
      = (Ret tt,
         MainLoop.with_flags (Z.lor 0 Main.IO_ASYNCH_REPLY)
           (MainLoop.with_ui
              (Some (MainLoop.ui_address_screen, MainLoop.address_ok,
                     MainLoop.address_cancel))
              (MainLoop.with_signing
                 (Main.with_ui None (MainLoop.signing w1)) w1))))
      by reflexivity.
    rewrite Hprompt in Hkey.
    rewrite (bind_run _ _ _ _ _ Hkey). cbn [ret fst snd].
    do 3 (split; [done|]). do 3 (split; [done|]). split; [|done]. by intros.
Qed.

(** X25.  [address_ok] sets [address_enabled], and nothing clears it: no
    turn of the loop, however [io_exchange] ends, and no callback. *)
Theorem address_approval_is_sticky `{P : Main.Platform}
    `{D : MainLoop.Device} (w : MainLoop.world) :
  MainLoop.address_enabled
    (snd (MainLoop.call_callback MainLoop.address_ok w)) = true /\
  (MainLoop.address_enabled w = true ->
   (forall io x,
      MainLoop.address_enabled
        (snd (MainLoop.sample_main_iteration io x w)) = true) /\
   (forall cb,
      MainLoop.address_enabled (snd (MainLoop.call_callback cb w)) = true) /\
   (forall cb,
      MainLoop.address_enabled (snd (MainLoop.call_sign_callback cb w))
      = true)).
Proof.
  set (I := fun w : MainLoop.world => MainLoop.address_enabled w = true).
  assert (Hcb : forall cb, preserves I (MainLoop.call_callback cb)).
  { intros cb. unfold_main_loop. unfold_main_loop.
    destruct cb; repeat main_frame_step; by intros. }
  assert (Hscb : forall cb, preserves I (MainLoop.call_sign_callback cb)).
  { intros cb. unfold_main_loop. unfold_main_loop.
    destruct cb; repeat main_frame_step; by intros. }
  split.
  { unfold MainLoop.call_callback, MainLoop.address_ok_fn.
    rewrite bind_modify.
    assert (Hp : preserves I
      (bind (MainLoop.provide_address 0)
         (fun tx => MainLoop.io_exchange_return_after_tx tx))).
    { unfold_main_loop. repeat main_frame_step; by intros. }
    by apply Hp. }
  intros Hen. split; [|split; intros cb; [by apply Hcb|by apply Hscb]].
  intros io x. unfold MainLoop.sample_main_iteration.
  assert (Htry : preserves I (MainLoop.try_block io x)).
  { unfold MainLoop.try_block, MainLoop.io_exchange. unfold_main_loop.
    cbv zeta. repeat main_frame_step; by intros. }
  specialize (Htry w Hen).
  destruct (MainLoop.try_block io x w) as [[o|e] w1]; [done|].
  assert (Hcatch : preserves I (MainLoop.catch_other (MainLoop.exception_code e))).
  { unfold_main_loop. cbv zeta. repeat main_frame_step; by intros. }
  by apply Hcatch.
Qed.

Section record.

Context `{P : Main.Platform} `{D : MainLoop.Device}.

Lemma snd_bind_ret {W A B} (m : M W A) (f : A -> B) (w : W) :
  snd (bind m (fun a => ret (f a)) w) = snd (m w).
Proof. unfold bind. by destruct (m w) as [[a|e] w1]. Qed.

Lemma main_perform_signature_input tx (x : list byte * Z * list Z * Z) :
  preserves (fun s => signing_input s = x) (Main.perform_signature tx).
Proof.
  unfold Main.perform_signature, Main.store_apdu. cbv zeta.
  repeat main_frame_step; by intros.
Qed.

(** The case [INS_SIGN] leaves the record alone, unless the last packet
    completes a block or an endorsement that [is_baking_authorized]
    accepts. *)
Lemma main_ins_sign_record tx flags (s : Main.world)
    (r : result (Z * Z) * Main.world) :
  Main.ins_sign tx flags s = r ->
  let io := Main.G_io_apdu_buffer s in
  let c := Main.operationContext (snd r) in
  let d := take (Z.to_nat (Main.datalen c)) (Main.data c) in
  Main.nvram (snd r) = Main.nvram s \/
  (Z.land (Main.load8 io Main.OFFSET_P1) Main.P1_LAST_MARKER <> 0 /\
   (Main.get_magic_byte d = BakingAuth.MAGIC_BYTE_BLOCK \/
    Main.get_magic_byte d = BakingAuth.MAGIC_BYTE_BAKING_OP) /\
   Main.is_baking_authorized (BakingAuth.N_data (Main.nvram s)) d
     (Main.bip32_path c) (Main.path_length c) = true).
Proof.
  intros Hr io. unfold Main.ins_sign in Hr. rewrite bind_gets in Hr.
  fold io in Hr. cbv zeta in Hr.
  destruct (_ =? Main.P1_FIRST).
  { left. subst r.
    destruct (Main.read_bip32_path (drop Main.OFFSET_CDATA io)); reflexivity. }
  destruct (negb (_ =? Main.P1_NEXT)); [left; by subst r|].
  destruct (_ >? 2); [left; by subst r|].
  rewrite bind_gets in Hr.
  destruct (_ >? Main.TEZOS_BUFSIZE); [left; by subst r|].
  rewrite !bind_modify in Hr.
  destruct (Z.eqb_spec (Z.land (Main.load8 io Main.OFFSET_P1)
                          Main.P1_LAST_MARKER) 0) as [|Hlast];
    cbn [negb] in Hr; [left; by subst r|].
  rewrite bind_gets, bind_modify, bind_gets in Hr.
  match type of Hr with
  | context [Main.with_keyPath ?k ?w] => set (s2 := Main.with_keyPath k w) in *
  end.
  change (Main.nvram s2) with (Main.nvram s) in Hr.
  set (c2 := Main.operationContext _) in Hr.
  set (d2 := take (Z.to_nat (Main.datalen c2)) (Main.data c2)) in Hr.
  assert (Hsign :
    Main.get_magic_byte d2 = BakingAuth.MAGIC_BYTE_BLOCK \/
    Main.get_magic_byte d2 = BakingAuth.MAGIC_BYTE_BAKING_OP ->
    (if Main.is_baking_authorized (BakingAuth.N_data (Main.nvram s)) d2
          (Main.bip32_path c2) (Main.path_length c2)
     then bind (Main.perform_signature tx) (fun tx => ret (tx, flags))
     else bind (Main.UI_PROMPT Main.ui_bake_screen Main.bake_ok
                  Main.sign_cancel)
            (fun _ => ret (tx, Z.lor flags Main.IO_ASYNCH_REPLY))) s2 = r ->
    Main.nvram (snd r) = Main.nvram s \/
    (Z.land (Main.load8 io Main.OFFSET_P1) Main.P1_LAST_MARKER <> 0 /\
     (Main.get_magic_byte
        (take (Z.to_nat (Main.datalen (Main.operationContext (snd r))))
           (Main.data (Main.operationContext (snd r))))
      = BakingAuth.MAGIC_BYTE_BLOCK \/
      Main.get_magic_byte
        (take (Z.to_nat (Main.datalen (Main.operationContext (snd r))))
           (Main.data (Main.operationContext (snd r))))
      = BakingAuth.MAGIC_BYTE_BAKING_OP) /\
     Main.is_baking_authorized (BakingAuth.N_data (Main.nvram s))
       (take (Z.to_nat (Main.datalen (Main.operationContext (snd r))))
          (Main.data (Main.operationContext (snd r))))
       (Main.bip32_path (Main.operationContext (snd r)))
       (Main.path_length (Main.operationContext (snd r))) = true)).
  { clear Hr. intros Hmagic Hrun.
    destruct (Main.is_baking_authorized (BakingAuth.N_data (Main.nvram s)) d2
                (Main.bip32_path c2) (Main.path_length c2)) eqn:Hauth;
      [|left; by subst r].
    right. subst r. rewrite snd_bind_ret.
    pose proof (main_perform_signature_input tx (signing_input s2) s2
                  eq_refl) as Hin.
    unfold signing_input in Hin. cbv zeta in Hin.
    injection Hin as -> -> -> ->. fold c2 d2. by repeat split. }
  destruct (Main.get_magic_byte d2) eqn:Hmagic.
  all: try (left; by subst r).
  all: apply Hsign; [by (left + right)|exact Hr].
Qed.

End record.

Section loop_runs.

Context `{P : Main.Platform} `{D : MainLoop.Device}.

Lemma catch_other_signing (e : Z) (w : MainLoop.world) :
  Main.nvram (MainLoop.signing (snd (MainLoop.catch_other e w)))
  = Main.nvram (MainLoop.signing w) /\
  MainLoop.operationContext (snd (MainLoop.catch_other e w))
  = MainLoop.operationContext w.
Proof. by split. Qed.

Lemma ins_get_public_key_record nv :
  preserves (fun w => Main.nvram (MainLoop.signing w) = nv)
    MainLoop.ins_get_public_key.
Proof.
  unfold_main_loop. cbv zeta.
  repeat first
    [ preserves_step
    | apply (on_signing_zoom _ (fun s => Main.nvram s = nv));
        [unfold Main.store_apdu; repeat preserves_step; by intros
        |done|by intros] ];
    by intros.
Qed.

Lemma ins_reset_record nv :
  preserves (fun w => Main.nvram (MainLoop.signing w) = nv) MainLoop.ins_reset.
Proof.
  unfold_main_loop. cbv zeta.
  repeat first
    [ preserves_step
    | apply (on_signing_zoom _ (fun s => Main.nvram s = nv));
        [unfold Main.store_apdu; repeat preserves_step; by intros
        |done|by intros] ];
    by intros.
Qed.

Lemma delay_reject_record nv :
  preserves (fun w => Main.nvram (MainLoop.signing w) = nv)
    MainLoop.delay_reject.
Proof.
  unfold_main_loop. cbv zeta.
  repeat first
    [ preserves_step
    | apply (on_signing_zoom _ (fun s => Main.nvram s = nv));
        [unfold Main.store_apdu; repeat preserves_step; by intros
        |done|by intros] ];
    by intros.
Qed.

(** The case [INS_SIGN] of the loop, as [Main.ins_sign] on the signing
    globals. *)
Lemma loop_ins_sign_signing (w : MainLoop.world) :
  MainLoop.signing (snd (MainLoop.ins_sign w))
  = snd (Main.ins_sign (MainLoop.tx w) (MainLoop.flags w)
           (MainLoop.signing w)).
Proof.
  unfold MainLoop.ins_sign. rewrite !bind_gets.
  unfold bind, MainLoop.on_signing, zoom.
  by destruct (Main.ins_sign _ _ _) as [[[tx fl]|e] s].
Qed.

Lemma loop_ins_sign_throw (w : MainLoop.world) (e : exception)
    (s : Main.world) :
  Main.ins_sign (MainLoop.tx w) (MainLoop.flags w) (MainLoop.signing w)
  = (Throw e, s) ->
  bind MainLoop.ins_sign (fun _ => ret MainLoop.Continue) w
  = (Throw e, MainLoop.with_signing s w).
Proof.
  intros Hs. unfold MainLoop.ins_sign.
  repeat (rewrite bind_assoc || rewrite bind_gets).
  apply bind_run_throw. unfold MainLoop.on_signing, zoom. by rewrite Hs.
Qed.

Lemma iteration_signing (io : list byte) (x : result Z)
    (w : MainLoop.world) :
  let r := MainLoop.sample_main_iteration io x w in
  Main.nvram (MainLoop.signing (snd r)) = Main.nvram (MainLoop.signing w) \/
  (Main.load8 io MainLoop.OFFSET_INS = MainLoop.INS_SIGN /\
   Main.nvram (MainLoop.signing (snd r))
   = Main.nvram (snd (Main.ins_sign 0 0 (MainLoop.signing (command_received io w)))) /\
   MainLoop.operationContext (snd r)
   = Main.operationContext
       (snd (Main.ins_sign 0 0 (MainLoop.signing (command_received io w))))).
Proof.
  cbv zeta. unfold MainLoop.sample_main_iteration.
  assert (Hend : forall r1 : result MainLoop.outcome * MainLoop.world,
    Main.nvram
      (MainLoop.signing
         (snd (match r1 with
               | (Ret o, w') => (o, w')
               | (Throw e, w') =>
                   (MainLoop.Continue,
                    snd (MainLoop.catch_other (MainLoop.exception_code e) w'))
               end)))
    = Main.nvram (MainLoop.signing (snd r1)) /\
    MainLoop.operationContext
      (snd (match r1 with
            | (Ret o, w') => (o, w')
            | (Throw e, w') =>
                (MainLoop.Continue,
                 snd (MainLoop.catch_other (MainLoop.exception_code e) w'))
            end))
    = MainLoop.operationContext (snd r1)).
  { by intros [[o|e] w']. }
  destruct (Hend (MainLoop.try_block io x w)) as [-> ->]. clear Hend.
  destruct x as [rx|e]; [|by left].
  rewrite try_block_received.
  destruct (rx =? 0); [by left|].
  destruct (negb _); [by left|]. cbv zeta.
  destruct (_ =? MainLoop.INS_GET_PUBLIC_KEY).
  { left. rewrite snd_bind_ret. by apply ins_get_public_key_record. }
  destruct (_ =? MainLoop.INS_RESET).
  { left. rewrite snd_bind_ret. by apply ins_reset_record. }
  destruct (Z.eqb_spec (Main.load8 io MainLoop.OFFSET_INS) MainLoop.INS_SIGN)
    as [Hins|_].
  2:{ by destruct (_ =? 255); left. }
  right. rewrite snd_bind_ret. unfold MainLoop.operationContext.
  rewrite loop_ins_sign_signing. by repeat split.
Qed.

End loop_runs.

(** X26.  A turn of the loop, however [io_exchange] ends, changes the
    non-volatile record, or its log of signatures, only on the last packet
    of an [INS_SIGN] message whose bytes are a block or an endorsement that
    [is_baking_authorized] accepts.  Of the callbacks, [address_ok],
    [address_cancel], [reset_cancel] and [sign_cancel] never change it. *)
Theorem loop_signs_only_authorized_baking `{P : Main.Platform}
    `{D : MainLoop.Device} (io : list byte) (x : result Z)
    (w : MainLoop.world) :
  let r := MainLoop.sample_main_iteration io x w in
  let c := MainLoop.operationContext (snd r) in
  let d := take (Z.to_nat (Main.datalen c)) (Main.data c) in
  (Main.nvram (MainLoop.signing (snd r)) <> Main.nvram (MainLoop.signing w) ->
   Main.load8 io MainLoop.OFFSET_INS = MainLoop.INS_SIGN /\
   Z.land (Main.load8 io Main.OFFSET_P1) Main.P1_LAST_MARKER <> 0 /\
   (Main.get_magic_byte d = BakingAuth.MAGIC_BYTE_BLOCK \/
    Main.get_magic_byte d = BakingAuth.MAGIC_BYTE_BAKING_OP) /\
   Main.is_baking_authorized
     (BakingAuth.N_data (Main.nvram (MainLoop.signing w))) d
     (Main.bip32_path c) (Main.path_length c) = true) /\
  (forall cb,
     cb <> MainLoop.reset_ok ->
     Main.nvram (MainLoop.signing (snd (MainLoop.call_callback cb w)))
     = Main.nvram (MainLoop.signing w)) /\
  Main.nvram
    (MainLoop.signing (snd (MainLoop.call_sign_callback Main.sign_cancel w)))
  = Main.nvram (MainLoop.signing w).
Proof.
  intros r c d. split; [|split].
  - intros Hne.
    destruct (iteration_signing io x w) as [Hsame|(Hins & Hnv & Hc)];
      [done|].
    fold r in Hnv, Hc. split; [exact Hins|].
    destruct (main_ins_sign_record 0 0 (MainLoop.signing (command_received io w)) _
                eq_refl) as [Hsame|Hsigned].
    + exfalso. apply Hne. by rewrite Hnv, Hsame.
    + cbv zeta in Hsigned. rewrite <- Hc in Hsigned. exact Hsigned.
  - intros cb Hcb.
    assert (Haddr : preserves
      (fun w' => Main.nvram (MainLoop.signing w')
                 = Main.nvram (MainLoop.signing w))
      MainLoop.address_ok_fn).
    { unfold_main_loop. cbv zeta.
      repeat first
        [ preserves_step
        | apply (on_signing_zoom _
                   (fun s => Main.nvram s = Main.nvram (MainLoop.signing w)));
            [unfold Main.store_apdu; repeat preserves_step; by intros
            |done|by intros] ];
        by intros. }
    destruct cb; [by apply Haddr| |done|];
      by apply (delay_reject_record (Main.nvram (MainLoop.signing w))).
  - by apply (delay_reject_record (Main.nvram (MainLoop.signing w))).
Qed.

(** X27.  A FIRST packet of [INS_SIGN] is answered 0x9000 through the catch
    block whatever P2 is: the data buffer is zeroed, the path is read from
    the packet, and a P2 above 2 leaves the curve of the session before in
    place.  The record, the prompts and the responses are unchanged. *)
Theorem sign_first_packet_reply `{P : Main.Platform} `{D : MainLoop.Device}
    (io : list byte) (rx : Z) (w : MainLoop.world) :
  rx <> 0 ->
  Main.load8 io MainLoop.OFFSET_CLA = MainLoop.CLA ->
  Main.load8 io MainLoop.OFFSET_INS = MainLoop.INS_SIGN ->
  Z.land (Main.load8 io Main.OFFSET_P1) (Z.lnot Main.P1_LAST_MARKER)
  = Main.P1_FIRST ->
  let r := MainLoop.sample_main_iteration io (Ret rx) w in
  let c := MainLoop.operationContext (snd r) in
  fst r = MainLoop.Continue /\
  MainLoop.tx (snd r) = 2 /\
  MainLoop.flags (snd r) = 0 /\
  MainLoop.G_io_apdu_buffer (snd r) = [0x90; 0x00] ++ drop 2 io /\
  Main.datalen c = 0 /\
  Main.data c = replicate (Z.to_nat Main.TEZOS_BUFSIZE) 0 /\
  (Main.path_length c, Main.bip32_path c)
  = Main.read_bip32_path (drop Main.OFFSET_CDATA io) /\
  (2 < Main.load8 io Main.OFFSET_P2 ->
   Main.curve c = Main.curve (MainLoop.operationContext w)) /\
  Main.nvram (MainLoop.signing (snd r)) = Main.nvram (MainLoop.signing w) /\
  Main.ui (MainLoop.signing (snd r)) = Main.ui (MainLoop.signing w) /\
  MainLoop.ui (snd r) = MainLoop.ui w /\
  MainLoop.sent (snd r) = MainLoop.sent w.
Proof.
  intros Hrx Hcla Hins Hfirst r c.
  assert (Hrun : exists c1,
    MainLoop.try_block io (Ret rx) w =
    (Throw (EXC_raw 0x9000),
     MainLoop.with_signing
       (Main.with_operationContext c1 (MainLoop.signing (command_received io w)))
       (command_received io w)) /\
    Main.datalen c1 = 0 /\
    Main.data c1 = replicate (Z.to_nat Main.TEZOS_BUFSIZE) 0 /\
    (Main.path_length c1, Main.bip32_path c1)
    = Main.read_bip32_path (drop Main.OFFSET_CDATA io) /\
    (2 < Main.load8 io Main.OFFSET_P2 ->
     Main.curve c1 = Main.curve (MainLoop.operationContext w))).
  { rewrite try_block_received.
    destruct (Z.eqb_spec rx 0); [done|]. rewrite Hcla, Hins.
    change (negb (MainLoop.CLA =? MainLoop.CLA)) with false.
    cbv iota zeta.
    change (MainLoop.INS_SIGN =? MainLoop.INS_GET_PUBLIC_KEY) with false.
    change (MainLoop.INS_SIGN =? MainLoop.INS_RESET) with false.
    change (MainLoop.INS_SIGN =? MainLoop.INS_SIGN) with true.
    cbv iota.
    assert (Hs : exists c1,
      Main.ins_sign 0 0 (MainLoop.signing (command_received io w))
      = (Throw (EXC_raw 0x9000),
         Main.with_operationContext c1 (MainLoop.signing (command_received io w))) /\
      c1 =
      (match Main.load8 io Main.OFFSET_P2 with
       | 0 => Main.with_curve CX_CURVE_Ed25519
       | 1 => Main.with_curve CX_CURVE_SECP256K1
       | 2 => Main.with_curve CX_CURVE_SECP256R1
       | _ => fun c => c
       end)
        (Main.with_path
           (fst (Main.read_bip32_path (drop Main.OFFSET_CDATA io)))
           (snd (Main.read_bip32_path (drop Main.OFFSET_CDATA io)))
           (Main.with_datalen 0
              (Main.with_data (replicate (Z.to_nat Main.TEZOS_BUFSIZE) 0)
                 (MainLoop.operationContext w))))).
    { unfold Main.ins_sign. rewrite bind_gets.
      change (Main.G_io_apdu_buffer (MainLoop.signing (command_received io w)))
        with io.
      cbv zeta. rewrite Hfirst.
      change (Main.P1_FIRST =? Main.P1_FIRST) with true. cbv iota.
      destruct (Main.read_bip32_path (drop Main.OFFSET_CDATA io)) as [len path].
      rewrite !bind_modify. unfold Main.return_ok, throw.
      eexists. split; [reflexivity|].
      by destruct (Main.load8 io Main.OFFSET_P2) as [|[[]|[]|]|]. }
    destruct Hs as (c1 & Hs & Hc1).
    rewrite (loop_ins_sign_throw (command_received io w) _ _ Hs).
    exists c1. split; [reflexivity|]. subst c1.
    destruct (Main.read_bip32_path (drop Main.OFFSET_CDATA io)) as [len path].
    split; [by destruct (Main.load8 io Main.OFFSET_P2) as [|[[]|[]|]|]|].
    split; [by destruct (Main.load8 io Main.OFFSET_P2) as [|[[]|[]|]|]|].
    split; [by destruct (Main.load8 io Main.OFFSET_P2) as [|[[]|[]|]|]|].
    intros Hp2.
    destruct (Main.load8 io Main.OFFSET_P2) as [|[[]|[]|]|]; try done; lia. }
  destruct Hrun as (c1 & Hrun & Hlen & Hdata & Hpath & Hcurve).
  subst r c. unfold MainLoop.sample_main_iteration. rewrite Hrun.
  by repeat split.
Qed.

(** X22.  The commands that the loop refuses before it acts on them: nothing
    received (0x6982), a wrong class (0x6E00), an unknown instruction
    (0x6D00), [INS_GET_PUBLIC_KEY] with P1 other than 0 or P2 above 2
    (0x6B00), [INS_RESET] with a length other than [sizeof(int)] (0x6C00),
    and [INS_SIGN] with a packet kind other than FIRST and NEXT, or a NEXT
    packet with P2 above 2 (0x6B00).  Each is answered with its status word,
    and but for the APDU buffer, [tx] and [flags] the state is as it was. *)
Theorem refused_command_reply `{P : Main.Platform} `{D : MainLoop.Device}
    (io : list byte) (rx : Z) (w : MainLoop.world) :
  let ins := Main.load8 io MainLoop.OFFSET_INS in
  let refused sw :=
    MainLoop.sample_main_iteration io (Ret rx) w
    = (MainLoop.Continue, status_reply sw io (command_received io w)) in
  (rx = 0 -> refused 0x6982) /\
  (rx <> 0 ->
   (Main.load8 io MainLoop.OFFSET_CLA <> MainLoop.CLA -> refused 0x6E00) /\
   (Main.load8 io MainLoop.OFFSET_CLA = MainLoop.CLA ->
    (ins <> MainLoop.INS_GET_PUBLIC_KEY -> ins <> MainLoop.INS_RESET ->
     ins <> MainLoop.INS_SIGN -> ins <> 0xFF -> refused 0x6D00) /\
    (ins = MainLoop.INS_GET_PUBLIC_KEY ->
     Main.load8 io Main.OFFSET_P1 <> 0 \/ 2 < Main.load8 io Main.OFFSET_P2 ->
     refused 0x6B00) /\
    (ins = MainLoop.INS_RESET ->
     Main.load8 io Main.OFFSET_LC <> MainLoop.sizeof_int ->
     refused 0x6C00) /\
    (ins = MainLoop.INS_SIGN ->
     let kind :=
       Z.land (Main.load8 io Main.OFFSET_P1) (Z.lnot Main.P1_LAST_MARKER) in
     kind <> Main.P1_FIRST ->
     kind <> Main.P1_NEXT \/ 2 < Main.load8 io Main.OFFSET_P2 ->
     refused 0x6B00))).
Proof.
  intros ins refused. subst refused. cbv beta.
  unfold MainLoop.sample_main_iteration. rewrite try_block_received.
  split.
  { intros ->. reflexivity. }
  intros Hrx. destruct (Z.eqb_spec rx 0) as [|_]; [done|].
  split.
  { intros Hcla.
    destruct (Z.eqb_spec (Main.load8 io MainLoop.OFFSET_CLA) MainLoop.CLA);
      [done|reflexivity]. }
  intros Hcla. rewrite Hcla.
  change (negb (MainLoop.CLA =? MainLoop.CLA)) with false. cbv iota zeta.
  fold ins. split; [|split; [|split]].
  - intros H1 H2 H3 H4.
    destruct (Z.eqb_spec ins MainLoop.INS_GET_PUBLIC_KEY); [done|].
    destruct (Z.eqb_spec ins MainLoop.INS_RESET); [done|].
    destruct (Z.eqb_spec ins MainLoop.INS_SIGN); [done|].
    destruct (Z.eqb_spec ins 255); [done|]. reflexivity.
  - intros -> Hbad.
    change (MainLoop.INS_GET_PUBLIC_KEY =? MainLoop.INS_GET_PUBLIC_KEY)
      with true. cbv iota.
    unfold MainLoop.ins_get_public_key. rewrite bind_assoc, bind_gets.
    change (MainLoop.G_io_apdu_buffer (command_received io w)) with io. cbv zeta.
    destruct (Z.eqb_spec (Main.load8 io Main.OFFSET_P1) 0) as [Hp1|Hp1];
      cbn [negb]; [|reflexivity].
    destruct (Z.gtb_spec (Main.load8 io Main.OFFSET_P2) 2); [reflexivity|].
    destruct Hbad; [done|lia].
  - intros -> Hlc.
    change (MainLoop.INS_RESET =? MainLoop.INS_GET_PUBLIC_KEY) with false.
    change (MainLoop.INS_RESET =? MainLoop.INS_RESET) with true. cbv iota.
    unfold MainLoop.ins_reset. rewrite bind_assoc, bind_gets.
    change (MainLoop.G_io_apdu_buffer (command_received io w)) with io. cbv zeta.
    destruct (Z.eqb_spec (Main.load8 io Main.OFFSET_LC) MainLoop.sizeof_int);
      [done|reflexivity].
  - intros -> Hfirst Hbad.
    set (kind := Z.land (Main.load8 io Main.OFFSET_P1)
                   (Z.lnot Main.P1_LAST_MARKER)) in *.
    change (MainLoop.INS_SIGN =? MainLoop.INS_GET_PUBLIC_KEY) with false.
    change (MainLoop.INS_SIGN =? MainLoop.INS_RESET) with false.
    change (MainLoop.INS_SIGN =? MainLoop.INS_SIGN) with true. cbv iota.
    assert (Hs : Main.ins_sign 0 0 (MainLoop.signing (command_received io w))
                 = (Throw (EXC_raw 0x6B00), MainLoop.signing (command_received io w))).
    { unfold Main.ins_sign. rewrite bind_gets.
      change (Main.G_io_apdu_buffer (MainLoop.signing (command_received io w)))
        with io.
      cbv zeta. fold kind.
      destruct (Z.eqb_spec kind Main.P1_FIRST); [done|].
      destruct (Z.eqb_spec kind Main.P1_NEXT) as [Hnext|Hnext]; cbn [negb];
        [|reflexivity].
      destruct (Z.gtb_spec (Main.load8 io Main.OFFSET_P2) 2); [reflexivity|].
      destruct Hbad; [done|lia]. }
    by rewrite (loop_ins_sign_throw (command_received io w) _ _ Hs).
Qed.


Lemma error_reply_is_status_word_witness :
  let io := LoopSample.command 0x99 0 0 [] in
  let w1 := command_received io LoopSample.world0 in
  let sw :=
    MainLoop.status_word
      (MainLoop.exception_code (D := LoopSample.device) (EXC_raw 0x6D00)) in
  MainLoop.sample_main_iteration (P := Sample.main_platform)
    (D := LoopSample.device) io (Ret 5) LoopSample.world0
  = (MainLoop.Continue, status_reply sw io w1) /\
  MainLoop.flags w1 = 0 /\
  (0x6000 <= sw < 0x7000 \/ 0x9000 <= sw < 0xA000) /\
  Z.shiftr sw 8 mod 256 * 256 + sw mod 256 = sw.
Proof.
  intros io w1 sw.
  refine (error_reply_is_status_word (P := Sample.main_platform)
            (D := LoopSample.device) io (Ret 5) LoopSample.world0
            (EXC_raw 0x6D00) w1 _).
  vm_compute; reflexivity.
Defined.

Lemma approved_address_response_witness :
  let w := LoopSample.world0 in
  let c := Main.curve (MainLoop.operationContext w) in
  let pk := MainLoop.publicKey w in
  exists w',
    MainLoop.call_callback (D := LoopSample.device) MainLoop.address_ok w
    = (Ret tt, w') /\
    MainLoop.address_enabled w' = true /\
    MainLoop.sent w'
    = MainLoop.sent w ++ [address_reply (D := LoopSample.device) c pk] /\
    MainLoop.ui w' = MainLoop.ui w /\
    MainLoop.operationContext w' = MainLoop.operationContext w /\
    Main.nvram (MainLoop.signing w') = Main.nvram (MainLoop.signing w).
Proof.
  intros w c pk.
  refine (approved_address_response (D := LoopSample.device) w _ _).
  - vm_compute; reflexivity.
  - vm_compute; discriminate.
Defined.

Lemma get_public_key_reply_witness :
  fst (MainLoop.sample_main_iteration (P := Sample.main_platform)
         (D := LoopSample.device) LoopSample.get_public_key (Ret 14)
         LoopSample.world0)
  = MainLoop.Continue.
Proof.
  refine (proj1 (get_public_key_reply (P := Sample.main_platform)
                   (D := LoopSample.device) LoopSample.get_public_key 14
                   LoopSample.world0 _ _ _ _ _)).
  - discriminate.
  - vm_compute; reflexivity.
  - vm_compute; reflexivity.
  - vm_compute; reflexivity.
  - vm_compute; discriminate.
Defined.

Lemma address_approval_is_sticky_witness :
  let w :=
    snd (MainLoop.call_callback (D := LoopSample.device) MainLoop.address_ok
           LoopSample.world0) in
  MainLoop.address_enabled
    (snd (MainLoop.sample_main_iteration (P := Sample.main_platform)
            (D := LoopSample.device) LoopSample.get_public_key (Ret 14)
            w)) = true.
Proof.
  intros w.
  refine (proj1 (proj2 (address_approval_is_sticky (P := Sample.main_platform)
                          (D := LoopSample.device) w) _)
            LoopSample.get_public_key (Ret 14)).
  vm_compute; reflexivity.
Defined.

Lemma loop_signs_only_authorized_baking_witness :
  let io := LoopSample.command 0x04 0x81 0 (Sample.block_at 101) in
  let w := LoopSample.world0 in
  let r :=
    MainLoop.sample_main_iteration (P := Sample.main_platform)
      (D := LoopSample.device) io (Ret 15) w in
  let c := MainLoop.operationContext (snd r) in
  let d := take (Z.to_nat (Main.datalen c)) (Main.data c) in
  Main.load8 io MainLoop.OFFSET_INS = MainLoop.INS_SIGN /\
  Z.land (Main.load8 io Main.OFFSET_P1) Main.P1_LAST_MARKER <> 0 /\
  (Main.get_magic_byte (Platform := Sample.main_platform) d
   = BakingAuth.MAGIC_BYTE_BLOCK \/
   Main.get_magic_byte (Platform := Sample.main_platform) d
   = BakingAuth.MAGIC_BYTE_BAKING_OP) /\
  Main.is_baking_authorized (Platform := Sample.main_platform)
    (BakingAuth.N_data (Main.nvram (MainLoop.signing w))) d
    (Main.bip32_path c) (Main.path_length c) = true.
Proof.
  intros io w r c d.
  refine (proj1 (loop_signs_only_authorized_baking
                   (P := Sample.main_platform) (D := LoopSample.device)
                   io (Ret 15) w) _).
  vm_compute; discriminate.
Defined.

Lemma sign_first_packet_reply_witness :
  fst (MainLoop.sample_main_iteration (P := Sample.main_platform)
         (D := LoopSample.device) Sample.first_packet (Ret 14)
         LoopSample.world0)
  = MainLoop.Continue.
Proof.
  refine (proj1 (sign_first_packet_reply (P := Sample.main_platform)
                   (D := LoopSample.device) Sample.first_packet 14
                   LoopSample.world0 _ _ _ _)).
  - discriminate.
  - vm_compute; reflexivity.
  - vm_compute; reflexivity.
  - vm_compute; reflexivity.
Defined.

Lemma refused_command_reply_witness :
  let io := LoopSample.command 0x04 0x81 0 [3; 1; 2] in
  MainLoop.sample_main_iteration (P := Sample.main_platform)
    (D := LoopSample.device) io (Ret 0) LoopSample.world0
  = (MainLoop.Continue,
     status_reply 0x6982 io (command_received io LoopSample.world0)).
Proof.
  intros io.
  refine (proj1 (refused_command_reply (P := Sample.main_platform)
                   (D := LoopSample.device) io 0 LoopSample.world0) _).
  reflexivity.
Defined.
